(** * terraform-provider-make: the reconciliation layer, embedded in Rocq

    A shallow embedding of the Make.com Terraform provider
    (package [provider]): the API client ([MakeRequest],
    [HandleErrorResponse] and the per-kind Create/Get/Update/Delete calls),
    the resource implementations (Create/Read/Update/Delete/ImportState of
    the scenario, connection, webhook, team, organization and data store
    resources) and the conversion of webhook settings to strings.

    What lies outside the repository is taken as a parameter: the HTTP
    round trip ([HTTPClient.Do]), [net/url], [encoding/json] and the
    generic [%v] verb of [fmt].  The verbs [%d], [%t] and [%f], whose
    output the specification pins down, are written out. *)

From Stdlib Require Import ZArith String Ascii List Bool Lia.
From Stdlib Require Import DecimalString DecimalZ.
From stdpp Require Import base option gmap strings.

#[local] Set Warnings "-register-all".
#[local] Open Scope string_scope.
#[local] Open Scope Z_scope.

(** ** Go values that the embedding needs *)

(** A Go [error]: [errors.New]/[fmt.Errorf] without [%w] build an
    [errorString]; [fmt.Errorf] with one [%w] builds a [wrapError] that
    keeps the formatted text and the wrapped error. *)
Inductive error : Type :=
| errorString (s : string)
| wrapError (msg : string) (err : error).

Definition Error (e : error) : string :=
  match e with
  | errorString s => s
  | wrapError msg _ => msg
  end.

(** [fmt.Errorf(prefix + "%w", err)]. *)
Definition Errorf_w (prefix : string) (err : error) : error :=
  wrapError (prefix +:+ Error err) err.

(** Go's [(value, error)] return pair, of which exactly one side is
    meaningful. *)
Inductive result (A : Type) : Type :=
| Ok (a : A)
| Err (e : error).
Arguments Ok {A} a.
Arguments Err {A} e.

(** *** [%d]: base-10 rendering of an integer *)

Definition FormatInt (n : Z) : string :=
  NilZero.string_of_int (Z.to_int n).

Definition ParseInt (s : string) : option Z :=
  Z.of_int <$> NilZero.int_of_string s.

Definition is_digit (c : ascii) : bool :=
  let n := nat_of_ascii c in (48 <=? n)%nat && (n <=? 57)%nat.

Fixpoint all_digits (s : string) : bool :=
  match s with
  | EmptyString => true
  | String c s' => is_digit c && all_digits s'
  end.

(** *** [%t] *)

Definition FormatBool (b : bool) : string :=
  if b then "true" else "false".

(** *** [%f]: six digits after the decimal point

    A float is NaN, an infinity, or the exact dyadic number
    [(-1)^neg * m * 2^e]; [float32] and [float64] values are both of this
    form and [%f] prints the exact value rounded half-to-even at the
    sixth decimal. *)
Inductive float : Type :=
| FNaN
| FInf (neg : bool)
| FFinite (neg : bool) (m : N) (e : Z).

Definition is_finite (f : float) : bool :=
  match f with
  | FFinite _ _ _ => true
  | _ => false
  end.

Definition round_half_even (num den : Z) : Z :=
  let q := num / den in
  let r := num mod den in
  if 2 * r <? den then q
  else if den <? 2 * r then q + 1
  else if Z.even q then q else q + 1.

(** The magnitude [m * 2^e] in millionths, rounded to an integer. *)
Definition micros (m : N) (e : Z) : Z :=
  if 0 <=? e then Z.of_N m * 2 ^ e * 1000000
  else round_half_even (Z.of_N m * 1000000) (2 ^ (- e)).

Definition digit_char (d : Z) : ascii :=
  ascii_of_nat (48 + Z.to_nat (d mod 10)).

(** The six decimals of a number of millionths, zero padded. *)
Definition frac6 (q : Z) : string :=
  String (digit_char (q / 100000))
 (String (digit_char (q / 10000))
 (String (digit_char (q / 1000))
 (String (digit_char (q / 100))
 (String (digit_char (q / 10))
 (String (digit_char q) EmptyString))))).

Definition FormatFloat_f (f : float) : string :=
  match f with
  | FNaN => "NaN"
  | FInf false => "+Inf"
  | FInf true => "-Inf"
  | FFinite neg m e =>
      let q := micros m e in
      (if neg then "-" else "") +:+ FormatInt (q / 1000000) +:+ "." +:+ frac6 q
  end.

(** *** Dynamically typed values ([interface{}])

    The dynamic types a settings value can have: the built-in scalar
    types the type switch of [WebhookResource.Create] names, a value of
    some type with a [String() string] method (carrying what the method
    returns), and the shapes [encoding/json] produces for null, arrays
    and objects. *)
Inductive intType : Type := Int | Int8 | Int16 | Int32 | Int64.
Inductive uintType : Type := Uint | Uint8 | Uint16 | Uint32 | Uint64.
Inductive floatType : Type := Float32 | Float64.

Inductive value : Type :=
| VString (s : string)
| VStringer (str : string)
| VInt (t : intType) (n : Z)
| VUint (t : uintType) (n : N)
| VFloat (t : floatType) (f : float)
| VBool (b : bool)
| VNil
| VSlice (l : list value)
| VMap (m : gmap string value).

(** ** terraform-plugin-framework values *)

Inductive tfString : Type :=
| StringNull
| StringUnknown
| StringValue (s : string).

Inductive tfBool : Type :=
| BoolNull
| BoolUnknown
| BoolValue (b : bool).

(** A [types.Map] with [types.StringType] elements. *)
Inductive tfMap : Type :=
| MapNull
| MapUnknown
| MapValue (elems : gmap string tfString).

Definition String_IsNull (v : tfString) : bool :=
  match v with StringNull => true | _ => false end.

Definition String_IsUnknown (v : tfString) : bool :=
  match v with StringUnknown => true | _ => false end.

(** [ValueString] is the empty string for null and unknown. *)
Definition ValueString (v : tfString) : string :=
  match v with StringValue s => s | _ => "" end.

(** [ValueBool] is [false] for null and unknown. *)
Definition ValueBool (v : tfBool) : bool :=
  match v with BoolValue b => b | _ => false end.

Definition Map_IsNull (v : tfMap) : bool :=
  match v with MapNull => true | _ => false end.

(** *** Diagnostics *)

Inductive severity : Type := SeverityError | SeverityWarning.

Record Diagnostic : Type := {
  Severity : severity;
  Summary : string;
  Detail : string
}.

Definition Diagnostics : Type := list Diagnostic.

Definition is_error (d : Diagnostic) : bool :=
  match Severity d with SeverityError => true | SeverityWarning => false end.

Definition HasError (ds : Diagnostics) : bool := existsb is_error ds.

Definition AddError (summary detail : string) (ds : Diagnostics) : Diagnostics :=
  (ds ++ [{| Severity := SeverityError; Summary := summary; Detail := detail |}])%list.

(** [data.Settings.ElementsAs(ctx, &settingsMap, false)] into a
    [map[string]string]: a Go string holds neither null nor unknown, so
    such an element (or an unknown map) is reported as an error. *)
Definition elem_string (v : tfString) : option string :=
  match v with StringValue s => Some s | _ => None end.

Definition ElementsAs (v : tfMap) : result (gmap string string) :=
  match v with
  | MapNull => Ok ∅
  | MapUnknown => Err (errorString "Value Conversion Error")
  | MapValue elems =>
      if bool_decide (map_Forall (fun _ e => is_Some (elem_string e)) elems)
      then Ok (omap elem_string elems)
      else Err (errorString "Value Conversion Error")
  end.


(** ** Wire format (client.go)

    One module per Go struct, so that the fields keep their Go names. *)

Module ErrorResponse.
Record t : Type := {
  Error : string;
  Message : string;
  Code : Z
}.
End ErrorResponse.

Module ScenarioResponse.
Record t : Type := {
  ID : string;
  Name : string;
  Description : string;
  Active : bool;
  TeamID : string
}.
End ScenarioResponse.

Module ScenarioRequest.
Record t : Type := {
  Name : string;
  Description : string;
  Active : bool;
  TeamID : string
}.
End ScenarioRequest.

(** [connection_resource.go] and [connection_data_source.go] read
    [connection.Settings]; the field is part of the struct here. *)
Module ConnectionResponse.
Record t : Type := {
  ID : string;
  Name : string;
  AppName : string;
  TeamID : string;
  Verified : bool;
  Settings : gmap string value
}.
End ConnectionResponse.

Module ConnectionRequest.
Record t : Type := {
  Name : string;
  AppName : string;
  TeamID : string;
  Settings : gmap string value
}.
End ConnectionRequest.

Module WebhookResponse.
Record t : Type := {
  ID : string;
  Name : string;
  URL : string;
  TeamID : string;
  Active : bool;
  Settings : gmap string value
}.
End WebhookResponse.

Module WebhookRequest.
Record t : Type := {
  Name : string;
  URL : string;
  TeamID : string;
  Active : bool;
  Settings : gmap string value
}.
End WebhookRequest.

Module TeamResponse.
Record t : Type := {
  ID : string;
  Name : string;
  OrganizationID : string
}.
End TeamResponse.

Module TeamRequest.
Record t : Type := {
  Name : string;
  OrganizationID : string
}.
End TeamRequest.

Module OrganizationResponse.
Record t : Type := {
  ID : string;
  Name : string
}.
End OrganizationResponse.

Module OrganizationRequest.
Record t : Type := {
  Name : string
}.
End OrganizationRequest.

Module DataStoreResponse.
Record t : Type := {
  ID : string;
  Name : string;
  Description : string;
  TeamID : string
}.
End DataStoreResponse.

Module DataStoreRequest.
Record t : Type := {
  Name : string;
  Description : string;
  TeamID : string
}.
End DataStoreRequest.

(** The six resource kinds.  Their client functions differ only in the
    collection path, the noun of the not-found message and the struct
    types, which are tabulated here. *)
Inductive kind : Type :=
| Scenario | Connection | Webhook | Team | Organization | DataStore.

Definition collection (k : kind) : string :=
  match k with
  | Scenario => "v2/scenarios"
  | Connection => "v2/connections"
  | Webhook => "v2/webhooks"
  | Team => "v2/teams"
  | Organization => "v2/organizations"
  | DataStore => "v2/data-stores"
  end.

Definition noun (k : kind) : string :=
  match k with
  | Scenario => "scenario"
  | Connection => "connection"
  | Webhook => "webhook"
  | Team => "team"
  | Organization => "organization"
  | DataStore => "data store"
  end.

Definition RequestT (k : kind) : Type :=
  match k with
  | Scenario => ScenarioRequest.t
  | Connection => ConnectionRequest.t
  | Webhook => WebhookRequest.t
  | Team => TeamRequest.t
  | Organization => OrganizationRequest.t
  | DataStore => DataStoreRequest.t
  end.

Definition ResponseT (k : kind) : Type :=
  match k with
  | Scenario => ScenarioResponse.t
  | Connection => ConnectionResponse.t
  | Webhook => WebhookResponse.t
  | Team => TeamResponse.t
  | Organization => OrganizationResponse.t
  | DataStore => DataStoreResponse.t
  end.

Definition ResponseID (k : kind) : ResponseT k -> string :=
  match k with
  | Scenario => ScenarioResponse.ID
  | Connection => ConnectionResponse.ID
  | Webhook => WebhookResponse.ID
  | Team => TeamResponse.ID
  | Organization => OrganizationResponse.ID
  | DataStore => DataStoreResponse.ID
  end.

(** The [body interface{}] argument of [MakeRequest]: one of the request
    structs.  [json.Marshal] cannot fail on them; the bytes on the wire
    are the transport's concern. *)
Inductive payload : Type :=
| Payload (k : kind) (r : RequestT k).

Record Request : Type := {
  Method : string;
  URL : string;
  Header : list (string * string);
  ReqBody : option payload
}.

(** An [*http.Response].  Its body is a stream: [Delivered] holds the
    bytes it yields and [ReadError] tells how it ends, [None] for a
    clean end ([io.EOF]) and [Some err] for a read that fails with
    [err] once those bytes are out. *)
Record Response : Type := {
  StatusCode : Z;
  Status : string;
  Delivered : string;
  ReadError : option error
}.

(** [io.ReadAll(resp.Body)]: every byte of the stream, or the error of
    the read that failed. *)
Definition Body (resp : Response) : result string :=
  match ReadError resp with
  | None => Ok (Delivered resp)
  | Some err => Err err
  end.

(** The standard-library functions the client calls. *)
Record Lib : Type := {
  (** [url.Parse(base)], then [path.Join] of its path with the endpoint,
      then [String()]; fails when [url.Parse] does. *)
  url_join : string -> string -> result string;
  (** [json.NewDecoder(r).Decode(&v)] on a stream that yields the given
      bytes and ends. *)
  json_Decode : forall k : kind, string -> result (ResponseT k);
  (** Whether the scanner of the decoder settles the first value within
      the given bytes: it meets the end of a complete value, or a syntax
      error, and asks the stream for no more. *)
  json_settles : string -> bool;
  (** [json.Unmarshal(body, &errorResp)]. *)
  json_Unmarshal : string -> result ErrorResponse.t;
  (** [fmt.Sprintf("%v", v)]. *)
  fmt_Sprint : value -> string
}.

(** [HTTPClient.Do] talks to a remote service whose state is [world]. *)
Record MakeAPIClient (world : Type) : Type := {
  ApiToken : string;
  BaseUrl : string;
  HTTPClient : Request -> world -> result Response * world
}.
Arguments ApiToken {world} _.
Arguments BaseUrl {world} _.
Arguments HTTPClient {world} _ _ _.

(** Calls that reach the remote service thread its state. *)
Definition M (world A : Type) : Type := world -> A * world.

Definition ret {world A : Type} (a : A) : M world A := fun w => (a, w).

Definition bind {world A B : Type} (m : M world A) (f : A -> M world B) : M world B :=
  fun w => let (a, w') := m w in f a w'.

Notation "x <- c1 ;; c2" := (bind c1 (fun x => c2))
  (at level 100, c1 at next level, right associativity).

Section Client.
Context {world : Type} (L : Lib) (c : MakeAPIClient world).

(** [http.NewRequestWithContext] and the three [req.Header.Set]. *)
Definition newRequest (method u : string) (body : option payload) : Request :=
  {| Method := method;
     URL := u;
     Header := [("Authorization", "Token " +:+ ApiToken c);
                ("Content-Type", "application/json");
                ("Accept", "application/json")];
     ReqBody := body |}.

Definition MakeRequest (method endpoint : string) (body : option payload)
  : M world (result Response) :=
  match url_join L (BaseUrl c) endpoint with
  | Err err => ret (Err (Errorf_w "invalid base URL: " err))
  | Ok u =>
      r <- HTTPClient c (newRequest method u body) ;;
      match r with
      | Err err => ret (Err (Errorf_w "failed to perform request: " err))
      | Ok resp => ret (Ok resp)
      end
  end.

(** [fmt.Errorf("API request failed with status %d: %s", status, message)]. *)
Definition apiError (status : Z) (message : string) : error :=
  errorString ("API request failed with status " +:+ FormatInt status +:+ ": " +:+ message).

Definition HandleErrorResponse (resp : Response) : error :=
  match Body resp with
  | Err _ => apiError (StatusCode resp) (Status resp)
  | Ok body =>
      match json_Unmarshal L body with
      | Err _ => apiError (StatusCode resp) body
      | Ok errorResp =>
          let message := ErrorResponse.Message errorResp in
          let message :=
            if String.eqb message "" then ErrorResponse.Error errorResp else message in
          let message :=
            if String.eqb message "" then body else message in
          apiError (StatusCode resp) message
      end
  end.

(** [fmt.Sprintf("v2/scenarios/%s", id)] and its five siblings. *)
Definition endpoint (k : kind) (id : string) : string :=
  collection k +:+ "/" +:+ id.

(** [fmt.Errorf("scenario with ID %s not found", id)] and its siblings. *)
Definition notFound (k : kind) (id : string) : error :=
  errorString (noun k +:+ " with ID " +:+ id +:+ " not found").

(** [json.NewDecoder(resp.Body).Decode(&v)].  The decoder scans the
    bytes it holds before it looks at the error of the read that brought
    them: when the bytes delivered settle the first value it goes on as
    on a stream that ends there, and a read that fails later is not
    seen; when they do not, the error of the read is its error. *)
Definition Decode (k : kind) (resp : Response) : result (ResponseT k) :=
  match ReadError resp with
  | None => json_Decode L k (Delivered resp)
  | Some err =>
      if json_settles L (Delivered resp) then json_Decode L k (Delivered resp)
      else Err err
  end.

(** [if err := json.NewDecoder(resp.Body).Decode(&v); err != nil
    { return nil, fmt.Errorf("failed to decode response: %w", err) }]. *)
Definition decodeResponse (k : kind) (resp : Response) : result (ResponseT k) :=
  match Decode k resp with
  | Err err => Err (Errorf_w "failed to decode response: " err)
  | Ok v => Ok v
  end.

Definition Create (k : kind) (req : RequestT k) : M world (result (ResponseT k)) :=
  r <- MakeRequest "POST" (collection k) (Some (Payload k req)) ;;
  match r with
  | Err err => ret (Err err)
  | Ok resp =>
      if 400 <=? StatusCode resp then ret (Err (HandleErrorResponse resp))
      else ret (decodeResponse k resp)
  end.

Definition Get (k : kind) (id : string) : M world (result (ResponseT k)) :=
  r <- MakeRequest "GET" (endpoint k id) None ;;
  match r with
  | Err err => ret (Err err)
  | Ok resp =>
      if StatusCode resp =? 404 then ret (Err (notFound k id))
      else if 400 <=? StatusCode resp then ret (Err (HandleErrorResponse resp))
      else ret (decodeResponse k resp)
  end.

Definition Update (k : kind) (id : string) (req : RequestT k)
  : M world (result (ResponseT k)) :=
  r <- MakeRequest "PUT" (endpoint k id) (Some (Payload k req)) ;;
  match r with
  | Err err => ret (Err err)
  | Ok resp =>
      if StatusCode resp =? 404 then ret (Err (notFound k id))
      else if 400 <=? StatusCode resp then ret (Err (HandleErrorResponse resp))
      else ret (decodeResponse k resp)
  end.

(** [None] is Go's [nil] error. *)
Definition Delete (k : kind) (id : string) : M world (option error) :=
  r <- MakeRequest "DELETE" (endpoint k id) None ;;
  match r with
  | Err err => ret (Some err)
  | Ok resp =>
      if StatusCode resp =? 404 then ret None
      else if 400 <=? StatusCode resp then ret (Some (HandleErrorResponse resp))
      else ret None
  end.

Definition CreateScenario : ScenarioRequest.t -> M world (result ScenarioResponse.t) :=
  Create Scenario.
Definition GetScenario : string -> M world (result ScenarioResponse.t) :=
  Get Scenario.
Definition UpdateScenario : string -> ScenarioRequest.t -> M world (result ScenarioResponse.t) :=
  Update Scenario.
Definition DeleteScenario : string -> M world (option error) :=
  Delete Scenario.

Definition CreateConnection : ConnectionRequest.t -> M world (result ConnectionResponse.t) :=
  Create Connection.
Definition GetConnection : string -> M world (result ConnectionResponse.t) :=
  Get Connection.
Definition UpdateConnection : string -> ConnectionRequest.t -> M world (result ConnectionResponse.t) :=
  Update Connection.
Definition DeleteConnection : string -> M world (option error) :=
  Delete Connection.

Definition CreateWebhook : WebhookRequest.t -> M world (result WebhookResponse.t) :=
  Create Webhook.
Definition GetWebhook : string -> M world (result WebhookResponse.t) :=
  Get Webhook.
Definition UpdateWebhook : string -> WebhookRequest.t -> M world (result WebhookResponse.t) :=
  Update Webhook.
Definition DeleteWebhook : string -> M world (option error) :=
  Delete Webhook.

Definition CreateTeam : TeamRequest.t -> M world (result TeamResponse.t) :=
  Create Team.
Definition GetTeam : string -> M world (result TeamResponse.t) :=
  Get Team.
Definition UpdateTeam : string -> TeamRequest.t -> M world (result TeamResponse.t) :=
  Update Team.
Definition DeleteTeam : string -> M world (option error) :=
  Delete Team.

Definition CreateOrganization : OrganizationRequest.t -> M world (result OrganizationResponse.t) :=
  Create Organization.
Definition GetOrganization : string -> M world (result OrganizationResponse.t) :=
  Get Organization.
Definition UpdateOrganization : string -> OrganizationRequest.t -> M world (result OrganizationResponse.t) :=
  Update Organization.
Definition DeleteOrganization : string -> M world (option error) :=
  Delete Organization.

Definition CreateDataStore : DataStoreRequest.t -> M world (result DataStoreResponse.t) :=
  Create DataStore.
Definition GetDataStore : string -> M world (result DataStoreResponse.t) :=
  Get DataStore.
Definition UpdateDataStore : string -> DataStoreRequest.t -> M world (result DataStoreResponse.t) :=
  Update DataStore.
Definition DeleteDataStore : string -> M world (option error) :=
  Delete DataStore.

End Client.

(** ** Resource models (the [tfsdk] structs) *)

Module ScenarioResourceModel.
Record t : Type := {
  Id : tfString;
  Name : tfString;
  Description : tfString;
  Active : tfBool;
  TeamId : tfString
}.
End ScenarioResourceModel.

Module ConnectionResourceModel.
Record t : Type := {
  Id : tfString;
  Name : tfString;
  AppName : tfString;
  TeamId : tfString;
  Settings : tfMap;
  Verified : tfBool
}.
End ConnectionResourceModel.

Module WebhookResourceModel.
Record t : Type := {
  Id : tfString;
  Name : tfString;
  URL : tfString;
  TeamId : tfString;
  Active : tfBool;
  Settings : tfMap
}.
End WebhookResourceModel.

Module TeamResourceModel.
Record t : Type := {
  Id : tfString;
  Name : tfString;
  OrganizationId : tfString
}.
End TeamResourceModel.

Module OrganizationResourceModel.
Record t : Type := {
  Id : tfString;
  Name : tfString
}.
End OrganizationResourceModel.

Module DataStoreResourceModel.
Record t : Type := {
  Id : tfString;
  Name : tfString;
  Description : tfString;
  TeamId : tfString
}.
End DataStoreResourceModel.

(** The response of a resource call: the diagnostics and the state that
    the framework hands in and reads back ([resp.Diagnostics],
    [resp.State]).  [State = None] is a state without the resource. *)
Module resource.
Record Response (Model : Type) : Type := {
  State : option Model;
  Diagnostics : list Diagnostic
}.
Arguments State {Model} _.
Arguments Diagnostics {Model} _.
End resource.

(** [resp.Diagnostics.AddError("Client Error", detail)]. *)
Definition addClientError {Model : Type} (detail : string)
  (resp : resource.Response Model) : resource.Response Model :=
  {| resource.State := resource.State resp;
     resource.Diagnostics := AddError "Client Error" detail (resource.Diagnostics resp) |}.

(** The diagnostic a failed [ElementsAs] appends. *)
Definition addConversionError {Model : Type} (err : error)
  (resp : resource.Response Model) : resource.Response Model :=
  {| resource.State := resource.State resp;
     resource.Diagnostics := AddError (Error err) "" (resource.Diagnostics resp) |}.

(** [resp.State.Set(ctx, &data)]. *)
Definition setState {Model : Type} (data : Model)
  (resp : resource.Response Model) : resource.Response Model :=
  {| resource.State := Some data;
     resource.Diagnostics := resource.Diagnostics resp |}.

(** [if !v.IsNull() { apiReq.F = v.ValueString() }] on a zero-valued [F]. *)
Definition unlessNull (v : tfString) : string :=
  if negb (String_IsNull v) then ValueString v else "".

(** [if s != "" { data.F = types.StringValue(s) }], as the Create
    methods (and [TeamResource.Update]) have it: no else branch. *)
Definition setIfNonEmpty (s : string) (old : tfString) : tfString :=
  if negb (String.eqb s "") then StringValue s else old.

(** [if s != "" { data.F = types.StringValue(s) } else
    { data.F = types.StringNull() }], as Read and Update have it. *)
Definition valueOrNull (s : string) : tfString :=
  if negb (String.eqb s "") then StringValue s else StringNull.

(** [len(m)]. *)
Definition len (m : gmap string value) : Z := Z.of_nat (size m).

Section Resources.
Context {world : Type} (L : Lib) (c : MakeAPIClient world).

(** *** Settings *)

(** The loop of Read and Update (and [ConnectionResource.Create]):
    [settingsVals[k] = types.StringValue(fmt.Sprintf("%v", v))]. *)
Definition settingsVals (m : gmap string value) : gmap string tfString :=
  (fun v => StringValue (fmt_Sprint L v)) <$> m.

(** The type switch of [WebhookResource.Create].  The cases are tried in
    the order [string], [fmt.Stringer], the signed, the unsigned, the
    floating-point types, [bool], [default]; the built-in types have no
    methods, so at most one case matches a value. *)
Definition strVal (v : value) : string :=
  match v with
  | VString val => val
  | VStringer str => str
  | VInt _ val => FormatInt val
  | VUint _ val => FormatInt (Z.of_N val)
  | VFloat _ val => FormatFloat_f val
  | VBool val => FormatBool val
  | _ => fmt_Sprint L v
  end.

(** The loop around the switch:
    [settingsVals[k] = types.StringValue(strVal)]. *)
Definition settingsValsTyped (m : gmap string value) : gmap string tfString :=
  (fun v => StringValue (strVal v)) <$> m.

(** [apiReq.Settings[k] = v] for every entry of the plan's map. *)
Definition requestSettings (settingsMap : gmap string string) : gmap string value :=
  VString <$> settingsMap.

(** *** ScenarioResource

    In every method [req.Plan.Get(ctx, &data)] or
    [req.State.Get(ctx, &data)] fills [data] from a plan or state of the
    resource's own schema and adds no diagnostic; the plan or state is
    an argument here, and [resp] is the response as the framework hands
    it in. *)

Definition ScenarioResource_request (data : ScenarioResourceModel.t) : ScenarioRequest.t :=
  {| ScenarioRequest.Name := ValueString (ScenarioResourceModel.Name data);
     ScenarioRequest.Description := unlessNull (ScenarioResourceModel.Description data);
     ScenarioRequest.Active := ValueBool (ScenarioResourceModel.Active data);
     ScenarioRequest.TeamID := unlessNull (ScenarioResourceModel.TeamId data) |}.

Definition ScenarioResource_Create (plan : ScenarioResourceModel.t)
  (resp : resource.Response ScenarioResourceModel.t)
  : M world (resource.Response ScenarioResourceModel.t) :=
  let data := plan in
  if HasError (resource.Diagnostics resp) then ret resp
  else
    r <- CreateScenario L c (ScenarioResource_request data) ;;
    match r with
    | Err err =>
        ret (addClientError ("Unable to create scenario, got error: " +:+ Error err) resp)
    | Ok scenario =>
        ret (setState
          {| ScenarioResourceModel.Id := StringValue (ScenarioResponse.ID scenario);
             ScenarioResourceModel.Name := StringValue (ScenarioResponse.Name scenario);
             ScenarioResourceModel.Description :=
               setIfNonEmpty (ScenarioResponse.Description scenario)
                             (ScenarioResourceModel.Description data);
             ScenarioResourceModel.Active := BoolValue (ScenarioResponse.Active scenario);
             ScenarioResourceModel.TeamId :=
               setIfNonEmpty (ScenarioResponse.TeamID scenario)
                             (ScenarioResourceModel.TeamId data) |} resp)
    end.

(** What Read and Update store for a scenario the API returned. *)
Definition ScenarioResource_refresh (scenario : ScenarioResponse.t) : ScenarioResourceModel.t :=
  {| ScenarioResourceModel.Id := StringValue (ScenarioResponse.ID scenario);
     ScenarioResourceModel.Name := StringValue (ScenarioResponse.Name scenario);
     ScenarioResourceModel.Description := valueOrNull (ScenarioResponse.Description scenario);
     ScenarioResourceModel.Active := BoolValue (ScenarioResponse.Active scenario);
     ScenarioResourceModel.TeamId := valueOrNull (ScenarioResponse.TeamID scenario) |}.

Definition ScenarioResource_Read (state : ScenarioResourceModel.t)
  (resp : resource.Response ScenarioResourceModel.t)
  : M world (resource.Response ScenarioResourceModel.t) :=
  let data := state in
  if HasError (resource.Diagnostics resp) then ret resp
  else
    r <- GetScenario L c (ValueString (ScenarioResourceModel.Id data)) ;;
    match r with
    | Err err =>
        ret (addClientError ("Unable to read scenario, got error: " +:+ Error err) resp)
    | Ok scenario => ret (setState (ScenarioResource_refresh scenario) resp)
    end.

Definition ScenarioResource_Update (plan : ScenarioResourceModel.t)
  (resp : resource.Response ScenarioResourceModel.t)
  : M world (resource.Response ScenarioResourceModel.t) :=
  let data := plan in
  if HasError (resource.Diagnostics resp) then ret resp
  else
    r <- UpdateScenario L c (ValueString (ScenarioResourceModel.Id data))
                        (ScenarioResource_request data) ;;
    match r with
    | Err err =>
        ret (addClientError ("Unable to update scenario, got error: " +:+ Error err) resp)
    | Ok scenario => ret (setState (ScenarioResource_refresh scenario) resp)
    end.

Definition ScenarioResource_Delete (state : ScenarioResourceModel.t)
  (resp : resource.Response ScenarioResourceModel.t)
  : M world (resource.Response ScenarioResourceModel.t) :=
  let data := state in
  if HasError (resource.Diagnostics resp) then ret resp
  else
    r <- DeleteScenario L c (ValueString (ScenarioResourceModel.Id data)) ;;
    match r with
    | Some err =>
        ret (addClientError ("Unable to delete scenario, got error: " +:+ Error err) resp)
    | None => ret resp
    end.

(** [resp.State.SetAttribute(ctx, path.Root("id"), req.ID)]: the other
    attributes keep what the state holds, null in the empty state an
    import starts from. *)
Definition ScenarioResource_ImportState (ID : string)
  (resp : resource.Response ScenarioResourceModel.t)
  : resource.Response ScenarioResourceModel.t :=
  setState
    match resource.State resp with
    | Some data =>
        {| ScenarioResourceModel.Id := StringValue ID;
           ScenarioResourceModel.Name := ScenarioResourceModel.Name data;
           ScenarioResourceModel.Description := ScenarioResourceModel.Description data;
           ScenarioResourceModel.Active := ScenarioResourceModel.Active data;
           ScenarioResourceModel.TeamId := ScenarioResourceModel.TeamId data |}
    | None =>
        {| ScenarioResourceModel.Id := StringValue ID;
           ScenarioResourceModel.Name := StringNull;
           ScenarioResourceModel.Description := StringNull;
           ScenarioResourceModel.Active := BoolNull;
           ScenarioResourceModel.TeamId := StringNull |}
    end resp.

(** *** DataStoreResource *)

Definition DataStoreResource_request (data : DataStoreResourceModel.t) : DataStoreRequest.t :=
  {| DataStoreRequest.Name := ValueString (DataStoreResourceModel.Name data);
     DataStoreRequest.Description := unlessNull (DataStoreResourceModel.Description data);
     DataStoreRequest.TeamID := unlessNull (DataStoreResourceModel.TeamId data) |}.

Definition DataStoreResource_Create (plan : DataStoreResourceModel.t)
  (resp : resource.Response DataStoreResourceModel.t)
  : M world (resource.Response DataStoreResourceModel.t) :=
  let data := plan in
  if HasError (resource.Diagnostics resp) then ret resp
  else
    r <- CreateDataStore L c (DataStoreResource_request data) ;;
    match r with
    | Err err =>
        ret (addClientError ("Unable to create data store, got error: " +:+ Error err) resp)
    | Ok ds =>
        ret (setState
          {| DataStoreResourceModel.Id := StringValue (DataStoreResponse.ID ds);
             DataStoreResourceModel.Name := StringValue (DataStoreResponse.Name ds);
             DataStoreResourceModel.Description :=
               setIfNonEmpty (DataStoreResponse.Description ds)
                             (DataStoreResourceModel.Description data);
             DataStoreResourceModel.TeamId :=
               setIfNonEmpty (DataStoreResponse.TeamID ds)
                             (DataStoreResourceModel.TeamId data) |} resp)
    end.

Definition DataStoreResource_refresh (ds : DataStoreResponse.t) : DataStoreResourceModel.t :=
  {| DataStoreResourceModel.Id := StringValue (DataStoreResponse.ID ds);
     DataStoreResourceModel.Name := StringValue (DataStoreResponse.Name ds);
     DataStoreResourceModel.Description := valueOrNull (DataStoreResponse.Description ds);
     DataStoreResourceModel.TeamId := valueOrNull (DataStoreResponse.TeamID ds) |}.

Definition DataStoreResource_Read (state : DataStoreResourceModel.t)
  (resp : resource.Response DataStoreResourceModel.t)
  : M world (resource.Response DataStoreResourceModel.t) :=
  let data := state in
  if HasError (resource.Diagnostics resp) then ret resp
  else
    r <- GetDataStore L c (ValueString (DataStoreResourceModel.Id data)) ;;
    match r with
    | Err err =>
        ret (addClientError ("Unable to read data store, got error: " +:+ Error err) resp)
    | Ok ds => ret (setState (DataStoreResource_refresh ds) resp)
    end.

Definition DataStoreResource_Update (plan : DataStoreResourceModel.t)
  (resp : resource.Response DataStoreResourceModel.t)
  : M world (resource.Response DataStoreResourceModel.t) :=
  let data := plan in
  if HasError (resource.Diagnostics resp) then ret resp
  else
    r <- UpdateDataStore L c (ValueString (DataStoreResourceModel.Id data))
                         (DataStoreResource_request data) ;;
    match r with
    | Err err =>
        ret (addClientError ("Unable to update data store, got error: " +:+ Error err) resp)
    | Ok ds => ret (setState (DataStoreResource_refresh ds) resp)
    end.

Definition DataStoreResource_Delete (state : DataStoreResourceModel.t)
  (resp : resource.Response DataStoreResourceModel.t)
  : M world (resource.Response DataStoreResourceModel.t) :=
  let data := state in
  if HasError (resource.Diagnostics resp) then ret resp
  else
    r <- DeleteDataStore L c (ValueString (DataStoreResourceModel.Id data)) ;;
    match r with
    | Some err =>
        ret (addClientError ("Unable to delete data store, got error: " +:+ Error err) resp)
    | None => ret resp
    end.

Definition DataStoreResource_ImportState (ID : string)
  (resp : resource.Response DataStoreResourceModel.t)
  : resource.Response DataStoreResourceModel.t :=
  setState
    match resource.State resp with
    | Some data =>
        {| DataStoreResourceModel.Id := StringValue ID;
           DataStoreResourceModel.Name := DataStoreResourceModel.Name data;
           DataStoreResourceModel.Description := DataStoreResourceModel.Description data;
           DataStoreResourceModel.TeamId := DataStoreResourceModel.TeamId data |}
    | None =>
        {| DataStoreResourceModel.Id := StringValue ID;
           DataStoreResourceModel.Name := StringNull;
           DataStoreResourceModel.Description := StringNull;
           DataStoreResourceModel.TeamId := StringNull |}
    end resp.

(** *** TeamResource *)

Definition TeamResource_request (data : TeamResourceModel.t) : TeamRequest.t :=
  {| TeamRequest.Name := ValueString (TeamResourceModel.Name data);
     TeamRequest.OrganizationID := unlessNull (TeamResourceModel.OrganizationId data) |}.

Definition TeamResource_Create (plan : TeamResourceModel.t)
  (resp : resource.Response TeamResourceModel.t)
  : M world (resource.Response TeamResourceModel.t) :=
  let data := plan in
  if HasError (resource.Diagnostics resp) then ret resp
  else
    r <- CreateTeam L c (TeamResource_request data) ;;
    match r with
    | Err err =>
        ret (addClientError ("Unable to create team, got error: " +:+ Error err) resp)
    | Ok team =>
        ret (setState
          {| TeamResourceModel.Id := StringValue (TeamResponse.ID team);
             TeamResourceModel.Name := StringValue (TeamResponse.Name team);
             TeamResourceModel.OrganizationId :=
               setIfNonEmpty (TeamResponse.OrganizationID team)
                             (TeamResourceModel.OrganizationId data) |} resp)
    end.

Definition TeamResource_Read (state : TeamResourceModel.t)
  (resp : resource.Response TeamResourceModel.t)
  : M world (resource.Response TeamResourceModel.t) :=
  let data := state in
  if HasError (resource.Diagnostics resp) then ret resp
  else
    r <- GetTeam L c (ValueString (TeamResourceModel.Id data)) ;;
    match r with
    | Err err =>
        ret (addClientError ("Unable to read team, got error: " +:+ Error err) resp)
    | Ok team =>
        ret (setState
          {| TeamResourceModel.Id := StringValue (TeamResponse.ID team);
             TeamResourceModel.Name := StringValue (TeamResponse.Name team);
             TeamResourceModel.OrganizationId :=
               valueOrNull (TeamResponse.OrganizationID team) |} resp)
    end.

(** Unlike the other Update methods this one has no else branch for the
    optional field. *)
Definition TeamResource_Update (plan : TeamResourceModel.t)
  (resp : resource.Response TeamResourceModel.t)
  : M world (resource.Response TeamResourceModel.t) :=
  let data := plan in
  if HasError (resource.Diagnostics resp) then ret resp
  else
    r <- UpdateTeam L c (ValueString (TeamResourceModel.Id data))
                    (TeamResource_request data) ;;
    match r with
    | Err err =>
        ret (addClientError ("Unable to update team, got error: " +:+ Error err) resp)
    | Ok team =>
        ret (setState
          {| TeamResourceModel.Id := StringValue (TeamResponse.ID team);
             TeamResourceModel.Name := StringValue (TeamResponse.Name team);
             TeamResourceModel.OrganizationId :=
               setIfNonEmpty (TeamResponse.OrganizationID team)
                             (TeamResourceModel.OrganizationId data) |} resp)
    end.

Definition TeamResource_Delete (state : TeamResourceModel.t)
  (resp : resource.Response TeamResourceModel.t)
  : M world (resource.Response TeamResourceModel.t) :=
  let data := state in
  if HasError (resource.Diagnostics resp) then ret resp
  else
    r <- DeleteTeam L c (ValueString (TeamResourceModel.Id data)) ;;
    match r with
    | Some err =>
        ret (addClientError ("Unable to delete team, got error: " +:+ Error err) resp)
    | None => ret resp
    end.

(** [resource.ImportStatePassthroughID(ctx, path.Root("id"), req, resp)]
    sets the [id] attribute to [req.ID]. *)
Definition TeamResource_ImportState (ID : string)
  (resp : resource.Response TeamResourceModel.t)
  : resource.Response TeamResourceModel.t :=
  setState
    match resource.State resp with
    | Some data =>
        {| TeamResourceModel.Id := StringValue ID;
           TeamResourceModel.Name := TeamResourceModel.Name data;
           TeamResourceModel.OrganizationId := TeamResourceModel.OrganizationId data |}
    | None =>
        {| TeamResourceModel.Id := StringValue ID;
           TeamResourceModel.Name := StringNull;
           TeamResourceModel.OrganizationId := StringNull |}
    end resp.

(** *** OrganizationResource *)

Definition OrganizationResource_request (data : OrganizationResourceModel.t)
  : OrganizationRequest.t :=
  {| OrganizationRequest.Name := ValueString (OrganizationResourceModel.Name data) |}.

Definition OrganizationResource_refresh (org : OrganizationResponse.t)
  : OrganizationResourceModel.t :=
  {| OrganizationResourceModel.Id := StringValue (OrganizationResponse.ID org);
     OrganizationResourceModel.Name := StringValue (OrganizationResponse.Name org) |}.

Definition OrganizationResource_Create (plan : OrganizationResourceModel.t)
  (resp : resource.Response OrganizationResourceModel.t)
  : M world (resource.Response OrganizationResourceModel.t) :=
  let data := plan in
  if HasError (resource.Diagnostics resp) then ret resp
  else
    r <- CreateOrganization L c (OrganizationResource_request data) ;;
    match r with
    | Err err =>
        ret (addClientError ("Unable to create organization, got error: " +:+ Error err) resp)
    | Ok org => ret (setState (OrganizationResource_refresh org) resp)
    end.

Definition OrganizationResource_Read (state : OrganizationResourceModel.t)
  (resp : resource.Response OrganizationResourceModel.t)
  : M world (resource.Response OrganizationResourceModel.t) :=
  let data := state in
  if HasError (resource.Diagnostics resp) then ret resp
  else
    r <- GetOrganization L c (ValueString (OrganizationResourceModel.Id data)) ;;
    match r with
    | Err err =>
        ret (addClientError ("Unable to read organization, got error: " +:+ Error err) resp)
    | Ok org => ret (setState (OrganizationResource_refresh org) resp)
    end.

Definition OrganizationResource_Update (plan : OrganizationResourceModel.t)
  (resp : resource.Response OrganizationResourceModel.t)
  : M world (resource.Response OrganizationResourceModel.t) :=
  let data := plan in
  if HasError (resource.Diagnostics resp) then ret resp
  else
    r <- UpdateOrganization L c (ValueString (OrganizationResourceModel.Id data))
                            (OrganizationResource_request data) ;;
    match r with
    | Err err =>
        ret (addClientError ("Unable to update organization, got error: " +:+ Error err) resp)
    | Ok org => ret (setState (OrganizationResource_refresh org) resp)
    end.

Definition OrganizationResource_Delete (state : OrganizationResourceModel.t)
  (resp : resource.Response OrganizationResourceModel.t)
  : M world (resource.Response OrganizationResourceModel.t) :=
  let data := state in
  if HasError (resource.Diagnostics resp) then ret resp
  else
    r <- DeleteOrganization L c (ValueString (OrganizationResourceModel.Id data)) ;;
    match r with
    | Some err =>
        ret (addClientError ("Unable to delete organization, got error: " +:+ Error err) resp)
    | None => ret resp
    end.

Definition OrganizationResource_ImportState (ID : string)
  (resp : resource.Response OrganizationResourceModel.t)
  : resource.Response OrganizationResourceModel.t :=
  setState
    match resource.State resp with
    | Some data =>
        {| OrganizationResourceModel.Id := StringValue ID;
           OrganizationResourceModel.Name := OrganizationResourceModel.Name data |}
    | None =>
        {| OrganizationResourceModel.Id := StringValue ID;
           OrganizationResourceModel.Name := StringNull |}
    end resp.

(** *** ConnectionResource *)

(** The settings of a request: nothing for a null map, otherwise the
    elements of the map, or the error of [ElementsAs]. *)
Definition planSettings (v : tfMap) : result (gmap string value) :=
  if negb (Map_IsNull v) then
    match ElementsAs v with
    | Err err => Err err
    | Ok settingsMap => Ok (requestSettings settingsMap)
    end
  else Ok ∅.

Definition ConnectionResource_request (data : ConnectionResourceModel.t)
  (settings : gmap string value) : ConnectionRequest.t :=
  {| ConnectionRequest.Name := ValueString (ConnectionResourceModel.Name data);
     ConnectionRequest.AppName := ValueString (ConnectionResourceModel.AppName data);
     ConnectionRequest.TeamID := unlessNull (ConnectionResourceModel.TeamId data);
     ConnectionRequest.Settings := settings |}.

Definition ConnectionResource_Create (plan : ConnectionResourceModel.t)
  (resp : resource.Response ConnectionResourceModel.t)
  : M world (resource.Response ConnectionResourceModel.t) :=
  let data := plan in
  if HasError (resource.Diagnostics resp) then ret resp
  else
    match planSettings (ConnectionResourceModel.Settings data) with
    | Err err => ret (addConversionError err resp)
    | Ok settings =>
        r <- CreateConnection L c (ConnectionResource_request data settings) ;;
        match r with
        | Err err =>
            ret (addClientError ("Unable to create connection, got error: " +:+ Error err) resp)
        | Ok connection =>
            ret (setState
              {| ConnectionResourceModel.Id := StringValue (ConnectionResponse.ID connection);
                 ConnectionResourceModel.Name := StringValue (ConnectionResponse.Name connection);
                 ConnectionResourceModel.AppName :=
                   StringValue (ConnectionResponse.AppName connection);
                 ConnectionResourceModel.TeamId :=
                   setIfNonEmpty (ConnectionResponse.TeamID connection)
                                 (ConnectionResourceModel.TeamId data);
                 ConnectionResourceModel.Settings :=
                   if 0 <? len (ConnectionResponse.Settings connection)
                   then MapValue (settingsVals (ConnectionResponse.Settings connection))
                   else ConnectionResourceModel.Settings data;
                 ConnectionResourceModel.Verified :=
                   BoolValue (ConnectionResponse.Verified connection) |} resp)
        end
    end.

Definition ConnectionResource_refresh (connection : ConnectionResponse.t)
  : ConnectionResourceModel.t :=
  {| ConnectionResourceModel.Id := StringValue (ConnectionResponse.ID connection);
     ConnectionResourceModel.Name := StringValue (ConnectionResponse.Name connection);
     ConnectionResourceModel.AppName := StringValue (ConnectionResponse.AppName connection);
     ConnectionResourceModel.TeamId := valueOrNull (ConnectionResponse.TeamID connection);
     ConnectionResourceModel.Settings :=
       if 0 <? len (ConnectionResponse.Settings connection)
       then MapValue (settingsVals (ConnectionResponse.Settings connection))
       else MapNull;
     ConnectionResourceModel.Verified := BoolValue (ConnectionResponse.Verified connection) |}.

Definition ConnectionResource_Read (state : ConnectionResourceModel.t)
  (resp : resource.Response ConnectionResourceModel.t)
  : M world (resource.Response ConnectionResourceModel.t) :=
  let data := state in
  if HasError (resource.Diagnostics resp) then ret resp
  else
    r <- GetConnection L c (ValueString (ConnectionResourceModel.Id data)) ;;
    match r with
    | Err err =>
        ret (addClientError ("Unable to read connection, got error: " +:+ Error err) resp)
    | Ok connection => ret (setState (ConnectionResource_refresh connection) resp)
    end.

Definition ConnectionResource_Update (plan : ConnectionResourceModel.t)
  (resp : resource.Response ConnectionResourceModel.t)
  : M world (resource.Response ConnectionResourceModel.t) :=
  let data := plan in
  if HasError (resource.Diagnostics resp) then ret resp
  else
    match planSettings (ConnectionResourceModel.Settings data) with
    | Err err => ret (addConversionError err resp)
    | Ok settings =>
        r <- UpdateConnection L c (ValueString (ConnectionResourceModel.Id data))
                              (ConnectionResource_request data settings) ;;
        match r with
        | Err err =>
            ret (addClientError ("Unable to update connection, got error: " +:+ Error err) resp)
        | Ok connection => ret (setState (ConnectionResource_refresh connection) resp)
        end
    end.

Definition ConnectionResource_Delete (state : ConnectionResourceModel.t)
  (resp : resource.Response ConnectionResourceModel.t)
  : M world (resource.Response ConnectionResourceModel.t) :=
  let data := state in
  if HasError (resource.Diagnostics resp) then ret resp
  else
    r <- DeleteConnection L c (ValueString (ConnectionResourceModel.Id data)) ;;
    match r with
    | Some err =>
        ret (addClientError ("Unable to delete connection, got error: " +:+ Error err) resp)
    | None => ret resp
    end.

Definition ConnectionResource_ImportState (ID : string)
  (resp : resource.Response ConnectionResourceModel.t)
  : resource.Response ConnectionResourceModel.t :=
  setState
    match resource.State resp with
    | Some data =>
        {| ConnectionResourceModel.Id := StringValue ID;
           ConnectionResourceModel.Name := ConnectionResourceModel.Name data;
           ConnectionResourceModel.AppName := ConnectionResourceModel.AppName data;
           ConnectionResourceModel.TeamId := ConnectionResourceModel.TeamId data;
           ConnectionResourceModel.Settings := ConnectionResourceModel.Settings data;
           ConnectionResourceModel.Verified := ConnectionResourceModel.Verified data |}
    | None =>
        {| ConnectionResourceModel.Id := StringValue ID;
           ConnectionResourceModel.Name := StringNull;
           ConnectionResourceModel.AppName := StringNull;
           ConnectionResourceModel.TeamId := StringNull;
           ConnectionResourceModel.Settings := MapNull;
           ConnectionResourceModel.Verified := BoolNull |}
    end resp.

(** *** WebhookResource *)

(** The request leaves [URL] at its zero value. *)
Definition WebhookResource_request (data : WebhookResourceModel.t)
  (settings : gmap string value) : WebhookRequest.t :=
  {| WebhookRequest.Name := ValueString (WebhookResourceModel.Name data);
     WebhookRequest.URL := "";
     WebhookRequest.TeamID := unlessNull (WebhookResourceModel.TeamId data);
     WebhookRequest.Active := ValueBool (WebhookResourceModel.Active data);
     WebhookRequest.Settings := settings |}.

Definition WebhookResource_Create (plan : WebhookResourceModel.t)
  (resp : resource.Response WebhookResourceModel.t)
  : M world (resource.Response WebhookResourceModel.t) :=
  let data := plan in
  if HasError (resource.Diagnostics resp) then ret resp
  else
    match planSettings (WebhookResourceModel.Settings data) with
    | Err err => ret (addConversionError err resp)
    | Ok settings =>
        r <- CreateWebhook L c (WebhookResource_request data settings) ;;
        match r with
        | Err err =>
            ret (addClientError ("Unable to create webhook, got error: " +:+ Error err) resp)
        | Ok webhook =>
            ret (setState
              {| WebhookResourceModel.Id := StringValue (WebhookResponse.ID webhook);
                 WebhookResourceModel.Name := StringValue (WebhookResponse.Name webhook);
                 WebhookResourceModel.URL := StringValue (WebhookResponse.URL webhook);
                 WebhookResourceModel.TeamId :=
                   setIfNonEmpty (WebhookResponse.TeamID webhook)
                                 (WebhookResourceModel.TeamId data);
                 WebhookResourceModel.Active := BoolValue (WebhookResponse.Active webhook);
                 WebhookResourceModel.Settings :=
                   if 0 <? len (WebhookResponse.Settings webhook)
                   then MapValue (settingsValsTyped (WebhookResponse.Settings webhook))
                   else WebhookResourceModel.Settings data |} resp)
        end
    end.

Definition WebhookResource_refresh (webhook : WebhookResponse.t) : WebhookResourceModel.t :=
  {| WebhookResourceModel.Id := StringValue (WebhookResponse.ID webhook);
     WebhookResourceModel.Name := StringValue (WebhookResponse.Name webhook);
     WebhookResourceModel.URL := StringValue (WebhookResponse.URL webhook);
     WebhookResourceModel.TeamId := valueOrNull (WebhookResponse.TeamID webhook);
     WebhookResourceModel.Active := BoolValue (WebhookResponse.Active webhook);
     WebhookResourceModel.Settings :=
       if 0 <? len (WebhookResponse.Settings webhook)
       then MapValue (settingsVals (WebhookResponse.Settings webhook))
       else MapNull |}.

Definition WebhookResource_Read (state : WebhookResourceModel.t)
  (resp : resource.Response WebhookResourceModel.t)
  : M world (resource.Response WebhookResourceModel.t) :=
  let data := state in
  if HasError (resource.Diagnostics resp) then ret resp
  else
    r <- GetWebhook L c (ValueString (WebhookResourceModel.Id data)) ;;
    match r with
    | Err err =>
        ret (addClientError ("Unable to read webhook, got error: " +:+ Error err) resp)
    | Ok webhook => ret (setState (WebhookResource_refresh webhook) resp)
    end.

Definition WebhookResource_Update (plan : WebhookResourceModel.t)
  (resp : resource.Response WebhookResourceModel.t)
  : M world (resource.Response WebhookResourceModel.t) :=
  let data := plan in
  if HasError (resource.Diagnostics resp) then ret resp
  else
    match planSettings (WebhookResourceModel.Settings data) with
    | Err err => ret (addConversionError err resp)
    | Ok settings =>
        r <- UpdateWebhook L c (ValueString (WebhookResourceModel.Id data))
                           (WebhookResource_request data settings) ;;
        match r with
        | Err err =>
            ret (addClientError ("Unable to update webhook, got error: " +:+ Error err) resp)
        | Ok webhook => ret (setState (WebhookResource_refresh webhook) resp)
        end
    end.

Definition WebhookResource_Delete (state : WebhookResourceModel.t)
  (resp : resource.Response WebhookResourceModel.t)
  : M world (resource.Response WebhookResourceModel.t) :=
  let data := state in
  if HasError (resource.Diagnostics resp) then ret resp
  else
    r <- DeleteWebhook L c (ValueString (WebhookResourceModel.Id data)) ;;
    match r with
    | Some err =>
        ret (addClientError ("Unable to delete webhook, got error: " +:+ Error err) resp)
    | None => ret resp
    end.

Definition WebhookResource_ImportState (ID : string)
  (resp : resource.Response WebhookResourceModel.t)
  : resource.Response WebhookResourceModel.t :=
  setState
    match resource.State resp with
    | Some data =>
        {| WebhookResourceModel.Id := StringValue ID;
           WebhookResourceModel.Name := WebhookResourceModel.Name data;
           WebhookResourceModel.URL := WebhookResourceModel.URL data;
           WebhookResourceModel.TeamId := WebhookResourceModel.TeamId data;
           WebhookResourceModel.Active := WebhookResourceModel.Active data;
           WebhookResourceModel.Settings := WebhookResourceModel.Settings data |}
    | None =>
        {| WebhookResourceModel.Id := StringValue ID;
           WebhookResourceModel.Name := StringNull;
           WebhookResourceModel.URL := StringNull;
           WebhookResourceModel.TeamId := StringNull;
           WebhookResourceModel.Active := BoolNull;
           WebhookResourceModel.Settings := MapNull |}
    end resp.

(** *** The six resources, by kind *)

Definition ModelT (k : kind) : Type :=
  match k with
  | Scenario => ScenarioResourceModel.t
  | Connection => ConnectionResourceModel.t
  | Webhook => WebhookResourceModel.t
  | Team => TeamResourceModel.t
  | Organization => OrganizationResourceModel.t
  | DataStore => DataStoreResourceModel.t
  end.

Definition ModelId (k : kind) : ModelT k -> tfString :=
  match k with
  | Scenario => ScenarioResourceModel.Id
  | Connection => ConnectionResourceModel.Id
  | Webhook => WebhookResourceModel.Id
  | Team => TeamResourceModel.Id
  | Organization => OrganizationResourceModel.Id
  | DataStore => DataStoreResourceModel.Id
  end.

Definition Resource_Create (k : kind)
  : ModelT k -> resource.Response (ModelT k) -> M world (resource.Response (ModelT k)) :=
  match k with
  | Scenario => ScenarioResource_Create
  | Connection => ConnectionResource_Create
  | Webhook => WebhookResource_Create
  | Team => TeamResource_Create
  | Organization => OrganizationResource_Create
  | DataStore => DataStoreResource_Create
  end.

Definition Resource_Read (k : kind)
  : ModelT k -> resource.Response (ModelT k) -> M world (resource.Response (ModelT k)) :=
  match k with
  | Scenario => ScenarioResource_Read
  | Connection => ConnectionResource_Read
  | Webhook => WebhookResource_Read
  | Team => TeamResource_Read
  | Organization => OrganizationResource_Read
  | DataStore => DataStoreResource_Read
  end.

Definition Resource_Update (k : kind)
  : ModelT k -> resource.Response (ModelT k) -> M world (resource.Response (ModelT k)) :=
  match k with
  | Scenario => ScenarioResource_Update
  | Connection => ConnectionResource_Update
  | Webhook => WebhookResource_Update
  | Team => TeamResource_Update
  | Organization => OrganizationResource_Update
  | DataStore => DataStoreResource_Update
  end.

Definition Resource_Delete (k : kind)
  : ModelT k -> resource.Response (ModelT k) -> M world (resource.Response (ModelT k)) :=
  match k with
  | Scenario => ScenarioResource_Delete
  | Connection => ConnectionResource_Delete
  | Webhook => WebhookResource_Delete
  | Team => TeamResource_Delete
  | Organization => OrganizationResource_Delete
  | DataStore => DataStoreResource_Delete
  end.

Definition Resource_ImportState (k : kind)
  : string -> resource.Response (ModelT k) -> resource.Response (ModelT k) :=
  match k with
  | Scenario => ScenarioResource_ImportState
  | Connection => ConnectionResource_ImportState
  | Webhook => WebhookResource_ImportState
  | Team => TeamResource_ImportState
  | Organization => OrganizationResource_ImportState
  | DataStore => DataStoreResource_ImportState
  end.

(** The request a Create or Update builds from the plan, or the error of
    the settings conversion that makes it return before any call. *)
Definition Resource_request (k : kind) : ModelT k -> result (RequestT k) :=
  match k with
  | Scenario => fun data => Ok (ScenarioResource_request data)
  | Connection => fun data =>
      match planSettings (ConnectionResourceModel.Settings data) with
      | Err err => Err err
      | Ok settings => Ok (ConnectionResource_request data settings)
      end
  | Webhook => fun data =>
      match planSettings (WebhookResourceModel.Settings data) with
      | Err err => Err err
      | Ok settings => Ok (WebhookResource_request data settings)
      end
  | Team => fun data => Ok (TeamResource_request data)
  | Organization => fun data => Ok (OrganizationResource_request data)
  | DataStore => fun data => Ok (DataStoreResource_request data)
  end.

End Resources.

(** ** Vocabulary of the statements *)

(** The message the specification asks of an API error, in its words:
    the [message] field of a body that parses when it is not empty,
    otherwise its [error] field when that is not empty, otherwise (or
    when the body does not parse) the raw body. *)
Definition messagePolicy (L : Lib) (body : string) : string :=
  match json_Unmarshal L body with
  | Ok parsed =>
      if bool_decide (ErrorResponse.Message parsed <> "") then ErrorResponse.Message parsed
      else if bool_decide (ErrorResponse.Error parsed <> "") then ErrorResponse.Error parsed
      else body
  | Err _ => body
  end.

(** Two deletes of the same identifier in succession. *)
Definition deleteTwice {world : Type} (L : Lib) (c : MakeAPIClient world)
  (k : kind) (id : string) : M world (option error * option error) :=
  r1 <- Delete L c k id ;;
  r2 <- Delete L c k id ;;
  ret (r1, r2).

(** A client that logs every request it hands to the HTTP client. *)
Definition recording {world : Type} (c : MakeAPIClient world)
  : MakeAPIClient (world * list Request) :=
  {| ApiToken := ApiToken c;
     BaseUrl := BaseUrl c;
     HTTPClient := fun req st =>
       let (r, w') := HTTPClient c req (fst st) in
       (r, (w', (snd st ++ [req])%list)) |}.

(** A rendering with a decimal point followed by exactly six digits. *)
Definition six_decimals (s : string) : Prop :=
  exists sign int frac : string,
    s = sign +:+ int +:+ "." +:+ frac /\
    (sign = "" \/ sign = "-") /\
    int <> "" /\ all_digits int = true /\
    String.length frac = 6%nat /\ all_digits frac = true.

(** Base-10 digits without separators, after a minus sign for a
    negative number. *)
Definition decimal_digits (s : string) : Prop :=
  s <> "" /\
  (all_digits s = true \/
   exists digits : string, s = "-" +:+ digits /\ digits <> "" /\ all_digits digits = true).

(** The values some case of the type switch names; the others reach
    its [default]. *)
Definition named_case (v : value) : bool :=
  match v with
  | VString _ | VStringer _ | VInt _ _ | VUint _ _ | VFloat _ _ | VBool _ => true
  | VNil | VSlice _ | VMap _ => false
  end.

(** ** Test doubles

    A transport that answers from a list of canned responses, and
    library functions that accept exactly the bodies the examples use. *)

Definition stubDo (req : Request) (w : list Response) : result Response * list Response :=
  match w with
  | [] => (Err (errorString "connection refused"), [])
  | resp :: rest => (Ok resp, rest)
  end.

Definition stubClient : MakeAPIClient (list Response) :=
  {| ApiToken := "test-token";
     BaseUrl := "https://api.make.com/";
     HTTPClient := stubDo |}.

Definition quoted (s : string) : string :=
  String "034"%char (s +:+ String "034"%char "").

(** The body [{"message":"bad"}]. *)
Definition body_message_bad : string :=
  "{" +:+ quoted "message" +:+ ":" +:+ quoted "bad" +:+ "}".

(** The body [{"error":"denied","message":"bad"}]. *)
Definition body_error_and_message : string :=
  "{" +:+ quoted "error" +:+ ":" +:+ quoted "denied" +:+ ","
      +:+ quoted "message" +:+ ":" +:+ quoted "bad" +:+ "}".

Definition stubUnmarshal (body : string) : result ErrorResponse.t :=
  if String.eqb body body_message_bad then
    Ok {| ErrorResponse.Error := ""; ErrorResponse.Message := "bad"; ErrorResponse.Code := 0 |}
  else if String.eqb body body_error_and_message then
    Ok {| ErrorResponse.Error := "denied"; ErrorResponse.Message := "bad";
          ErrorResponse.Code := 0 |}
  else if String.eqb body "{}" then
    Ok {| ErrorResponse.Error := ""; ErrorResponse.Message := ""; ErrorResponse.Code := 0 |}
  else Err (errorString "invalid character").

(** [%v] on the values the examples use; "?" stands for the renderings
    that are not spelled out.  For a float [%v] is [%g] with the
    shortest digits that read back as the same number: a whole number
    below 10^21 prints as its digits, without a decimal point. *)
Definition stubSprint (v : value) : string :=
  match v with
  | VString s | VStringer s => s
  | VInt _ n => FormatInt n
  | VUint _ n => FormatInt (Z.of_N n)
  | VBool b => FormatBool b
  | VNil => "<nil>"
  | VSlice [] => "[]"
  | VMap m => if bool_decide (m = ∅) then "map[]" else "?"
  | VFloat _ (FFinite neg m e) =>
      if (0 <=? e) && (Z.of_N m * 2 ^ e <? 10 ^ 21)
      then (if neg then "-" else "") +:+ FormatInt (Z.of_N m * 2 ^ e)
      else "?"
  | VSlice _ | VFloat _ _ => "?"
  end.

(** The record a stubbed decoder returns for each kind: identifier
    [id], a name, and every optional field at its zero value. *)
Definition canned (id : string) (k : kind) : ResponseT k :=
  match k with
  | Scenario =>
      {| ScenarioResponse.ID := id; ScenarioResponse.Name := "n";
         ScenarioResponse.Description := ""; ScenarioResponse.Active := true;
         ScenarioResponse.TeamID := "" |}
  | Connection =>
      {| ConnectionResponse.ID := id; ConnectionResponse.Name := "n";
         ConnectionResponse.AppName := "gmail"; ConnectionResponse.TeamID := "";
         ConnectionResponse.Verified := true; ConnectionResponse.Settings := ∅ |}
  | Webhook =>
      {| WebhookResponse.ID := id; WebhookResponse.Name := "n";
         WebhookResponse.URL := "https://hook.example/1"; WebhookResponse.TeamID := "";
         WebhookResponse.Active := true; WebhookResponse.Settings := ∅ |}
  | Team =>
      {| TeamResponse.ID := id; TeamResponse.Name := "n";
         TeamResponse.OrganizationID := "" |}
  | Organization =>
      {| OrganizationResponse.ID := id; OrganizationResponse.Name := "n" |}
  | DataStore =>
      {| DataStoreResponse.ID := id; DataStoreResponse.Name := "n";
         DataStoreResponse.Description := ""; DataStoreResponse.TeamID := "" |}
  end.

(** The scanner on the bodies the examples use, which hold one JSON
    object and no brace inside a string: the value is settled when the
    brace that opened it is closed (or a brace closes nothing). *)
Fixpoint closes (depth : nat) (text : string) : bool :=
  match text with
  | EmptyString => false
  | String c rest =>
      if Ascii.eqb c "{" then closes (S depth) rest
      else if Ascii.eqb c "}" then
        match depth with
        | O | S O => true
        | S depth' => closes depth' rest
        end
      else closes depth rest
  end.

Definition stubSettles (text : string) : bool := closes 0 text.

Definition stubLib (id : string) : Lib :=
  {| url_join := fun base endpoint => Ok (base +:+ endpoint);
     json_Decode := fun k _ => Ok (canned id k);
     json_settles := stubSettles;
     json_Unmarshal := stubUnmarshal;
     fmt_Sprint := stubSprint |}.

(** Library functions whose decoder rejects every body. *)
Definition undecodingLib : Lib :=
  {| url_join := fun base endpoint => Ok (base +:+ endpoint);
     json_Decode := fun k _ => Err (errorString "unexpected end of JSON input");
     json_settles := stubSettles;
     json_Unmarshal := stubUnmarshal;
     fmt_Sprint := stubSprint |}.

(** Library functions whose decoder returns, for a webhook, a record
    with one setting. *)
Definition settingsLib : Lib :=
  {| url_join := fun base endpoint => Ok (base +:+ endpoint);
     json_Decode := fun k _ =>
       match k as k0 return result (ResponseT k0) with
       | Webhook =>
           Ok {| WebhookResponse.ID := "5"; WebhookResponse.Name := "n";
                 WebhookResponse.URL := "https://hook.example/5";
                 WebhookResponse.TeamID := ""; WebhookResponse.Active := true;
                 WebhookResponse.Settings := {[ "mode" := VString "fast" ]} |}
       | k0 => Ok (canned "5" k0)
       end;
     json_settles := stubSettles;
     json_Unmarshal := stubUnmarshal;
     fmt_Sprint := stubSprint |}.

(** The settings object [{"retries":3}] as [encoding/json] stores it
    in a [map[string]interface{}]: a JSON number becomes a [float64]. *)
Definition retries3 : gmap string value :=
  {[ "retries" := VFloat Float64 (FFinite false 3 0) ]}.

(** The body [{"id":"5","name":"n","settings":{"retries":3}}]. *)
Definition body_retries : string :=
  "{" +:+ quoted "id" +:+ ":" +:+ quoted "5" +:+ ","
      +:+ quoted "name" +:+ ":" +:+ quoted "n" +:+ ","
      +:+ quoted "settings" +:+ ":{" +:+ quoted "retries" +:+ ":3}}".

(** Library functions whose decoder knows that body: for a webhook and
    for a connection it gives the record with the identifier, the name
    and the settings of the body, and every other field at its zero
    value. *)
Definition numberLib : Lib :=
  {| url_join := fun base endpoint => Ok (base +:+ endpoint);
     json_Decode := fun k text =>
       if String.eqb text body_retries then
         match k as k0 return result (ResponseT k0) with
         | Webhook =>
             Ok {| WebhookResponse.ID := "5"; WebhookResponse.Name := "n";
                   WebhookResponse.URL := ""; WebhookResponse.TeamID := "";
                   WebhookResponse.Active := false;
                   WebhookResponse.Settings := retries3 |}
         | Connection =>
             Ok {| ConnectionResponse.ID := "5"; ConnectionResponse.Name := "n";
                   ConnectionResponse.AppName := ""; ConnectionResponse.TeamID := "";
                   ConnectionResponse.Verified := false;
                   ConnectionResponse.Settings := retries3 |}
         | k0 => Ok (canned "5" k0)
         end
       else Err (errorString "unexpected end of JSON input");
     json_settles := stubSettles;
     json_Unmarshal := stubUnmarshal;
     fmt_Sprint := stubSprint |}.

(** A connection as planned, without settings. *)
Definition plannedConnection : ConnectionResourceModel.t :=
  {| ConnectionResourceModel.Id := StringUnknown;
     ConnectionResourceModel.Name := StringValue "n";
     ConnectionResourceModel.AppName := StringValue "gmail";
     ConnectionResourceModel.TeamId := StringNull;
     ConnectionResourceModel.Settings := MapNull;
     ConnectionResourceModel.Verified := BoolUnknown |}.

(** A webhook and a connection in state, with the identifier 5 and no
    settings. *)
Definition storedWebhook : WebhookResourceModel.t :=
  {| WebhookResourceModel.Id := StringValue "5";
     WebhookResourceModel.Name := StringValue "n";
     WebhookResourceModel.URL := StringValue "https://hook.example/5";
     WebhookResourceModel.TeamId := StringNull;
     WebhookResourceModel.Active := BoolValue true;
     WebhookResourceModel.Settings := MapNull |}.

Definition storedConnection : ConnectionResourceModel.t :=
  {| ConnectionResourceModel.Id := StringValue "5";
     ConnectionResourceModel.Name := StringValue "n";
     ConnectionResourceModel.AppName := StringValue "gmail";
     ConnectionResourceModel.TeamId := StringNull;
     ConnectionResourceModel.Settings := MapNull;
     ConnectionResourceModel.Verified := BoolValue true |}.

(** The record a decoder returns for each kind when the remote has
    every optional field set: a description, a team, an organization,
    and one setting. *)
Definition populated (id : string) (k : kind) : ResponseT k :=
  match k with
  | Scenario =>
      {| ScenarioResponse.ID := id; ScenarioResponse.Name := "n";
         ScenarioResponse.Description := "nightly sync"; ScenarioResponse.Active := true;
         ScenarioResponse.TeamID := "team-1" |}
  | Connection =>
      {| ConnectionResponse.ID := id; ConnectionResponse.Name := "n";
         ConnectionResponse.AppName := "gmail"; ConnectionResponse.TeamID := "team-1";
         ConnectionResponse.Verified := true;
         ConnectionResponse.Settings := {[ "mode" := VString "fast" ]} |}
  | Webhook =>
      {| WebhookResponse.ID := id; WebhookResponse.Name := "n";
         WebhookResponse.URL := "https://hook.example/1"; WebhookResponse.TeamID := "team-1";
         WebhookResponse.Active := true;
         WebhookResponse.Settings := {[ "mode" := VString "fast" ]} |}
  | Team =>
      {| TeamResponse.ID := id; TeamResponse.Name := "n";
         TeamResponse.OrganizationID := "org-1" |}
  | Organization =>
      {| OrganizationResponse.ID := id; OrganizationResponse.Name := "n" |}
  | DataStore =>
      {| DataStoreResponse.ID := id; DataStoreResponse.Name := "n";
         DataStoreResponse.Description := "orders"; DataStoreResponse.TeamID := "team-1" |}
  end.

Definition populatedLib (id : string) : Lib :=
  {| url_join := fun base endpoint => Ok (base +:+ endpoint);
     json_Decode := fun k _ => Ok (populated id k);
     json_settles := stubSettles;
     json_Unmarshal := stubUnmarshal;
     fmt_Sprint := stubSprint |}.

(** A webhook planned with the settings [settings]. *)
Definition plannedWebhook (settings : tfMap) : WebhookResourceModel.t :=
  {| WebhookResourceModel.Id := StringUnknown;
     WebhookResourceModel.Name := StringValue "n";
     WebhookResourceModel.URL := StringUnknown;
     WebhookResourceModel.TeamId := StringNull;
     WebhookResourceModel.Active := BoolValue true;
     WebhookResourceModel.Settings := settings |}.

Definition response (status : Z) (body : string) : Response :=
  {| StatusCode := status; Status := FormatInt status;
     Delivered := body; ReadError := None |}.

Definition noDiagnostics {Model : Type} (state : option Model) : resource.Response Model :=
  {| resource.State := state; resource.Diagnostics := [] |}.

(** A scenario as planned and as stored, with both optional fields set. *)
Definition plannedScenario (id : tfString) : ScenarioResourceModel.t :=
  {| ScenarioResourceModel.Id := id;
     ScenarioResourceModel.Name := StringValue "n";
     ScenarioResourceModel.Description := StringValue "nightly sync";
     ScenarioResourceModel.Active := BoolValue true;
     ScenarioResourceModel.TeamId := StringValue "team-1" |}.

(** ** The provider and the data sources *)

Module MakeProviderModel.
Record t : Type := {
  ApiToken : tfString;
  BaseUrl : tfString
}.
End MakeProviderModel.

(** What [os.Getenv] returns for the two variables [Configure] reads:
    the value, or the empty string when the variable is not set. *)
Record Environ : Type := {
  MAKE_API_TOKEN : string;
  MAKE_BASE_URL : string
}.

Module provider.
Record ConfigureResponse (world : Type) : Type := {
  Diagnostics : list Diagnostic;
  DataSourceData : option (MakeAPIClient world);
  ResourceData : option (MakeAPIClient world)
}.
Arguments Diagnostics {world} _.
Arguments DataSourceData {world} _.
Arguments ResourceData {world} _.
End provider.

Definition missingTokenDetail : string :=
  "While configuring the provider, the API token was not found in " +:+
  "the MAKE_API_TOKEN environment variable or provider " +:+
  "configuration block api_token attribute.".

(** [MakeProvider.Configure].  The struct literal names the token and
    the base URL; [httpClient] is the HTTP client the configured client
    is run with. *)
Definition MakeProvider_Configure {world : Type}
  (httpClient : Request -> world -> result Response * world)
  (env : Environ) (data : MakeProviderModel.t)
  (resp : provider.ConfigureResponse world) : provider.ConfigureResponse world :=
  if HasError (provider.Diagnostics resp) then resp
  else
    let apiToken := MAKE_API_TOKEN env in
    let baseUrl := MAKE_BASE_URL env in
    let baseUrl := if String.eqb baseUrl "" then "https://api.make.com/" else baseUrl in
    let apiToken :=
      if negb (String_IsNull (MakeProviderModel.ApiToken data))
      then ValueString (MakeProviderModel.ApiToken data) else apiToken in
    let baseUrl :=
      if negb (String_IsNull (MakeProviderModel.BaseUrl data))
      then ValueString (MakeProviderModel.BaseUrl data) else baseUrl in
    if String.eqb apiToken "" then
      {| provider.Diagnostics :=
           AddError "Missing API Token Configuration" missingTokenDetail
                    (provider.Diagnostics resp);
         provider.DataSourceData := provider.DataSourceData resp;
         provider.ResourceData := provider.ResourceData resp |}
    else
      let client := {| ApiToken := apiToken; BaseUrl := baseUrl;
                       HTTPClient := httpClient |} in
      {| provider.Diagnostics := provider.Diagnostics resp;
         provider.DataSourceData := Some client;
         provider.ResourceData := Some client |}.

Module ScenarioDataSourceModel.
Record t : Type := {
  Id : tfString;
  Name : tfString;
  Description : tfString;
  Active : tfBool;
  TeamId : tfString
}.
End ScenarioDataSourceModel.

Module TeamDataSourceModel.
Record t : Type := {
  Id : tfString;
  Name : tfString;
  OrganizationId : tfString
}.
End TeamDataSourceModel.

Module OrganizationDataSourceModel.
Record t : Type := {
  Id : tfString;
  Name : tfString
}.
End OrganizationDataSourceModel.

Module DataStoreDataSourceModel.
Record t : Type := {
  Id : tfString;
  Name : tfString;
  Description : tfString;
  TeamId : tfString
}.
End DataStoreDataSourceModel.

(** [if s == "" { data.F = types.StringNull() } else
    { data.F = types.StringValue(s) }], the order of
    [DataStoreDataSource.Read]. *)
Definition nullIfEmpty (s : string) : tfString :=
  if String.eqb s "" then StringNull else StringValue s.

Section DataSources.
Context {world : Type} (L : Lib) (c : MakeAPIClient world).

(** The Read of a data source starts from the configuration
    ([req.Config.Get(ctx, &data)]) and writes [resp.State]. *)
Definition ScenarioDataSource_Read (config : ScenarioDataSourceModel.t)
  (resp : resource.Response ScenarioDataSourceModel.t)
  : M world (resource.Response ScenarioDataSourceModel.t) :=
  let data := config in
  if HasError (resource.Diagnostics resp) then ret resp
  else
    r <- GetScenario L c (ValueString (ScenarioDataSourceModel.Id data)) ;;
    match r with
    | Err err =>
        ret (addClientError ("Unable to read scenario, got error: " +:+ Error err) resp)
    | Ok scenario =>
        ret (setState
          {| ScenarioDataSourceModel.Id := StringValue (ScenarioResponse.ID scenario);
             ScenarioDataSourceModel.Name := StringValue (ScenarioResponse.Name scenario);
             ScenarioDataSourceModel.Description :=
               valueOrNull (ScenarioResponse.Description scenario);
             ScenarioDataSourceModel.Active := BoolValue (ScenarioResponse.Active scenario);
             ScenarioDataSourceModel.TeamId :=
               valueOrNull (ScenarioResponse.TeamID scenario) |} resp)
    end.

Definition TeamDataSource_Read (config : TeamDataSourceModel.t)
  (resp : resource.Response TeamDataSourceModel.t)
  : M world (resource.Response TeamDataSourceModel.t) :=
  let data := config in
  if HasError (resource.Diagnostics resp) then ret resp
  else
    r <- GetTeam L c (ValueString (TeamDataSourceModel.Id data)) ;;
    match r with
    | Err err =>
        ret (addClientError ("Unable to read team, got error: " +:+ Error err) resp)
    | Ok team =>
        ret (setState
          {| TeamDataSourceModel.Id := StringValue (TeamResponse.ID team);
             TeamDataSourceModel.Name := StringValue (TeamResponse.Name team);
             TeamDataSourceModel.OrganizationId :=
               valueOrNull (TeamResponse.OrganizationID team) |} resp)
    end.

Definition OrganizationDataSource_Read (config : OrganizationDataSourceModel.t)
  (resp : resource.Response OrganizationDataSourceModel.t)
  : M world (resource.Response OrganizationDataSourceModel.t) :=
  let data := config in
  if HasError (resource.Diagnostics resp) then ret resp
  else
    r <- GetOrganization L c (ValueString (OrganizationDataSourceModel.Id data)) ;;
    match r with
    | Err err =>
        ret (addClientError ("Unable to read organization, got error: " +:+ Error err) resp)
    | Ok org =>
        ret (setState
          {| OrganizationDataSourceModel.Id := StringValue (OrganizationResponse.ID org);
             OrganizationDataSourceModel.Name := StringValue (OrganizationResponse.Name org) |}
          resp)
    end.

Definition DataStoreDataSource_Read (config : DataStoreDataSourceModel.t)
  (resp : resource.Response DataStoreDataSourceModel.t)
  : M world (resource.Response DataStoreDataSourceModel.t) :=
  let data := config in
  if HasError (resource.Diagnostics resp) then ret resp
  else
    r <- GetDataStore L c (ValueString (DataStoreDataSourceModel.Id data)) ;;
    match r with
    | Err err =>
        ret (addClientError ("Unable to read data store, got error: " +:+ Error err) resp)
    | Ok ds =>
        ret (setState
          {| DataStoreDataSourceModel.Id := StringValue (DataStoreResponse.ID ds);
             DataStoreDataSourceModel.Name := StringValue (DataStoreResponse.Name ds);
             DataStoreDataSourceModel.Description :=
               nullIfEmpty (DataStoreResponse.Description ds);
             DataStoreDataSourceModel.TeamId :=
               nullIfEmpty (DataStoreResponse.TeamID ds) |} resp)
    end.

End DataSources.

(** ** Vocabulary of the further statements *)

(** The four calls of a resource that reach the remote service. *)
Inductive operation : Type := OpCreate | OpRead | OpUpdate | OpDelete.

Definition Resource_run {world : Type} (L : Lib) (c : MakeAPIClient world)
  (op : operation) (k : kind)
  : ModelT k -> resource.Response (ModelT k) -> M world (resource.Response (ModelT k)) :=
  match op with
  | OpCreate => Resource_Create L c k
  | OpRead => Resource_Read L c k
  | OpUpdate => Resource_Update L c k
  | OpDelete => Resource_Delete L c k
  end.

Definition method (op : operation) : string :=
  match op with
  | OpCreate => "POST"
  | OpRead => "GET"
  | OpUpdate => "PUT"
  | OpDelete => "DELETE"
  end.

(** The path an operation addresses: the collection for a create, the
    element of the identifier in [data] for the others. *)
Definition target (op : operation) (k : kind) (data : ModelT k) : string :=
  match op with
  | OpCreate => collection k
  | _ => endpoint k (ValueString (ModelId k data))
  end.

(** The body an operation sends: the request built from [data] for a
    create and an update, none for a read and a delete. *)
Definition sentBody (op : operation) (k : kind) (data : ModelT k) : result (option payload) :=
  match op with
  | OpCreate | OpUpdate =>
      match Resource_request k data with
      | Ok req => Ok (Some (Payload k req))
      | Err err => Err err
      end
  | OpRead | OpDelete => Ok None
  end.

(** What Read stores for a record the remote returned. *)
Definition Resource_refresh (L : Lib) (k : kind) : ResponseT k -> ModelT k :=
  match k with
  | Scenario => ScenarioResource_refresh
  | Connection => ConnectionResource_refresh L
  | Webhook => WebhookResource_refresh L
  | Team => fun team =>
      {| TeamResourceModel.Id := StringValue (TeamResponse.ID team);
         TeamResourceModel.Name := StringValue (TeamResponse.Name team);
         TeamResourceModel.OrganizationId := valueOrNull (TeamResponse.OrganizationID team) |}
  | Organization => OrganizationResource_refresh
  | DataStore => DataStoreResource_refresh
  end.

(** Every optional field of a remote record holds a value (and, for a
    webhook, the type switch and [%v] agree on its settings). *)
Definition fields_set (L : Lib) (k : kind) : ResponseT k -> Prop :=
  match k with
  | Scenario => fun v =>
      ScenarioResponse.Description v <> "" /\ ScenarioResponse.TeamID v <> ""
  | Connection => fun v =>
      ConnectionResponse.TeamID v <> "" /\ 0 < len (ConnectionResponse.Settings v)
  | Webhook => fun v =>
      WebhookResponse.TeamID v <> "" /\ 0 < len (WebhookResponse.Settings v) /\
      settingsValsTyped L (WebhookResponse.Settings v)
        = settingsVals L (WebhookResponse.Settings v)
  | Team => fun v => TeamResponse.OrganizationID v <> ""
  | Organization => fun _ => True
  | DataStore => fun v =>
      DataStoreResponse.Description v <> "" /\ DataStoreResponse.TeamID v <> ""
  end.

(** The fields of a data source model, as a resource model. *)
Definition ScenarioDataSource_fields (d : ScenarioDataSourceModel.t) : ScenarioResourceModel.t :=
  {| ScenarioResourceModel.Id := ScenarioDataSourceModel.Id d;
     ScenarioResourceModel.Name := ScenarioDataSourceModel.Name d;
     ScenarioResourceModel.Description := ScenarioDataSourceModel.Description d;
     ScenarioResourceModel.Active := ScenarioDataSourceModel.Active d;
     ScenarioResourceModel.TeamId := ScenarioDataSourceModel.TeamId d |}.

Definition TeamDataSource_fields (d : TeamDataSourceModel.t) : TeamResourceModel.t :=
  {| TeamResourceModel.Id := TeamDataSourceModel.Id d;
     TeamResourceModel.Name := TeamDataSourceModel.Name d;
     TeamResourceModel.OrganizationId := TeamDataSourceModel.OrganizationId d |}.

Definition OrganizationDataSource_fields (d : OrganizationDataSourceModel.t)
  : OrganizationResourceModel.t :=
  {| OrganizationResourceModel.Id := OrganizationDataSourceModel.Id d;
     OrganizationResourceModel.Name := OrganizationDataSourceModel.Name d |}.

Definition DataStoreDataSource_fields (d : DataStoreDataSourceModel.t)
  : DataStoreResourceModel.t :=
  {| DataStoreResourceModel.Id := DataStoreDataSourceModel.Id d;
     DataStoreResourceModel.Name := DataStoreDataSourceModel.Name d;
     DataStoreResourceModel.Description := DataStoreDataSourceModel.Description d;
     DataStoreResourceModel.TeamId := DataStoreDataSourceModel.TeamId d |}.

(** The log after one call of [MakeRequest]. *)
Definition logged {world : Type} (L : Lib) (c : MakeAPIClient world)
  (m ep : string) (body : option payload) (log : list Request) : list Request :=
  match url_join L (BaseUrl c) ep with
  | Err _ => log
  | Ok u => (log ++ [newRequest c m u body])%list
  end.

Definition verb (op : operation) : string :=
  match op with
  | OpCreate => "create"
  | OpRead => "read"
  | OpUpdate => "update"
  | OpDelete => "delete"
  end.

(** The response an operation ends with when its client call returns
    the error [err]. *)
Definition failure (op : operation) (k : kind) (err : error) {Model : Type}
  (resp0 : resource.Response Model) : resource.Response Model :=
  addClientError ("Unable to " +:+ verb op +:+ " " +:+ noun k +:+ ", got error: "
                    +:+ Error err) resp0.

(** The three ways a resource call ends: as it started, with one more
    error and the state untouched, or without a new diagnostic and (but
    for a delete, which leaves the state alone) with a state written. *)
Inductive ending {Model : Type} (delete : bool) (resp0 r : resource.Response Model) : Prop :=
| ended_early :
    HasError (resource.Diagnostics resp0) = true -> r = resp0 -> ending delete resp0 r
| ended_failed (d : Diagnostic) :
    HasError (resource.Diagnostics resp0) = false ->
    is_error d = true ->
    resource.State r = resource.State resp0 ->
    resource.Diagnostics r = (resource.Diagnostics resp0 ++ [d])%list ->
    ending delete resp0 r
| ended_done :
    HasError (resource.Diagnostics resp0) = false ->
    resource.Diagnostics r = resource.Diagnostics resp0 ->
    (if delete then resource.State r = resource.State resp0
     else exists data, resource.State r = Some data) ->
    ending delete resp0 r.

(** The settings attribute of a model, for the kinds that have one. *)
Definition ModelSettings (k : kind) : ModelT k -> option tfMap :=
  match k with
  | Connection => fun data => Some (ConnectionResourceModel.Settings data)
  | Webhook => fun data => Some (WebhookResourceModel.Settings data)
  | _ => fun _ => None
  end.

(** A settings map that does not convert to [map[string]string]: it is
    unknown, or one of its elements is null or unknown. *)
Definition unconvertible (v : tfMap) : Prop :=
  v = MapUnknown \/
  exists (elems : gmap string tfString) (key : string) (e : tfString),
    v = MapValue elems /\ elems !! key = Some e /\ (e = StringNull \/ e = StringUnknown).

(** No character of [s] is [c]. *)
Fixpoint free_of (c : ascii) (s : string) : bool :=
  match s with
  | EmptyString => true
  | String a s' => negb (Ascii.eqb a c) && free_of c s'
  end.

(** A response with the state and the diagnostics of another model. *)
Definition mapResponse {A B : Type} (f : A -> B) (r : resource.Response A)
  : resource.Response B :=
  {| resource.State := f <$> resource.State r;
     resource.Diagnostics := resource.Diagnostics r |}.

(** ** The settings loops as code that can panic

    Two steps of a settings loop can panic instead of returning: the
    call [val.String()] of the switch, which runs a method of the
    value's own type, and [types.MapValueMust], which panics when
    [types.MapValue] reports an element of another type than the
    element type.  [fmt.Sprintf] always returns (it recovers from a
    panic of a [String] method and prints it).  Here the elements keep
    their framework type and [None] is the panic. *)

(** [attr.Value], for the types the schemas of the provider use. *)
Inductive attrValue : Type :=
| AttrString (v : tfString)
| AttrBool (v : tfBool)
| AttrMap (v : tfMap).

Definition attr_string (e : attrValue) : option tfString :=
  match e with AttrString v => Some v | _ => None end.

(** [types.MapValueMust(types.StringType, elements)]. *)
Definition MapValueMust_StringType (elements : gmap string attrValue) : option tfMap :=
  if bool_decide (map_Forall (fun _ e => is_Some (attr_string e)) elements)
  then Some (MapValue (omap attr_string elements))
  else None.

(** The case of the switch that calls into the value. *)
Definition calls_String (v : value) : bool :=
  match v with VStringer _ => true | _ => false end.

(** What [encoding/json] stores in an [interface{}]: nil, a [bool], a
    [float64] (never NaN or an infinity), a [string], and slices and
    maps of such values. *)
Fixpoint from_json (v : value) : bool :=
  match v with
  | VString _ | VBool _ | VNil => true
  | VFloat Float64 f => is_finite f
  | VSlice l => forallb from_json l
  | VMap m => map_fold (fun _ v acc => from_json v && acc) true m
  | _ => false
  end.

Section Panics.
Context (L : Lib).

(** The values whose [String] method panics when it is called (a nil
    pointer of a type whose method reads its receiver, say).  [value]
    holds a value with a [String] method by what the call returns; this
    says when it does not return. *)
Context (panics : value -> bool).

(** The switch of [WebhookResource.Create], with [val.String()] as a
    call. *)
Definition strValMust (v : value) : option string :=
  match v with
  | VStringer str => if panics v then None else Some str
  | _ => Some (strVal L v)
  end.

(** The loop around it, which fills a [map[string]attr.Value]:
    [settingsVals[k] = types.StringValue(strVal)]. *)
Definition typedElements (m : gmap string value) : option (gmap string attrValue) :=
  if bool_decide (map_Forall (fun _ v => is_Some (strValMust v)) m)
  then Some (omap (fun v => (fun s => AttrString (StringValue s)) <$> strValMust v) m)
  else None.

(** The settings of [WebhookResource.Create]: under
    [if len(webhook.Settings) > 0], the loop and [data.Settings =
    types.MapValueMust(types.StringType, settingsVals)]; otherwise
    [data.Settings] stays as planned. *)
Definition WebhookResource_Create_settings (planned : tfMap) (m : gmap string value)
  : option tfMap :=
  if 0 <? len m then
    match typedElements m with
    | Some settingsVals => MapValueMust_StringType settingsVals
    | None => None
    end
  else Some planned.

(** The loop of the other methods:
    [settingsVals[k] = types.StringValue(fmt.Sprintf("%v", v))]. *)
Definition sprintElements (m : gmap string value) : gmap string attrValue :=
  (fun v => AttrString (StringValue (fmt_Sprint L v))) <$> m.

(** The settings of Read and Update, of a connection and of a webhook:
    that loop and its [types.MapValueMust] when there are settings,
    [types.MapNull] otherwise.  ([ConnectionResource.Create] has the
    same loop and leaves the planned settings otherwise.) *)
Definition Resource_refresh_settings (m : gmap string value) : option tfMap :=
  if 0 <? len m then MapValueMust_StringType (sprintElements m) else Some MapNull.

(** Modelled from the spec: the rendering of one value by
    [convertSettingsToStringMap], a function that
    [ConnectionDataSource.Read] calls and
    [TestConvertSettingsToStringMap] tests, and that is not among the
    sources.  In the words of the specification: strings pass through
    unchanged, booleans render as their lowercase literal, integers of
    any width as base-10 digits, floating-point values with six digits
    after the decimal point, and any other type falls back to a generic
    human-readable rendering. *)
Definition normalize (v : value) : string :=
  match v with
  | VString s => s
  | VBool b => FormatBool b
  | VInt _ n => FormatInt n
  | VUint _ n => FormatInt (Z.of_N n)
  | VFloat _ f => FormatFloat_f f
  | _ => fmt_Sprint L v
  end.

(** Modelled from the spec: [convertSettingsToStringMap] itself, which
    renders every value of the map; the test reads every element of
    its result as a [types.String]. *)
Definition convertSettingsToStringMap (settings : gmap string value)
  : gmap string attrValue :=
  (fun v => AttrString (StringValue (normalize v))) <$> settings.

(** The settings of [ConnectionDataSource.Read]:
    [types.MapValueMust(types.StringType,
    convertSettingsToStringMap(connection.Settings))] when there are
    settings, [types.MapNull] otherwise. *)
Definition ConnectionDataSource_Read_settings (settings : gmap string value)
  : option tfMap :=
  if 0 <? len settings
  then MapValueMust_StringType (convertSettingsToStringMap settings)
  else Some MapNull.

End Panics.

(** A settings object with a number, an array, a nested object and a
    null, as decoded from JSON. *)
Definition nestedSettings : gmap string value :=
  <["retries" := VFloat Float64 (FFinite false 3 0)]>
    (<["tags" := VSlice [VString "a"; VNil]]>
       (<["extra" := VMap {[ "deep" := VSlice [] ]}]>
          (<["none" := VNil]> (<["on" := VBool true]> ∅)))).

(** * Properties *)

(** ** Rendering of integers *)

Lemma is_digit_string_of_uint (d : Decimal.uint) :
  all_digits (NilEmpty.string_of_uint d) = true.
Proof. induction d; simpl; auto. Qed.

Lemma all_digits_FormatInt (n : Z) : 0 <= n -> all_digits (FormatInt n) = true.
Proof.
  intros Hn. unfold FormatInt, NilZero.string_of_int.
  destruct n as [|p|p]; [reflexivity| |lia].
  simpl. unfold NilZero.string_of_uint.
  destruct (Pos.to_uint p); try reflexivity; apply is_digit_string_of_uint.
Qed.

Lemma FormatInt_negative (n : Z) :
  n < 0 -> exists digits, FormatInt n = "-" +:+ digits /\ all_digits digits = true.
Proof.
  intros Hn. destruct n as [|p|p]; try lia.
  exists (NilZero.string_of_uint (Pos.to_uint p)). split; [reflexivity|].
  unfold NilZero.string_of_uint.
  destruct (Pos.to_uint p); try reflexivity; apply is_digit_string_of_uint.
Qed.

Lemma FormatInt_nonempty (n : Z) : FormatInt n <> "".
Proof.
  unfold FormatInt, NilZero.string_of_int.
  destruct (Z.to_int n) as [d|d]; [|discriminate].
  unfold NilZero.string_of_uint. destruct d; discriminate.
Qed.

Lemma to_int_not_nil (n : Z) :
  Z.to_int n <> Decimal.Pos Decimal.Nil /\ Z.to_int n <> Decimal.Neg Decimal.Nil.
Proof.
  assert (Hp : forall p, Pos.to_uint p <> Decimal.Nil).
  { intros p Hnil.
    assert (Hof := DecimalPos.Unsigned.of_to p). rewrite Hnil in Hof. discriminate. }
  destruct n as [|p|p]; simpl; split; try discriminate;
    intros Heq; injection Heq; apply Hp.
Qed.

Lemma ParseInt_FormatInt (n : Z) : ParseInt (FormatInt n) = Some n.
Proof.
  unfold ParseInt, FormatInt.
  destruct (to_int_not_nil n) as [Hpos Hneg].
  rewrite NilZero.isi by assumption.
  simpl. f_equal. apply DecimalZ.of_to.
Qed.

(** ** Rendering of floats *)

Lemma is_digit_digit_char (x : Z) : is_digit (digit_char x) = true.
Proof.
  unfold digit_char.
  assert (Hd : 0 <= x mod 10 < 10) by (apply Z.mod_pos_bound; lia).
  remember (x mod 10) as d eqn:Heqd. clear Heqd.
  assert (Hcases : d = 0 \/ d = 1 \/ d = 2 \/ d = 3 \/ d = 4 \/
                   d = 5 \/ d = 6 \/ d = 7 \/ d = 8 \/ d = 9) by lia.
  repeat (destruct Hcases as [-> | Hcases]; [reflexivity|]).
  subst d. reflexivity.
Qed.

Lemma frac6_digits (q : Z) :
  String.length (frac6 q) = 6%nat /\ all_digits (frac6 q) = true.
Proof.
  unfold frac6. split; [reflexivity|].
  cbn [all_digits]. rewrite !is_digit_digit_char. reflexivity.
Qed.

Lemma round_half_even_nonneg (num den : Z) :
  0 <= num -> 0 < den -> 0 <= round_half_even num den.
Proof.
  intros Hnum Hden. unfold round_half_even.
  assert (0 <= num / den) by (apply Z.div_pos; lia).
  repeat match goal with |- context [if ?b then _ else _] => destruct b end; lia.
Qed.

Lemma micros_nonneg (m : N) (e : Z) : 0 <= micros m e.
Proof.
  unfold micros. destruct (0 <=? e) eqn:He.
  - apply Z.leb_le in He.
    assert (0 <= 2 ^ e) by (apply Z.pow_nonneg; lia).
    assert (0 <= Z.of_N m) by lia. nia.
  - apply Z.leb_gt in He.
    apply round_half_even_nonneg; [lia|].
    apply Z.pow_pos_nonneg; lia.
Qed.

Lemma FormatFloat_f_finite (neg : bool) (m : N) (e : Z) :
  six_decimals (FormatFloat_f (FFinite neg m e)).
Proof.
  unfold six_decimals, FormatFloat_f.
  exists (if neg then "-" else ""), (FormatInt (micros m e / 1000000)), (frac6 (micros m e)).
  split; [reflexivity|].
  split; [destruct neg; auto|].
  split; [apply FormatInt_nonempty|].
  split.
  - apply all_digits_FormatInt. apply Z.div_pos; [apply micros_nonneg | lia].
  - apply frac6_digits.
Qed.

(** ** The client *)

Section ClientFacts.
Context {world : Type} (L : Lib) (c : MakeAPIClient world).

Lemma MakeRequest_sent (method ep u : string) (body : option payload)
  (w w' : world) (resp : Response) :
  url_join L (BaseUrl c) ep = Ok u ->
  HTTPClient c (newRequest c method u body) w = (Ok resp, w') ->
  MakeRequest L c method ep body w = (Ok resp, w').
Proof.
  intros Hu Hdo. unfold MakeRequest, bind, ret. rewrite Hu, Hdo. reflexivity.
Qed.

Lemma Delete_answered (k : kind) (id : string) (w w' : world) (resp : Response) :
  MakeRequest L c "DELETE" (endpoint k id) None w = (Ok resp, w') ->
  Delete L c k id w =
    (if StatusCode resp =? 404 then None
     else if 400 <=? StatusCode resp then Some (HandleErrorResponse L resp)
     else None, w').
Proof.
  intros Hreq. unfold Delete, bind, ret. rewrite Hreq.
  destruct (StatusCode resp =? 404); [reflexivity|].
  destruct (400 <=? StatusCode resp); reflexivity.
Qed.

Lemma Get_answered (k : kind) (id : string) (w w' : world) (resp : Response) :
  MakeRequest L c "GET" (endpoint k id) None w = (Ok resp, w') ->
  Get L c k id w =
    (if StatusCode resp =? 404 then Err (notFound k id)
     else if 400 <=? StatusCode resp then Err (HandleErrorResponse L resp)
     else decodeResponse L k resp, w').
Proof.
  intros Hreq. unfold Get, bind, ret. rewrite Hreq.
  destruct (StatusCode resp =? 404); [reflexivity|].
  destruct (400 <=? StatusCode resp); reflexivity.
Qed.

Lemma Update_answered (k : kind) (id : string) (req : RequestT k)
  (w w' : world) (resp : Response) :
  MakeRequest L c "PUT" (endpoint k id) (Some (Payload k req)) w = (Ok resp, w') ->
  Update L c k id req w =
    (if StatusCode resp =? 404 then Err (notFound k id)
     else if 400 <=? StatusCode resp then Err (HandleErrorResponse L resp)
     else decodeResponse L k resp, w').
Proof.
  intros Hreq. unfold Update, bind, ret. rewrite Hreq.
  destruct (StatusCode resp =? 404); [reflexivity|].
  destruct (400 <=? StatusCode resp); reflexivity.
Qed.

Lemma Create_answered (k : kind) (req : RequestT k) (w w' : world) (resp : Response) :
  MakeRequest L c "POST" (collection k) (Some (Payload k req)) w = (Ok resp, w') ->
  Create L c k req w =
    (if 400 <=? StatusCode resp then Err (HandleErrorResponse L resp)
     else decodeResponse L k resp, w').
Proof.
  intros Hreq. unfold Create, bind, ret. rewrite Hreq.
  destruct (400 <=? StatusCode resp); reflexivity.
Qed.

Lemma HandleErrorResponse_policy (resp : Response) (body : string) :
  Body resp = Ok body ->
  HandleErrorResponse L resp = apiError (StatusCode resp) (messagePolicy L body).
Proof.
  intros Hbody. unfold HandleErrorResponse, messagePolicy. rewrite Hbody.
  destruct (json_Unmarshal L body) as [parsed|err]; [|reflexivity].
  destruct (String.eqb_spec (ErrorResponse.Message parsed) "") as [Hm|Hm].
  - rewrite bool_decide_eq_false_2 by (intros Hne; apply Hne, Hm).
    destruct (String.eqb_spec (ErrorResponse.Error parsed) "") as [He|He].
    + rewrite bool_decide_eq_false_2 by (intros Hne; apply Hne, He). reflexivity.
    + rewrite bool_decide_eq_true_2 by exact He. reflexivity.
  - rewrite bool_decide_eq_true_2 by exact Hm.
    destruct (String.eqb_spec (ErrorResponse.Message parsed) "") as [Hm'|_];
      [contradiction|reflexivity].
Qed.

End ClientFacts.

(** ** Strings *)

Lemma length_append (s t : string) :
  String.length (s +:+ t) = (String.length s + String.length t)%nat.
Proof. induction s as [|a s IH]; simpl; [reflexivity | rewrite IH; reflexivity]. Qed.

Lemma append_cancel_r (t s1 s2 : string) : s1 +:+ t = s2 +:+ t -> s1 = s2.
Proof.
  revert s2. induction s1 as [|a s1 IH]; intros [|b s2] Heq; simpl in Heq.
  - reflexivity.
  - apply (f_equal String.length) in Heq. rewrite !length_append in Heq. simpl in Heq. lia.
  - apply (f_equal String.length) in Heq. rewrite !length_append in Heq. simpl in Heq. lia.
  - injection Heq as -> Heq. f_equal. apply IH, Heq.
Qed.

Lemma notFound_inj (k : kind) (id id' : string) :
  notFound k id = notFound k id' -> id = id'.
Proof.
  unfold notFound. intros Heq. injection Heq as Heq.
  apply (append_cancel_r " not found").
  destruct k; simpl in Heq; injection Heq; auto.
Qed.

Lemma notFound_not_apiError (k : kind) (id : string) (status : Z) (message : string) :
  notFound k id <> apiError status message.
Proof.
  unfold notFound, apiError. intros Heq. injection Heq as Heq.
  destruct k; simpl in Heq; discriminate Heq.
Qed.

Lemma HandleErrorResponse_apiError (L : Lib) (resp : Response) :
  exists message, HandleErrorResponse L resp = apiError (StatusCode resp) message.
Proof.
  unfold HandleErrorResponse.
  destruct (Body resp) as [body|err]; [|eauto].
  destruct (json_Unmarshal L body); eauto.
Qed.

(** ** Claims about the client *)

(** C2.  For every resource kind and identifier: when the remote answers
    the DELETE with a status of 400 or more, [Delete] returns no error if
    the status is 404 and an error for every other status.  Hence, when
    the state of the remote is the one an earlier delete left behind
    (whatever that delete returned), two deletes in succession end with
    no error on the second one if the remote answers it with 404. *)
Theorem Delete_not_found_is_success :
  forall (world : Type) (L : Lib) (c : MakeAPIClient world) (k : kind) (id : string)
         (w w' : world) (resp : Response),
    MakeRequest L c "DELETE" (endpoint k id) None w = (Ok resp, w') ->
    400 <= StatusCode resp ->
    Delete L c k id w =
      (if StatusCode resp =? 404 then None else Some (HandleErrorResponse L resp), w') /\
    (StatusCode resp = 404 ->
     forall (w0 : world) (r0 : option error),
       Delete L c k id w0 = (r0, w) ->
       deleteTwice L c k id w0 = ((r0, None), w')).
Proof.
  intros world L c k id w w' resp Hreq Hstatus.
  assert (Hdel : Delete L c k id w =
            (if StatusCode resp =? 404 then None else Some (HandleErrorResponse L resp), w')).
  { rewrite (Delete_answered L c k id w w' resp Hreq).
    destruct (StatusCode resp =? 404); [reflexivity|].
    apply Z.leb_le in Hstatus. rewrite Hstatus. reflexivity. }
  split; [exact Hdel|].
  intros H404 w0 r0 Hfirst.
  unfold deleteTwice, bind, ret. rewrite Hfirst, Hdel.
  apply Z.eqb_eq in H404. rewrite H404. reflexivity.
Qed.

Lemma Delete_not_found_is_success_witness :
  Delete (stubLib "42") stubClient Scenario "42" [response 404 ""] = (None, []) /\
  deleteTwice (stubLib "42") stubClient Scenario "42" [response 204 ""; response 404 ""]
    = ((None, None), []) /\
  deleteTwice (stubLib "42") stubClient Team "42" [response 500 "{}"; response 404 ""]
    = ((Some (errorString "API request failed with status 500: {}"), None), []).
Proof.
  assert (H400 : 400 <= 404) by lia.
  split; [|split].
  - exact (proj1 (Delete_not_found_is_success _ (stubLib "42") stubClient Scenario "42"
                    [response 404 ""] [] (response 404 "") eq_refl H400)).
  - exact (proj2 (Delete_not_found_is_success _ (stubLib "42") stubClient Scenario "42"
                    [response 404 ""] [] (response 404 "") eq_refl H400)
                 eq_refl [response 204 ""; response 404 ""] None eq_refl).
  - exact (proj2 (Delete_not_found_is_success _ (stubLib "42") stubClient Team "42"
                    [response 404 ""] [] (response 404 "") eq_refl H400)
                 eq_refl [response 500 "{}"; response 404 ""]
                 (Some (errorString "API request failed with status 500: {}")) eq_refl).
Defined.

(** C4.  For every kind: a response with status 400 or more whose body
    can be read makes Create fail, and Get, Update and Delete fail unless
    the status is 404, with the error "API request failed with status
    <status>: <message>", where <message> follows [messagePolicy]: the
    message field of a body that parses when it is not empty, else its
    error field when that is not empty, else the raw body; and the raw
    body when the body does not parse. *)
Theorem api_error_message_policy :
  forall (world : Type) (L : Lib) (c : MakeAPIClient world) (k : kind) (id : string)
         (req : RequestT k) (w w' : world) (resp : Response) (body : string),
    Body resp = Ok body ->
    400 <= StatusCode resp ->
    let failure := apiError (StatusCode resp) (messagePolicy L body) in
    (MakeRequest L c "POST" (collection k) (Some (Payload k req)) w = (Ok resp, w') ->
     Create L c k req w = (Err failure, w')) /\
    (StatusCode resp <> 404 ->
     MakeRequest L c "GET" (endpoint k id) None w = (Ok resp, w') ->
     Get L c k id w = (Err failure, w')) /\
    (StatusCode resp <> 404 ->
     MakeRequest L c "PUT" (endpoint k id) (Some (Payload k req)) w = (Ok resp, w') ->
     Update L c k id req w = (Err failure, w')) /\
    (StatusCode resp <> 404 ->
     MakeRequest L c "DELETE" (endpoint k id) None w = (Ok resp, w') ->
     Delete L c k id w = (Some failure, w')).
Proof.
  intros world L c k id req w w' resp body Hbody Hstatus failure.
  subst failure. rewrite <- (HandleErrorResponse_policy L resp body Hbody).
  apply Z.leb_le in Hstatus.
  repeat split.
  - intros Hreq. rewrite (Create_answered L c k req w w' resp Hreq), Hstatus. reflexivity.
  - intros Hne Hreq. apply Z.eqb_neq in Hne.
    rewrite (Get_answered L c k id w w' resp Hreq), Hne, Hstatus. reflexivity.
  - intros Hne Hreq. apply Z.eqb_neq in Hne.
    rewrite (Update_answered L c k id req w w' resp Hreq), Hne, Hstatus. reflexivity.
  - intros Hne Hreq. apply Z.eqb_neq in Hne.
    rewrite (Delete_answered L c k id w w' resp Hreq), Hne, Hstatus. reflexivity.
Qed.

Lemma api_error_message_policy_witness :
  Get (stubLib "7") stubClient Scenario "7" [response 500 body_message_bad]
    = (Err (errorString "API request failed with status 500: bad"), []) /\
  Delete (stubLib "7") stubClient Webhook "7" [response 500 "upstream unavailable"]
    = (Some (errorString "API request failed with status 500: upstream unavailable"), []).
Proof.
  assert (H500 : 400 <= 500) by lia.
  assert (Hne500 : 500 <> 404) by discriminate.
  split.
  - exact (proj1 (proj2 (api_error_message_policy _ (stubLib "7") stubClient Scenario "7"
             (ScenarioResource_request (plannedScenario StringUnknown))
             [response 500 body_message_bad] [] (response 500 body_message_bad)
             body_message_bad eq_refl H500)) Hne500 eq_refl).
  - exact (proj2 (proj2 (proj2 (api_error_message_policy _ (stubLib "7") stubClient Webhook "7"
             (WebhookResource_request
                {| WebhookResourceModel.Id := StringUnknown;
                   WebhookResourceModel.Name := StringValue "n";
                   WebhookResourceModel.URL := StringUnknown;
                   WebhookResourceModel.TeamId := StringNull;
                   WebhookResourceModel.Active := BoolNull;
                   WebhookResourceModel.Settings := MapNull |} ∅)
             [response 500 "upstream unavailable"] []
             (response 500 "upstream unavailable")
             "upstream unavailable" eq_refl H500))) Hne500 eq_refl).
Defined.

(** C7.  For every kind and identifier: when the remote answers the GET
    with 404, [Get] returns the not-found error of that kind and
    identifier.  Its text embeds the identifier, which can be read back
    from the error, and the error differs from every error
    [HandleErrorResponse] builds for a status of 400 or more and from
    the wrapped transport and decoding errors. *)
Theorem Get_not_found_is_distinct :
  forall (world : Type) (L : Lib) (c : MakeAPIClient world) (k : kind) (id : string)
         (w w' : world) (resp : Response),
    MakeRequest L c "GET" (endpoint k id) None w = (Ok resp, w') ->
    StatusCode resp = 404 ->
    Get L c k id w = (Err (notFound k id), w') /\
    Error (notFound k id) = noun k +:+ " with ID " +:+ id +:+ " not found" /\
    (forall id' : string, notFound k id' = notFound k id -> id' = id) /\
    (forall (L' : Lib) (resp' : Response), notFound k id <> HandleErrorResponse L' resp') /\
    (forall (prefix : string) (err : error), notFound k id <> Errorf_w prefix err).
Proof.
  intros world L c k id w w' resp Hreq H404.
  split; [|split; [|split; [|split]]].
  - rewrite (Get_answered L c k id w w' resp Hreq).
    apply Z.eqb_eq in H404. rewrite H404. reflexivity.
  - reflexivity.
  - intros id' Heq. apply (notFound_inj k), Heq.
  - intros L' resp' Heq.
    destruct (HandleErrorResponse_apiError L' resp') as [message Hmsg].
    rewrite Hmsg in Heq. exact (notFound_not_apiError k id _ _ Heq).
  - intros prefix err Heq. discriminate Heq.
Qed.

Lemma Get_not_found_is_distinct_witness :
  Get (stubLib "42") stubClient DataStore "42" [response 404 "{}"]
    = (Err (errorString "data store with ID 42 not found"), []).
Proof.
  exact (proj1 (Get_not_found_is_distinct _ (stubLib "42") stubClient DataStore "42"
                  [response 404 "{}"] [] (response 404 "{}") eq_refl eq_refl)).
Defined.

(** C10.  When the body of an error response parses: a non-empty message
    field is the extracted message whatever the error field holds, so it
    takes precedence when both are non-empty; the error field is the
    extracted message exactly when the message field is empty and the
    error field is not. *)
Theorem message_field_takes_precedence :
  forall (L : Lib) (resp : Response) (body : string) (parsed : ErrorResponse.t),
    Body resp = Ok body ->
    json_Unmarshal L body = Ok parsed ->
    (ErrorResponse.Message parsed <> "" ->
     HandleErrorResponse L resp
       = apiError (StatusCode resp) (ErrorResponse.Message parsed)) /\
    (ErrorResponse.Message parsed = "" -> ErrorResponse.Error parsed <> "" ->
     HandleErrorResponse L resp
       = apiError (StatusCode resp) (ErrorResponse.Error parsed)).
Proof.
  intros L resp body parsed Hbody Hparse.
  unfold HandleErrorResponse. rewrite Hbody, Hparse.
  split.
  - intros Hm. apply String.eqb_neq in Hm. rewrite Hm, Hm. reflexivity.
  - intros Hm He. rewrite Hm. simpl.
    apply String.eqb_neq in He. rewrite He. reflexivity.
Qed.

Lemma message_field_takes_precedence_witness :
  HandleErrorResponse (stubLib "1") (response 500 body_error_and_message)
    = errorString "API request failed with status 500: bad".
Proof.
  assert (Hne : "bad" <> "") by discriminate.
  exact (proj1 (message_field_takes_precedence (stubLib "1")
                  (response 500 body_error_and_message) body_error_and_message
                  {| ErrorResponse.Error := "denied"; ErrorResponse.Message := "bad";
                     ErrorResponse.Code := 0 |} eq_refl eq_refl) Hne).
Defined.

(** ** The resources *)

Lemma HasError_AddError (summary detail : string) (ds : Diagnostics) :
  HasError (AddError summary detail ds) = true.
Proof.
  unfold HasError, AddError. rewrite existsb_app. simpl. apply orb_true_r.
Qed.

Ltac unfold_resources :=
  unfold ScenarioResource_Create, ScenarioResource_Read, ScenarioResource_Update,
         ScenarioResource_Delete,
         ConnectionResource_Create, ConnectionResource_Read, ConnectionResource_Update,
         ConnectionResource_Delete,
         WebhookResource_Create, WebhookResource_Read, WebhookResource_Update,
         WebhookResource_Delete,
         TeamResource_Create, TeamResource_Read, TeamResource_Update,
         TeamResource_Delete,
         OrganizationResource_Create, OrganizationResource_Read,
         OrganizationResource_Update, OrganizationResource_Delete,
         DataStoreResource_Create, DataStoreResource_Read, DataStoreResource_Update,
         DataStoreResource_Delete,
         CreateScenario, GetScenario, UpdateScenario, DeleteScenario,
         CreateConnection, GetConnection, UpdateConnection, DeleteConnection,
         CreateWebhook, GetWebhook, UpdateWebhook, DeleteWebhook,
         CreateTeam, GetTeam, UpdateTeam, DeleteTeam,
         CreateOrganization, GetOrganization, UpdateOrganization, DeleteOrganization,
         CreateDataStore, GetDataStore, UpdateDataStore, DeleteDataStore,
         bind, ret.

(** Splits a hypothesis [Resource_request k plan = Ok req] by kind. *)
Ltac request_cases k Hreq :=
  destruct k; simpl in Hreq;
  try (match type of Hreq with
       | match ?x with _ => _ end = _ => destruct x eqn:?; [|discriminate Hreq]
       end);
  injection Hreq as <-.

Section ResourceFacts.
Context {world : Type} (L : Lib) (c : MakeAPIClient world).

Lemma Resource_Read_failed (k : kind) (state : ModelT k)
  (resp0 : resource.Response (ModelT k)) (w w' : world) (err : error) :
  HasError (resource.Diagnostics resp0) = false ->
  Get L c k (ValueString (ModelId k state)) w = (Err err, w') ->
  Resource_Read L c k state resp0 w =
    (addClientError ("Unable to read " +:+ noun k +:+ ", got error: " +:+ Error err) resp0, w').
Proof.
  intros Hdiag Hget.
  destruct k; simpl in *; unfold_resources; rewrite Hdiag, Hget; reflexivity.
Qed.

Lemma Resource_Read_done (k : kind) (state : ModelT k)
  (resp0 : resource.Response (ModelT k)) (w w' : world) (v : ResponseT k) :
  HasError (resource.Diagnostics resp0) = false ->
  Get L c k (ValueString (ModelId k state)) w = (Ok v, w') ->
  exists data : ModelT k,
    Resource_Read L c k state resp0 w = (setState data resp0, w') /\
    ModelId k data = StringValue (ResponseID k v).
Proof.
  intros Hdiag Hget.
  destruct k; simpl in *; unfold_resources; rewrite Hdiag, Hget;
    eexists; split; reflexivity.
Qed.

Lemma Resource_Update_failed (k : kind) (plan : ModelT k) (req : RequestT k)
  (resp0 : resource.Response (ModelT k)) (w w' : world) (err : error) :
  HasError (resource.Diagnostics resp0) = false ->
  Resource_request k plan = Ok req ->
  Update L c k (ValueString (ModelId k plan)) req w = (Err err, w') ->
  Resource_Update L c k plan resp0 w =
    (addClientError ("Unable to update " +:+ noun k +:+ ", got error: " +:+ Error err) resp0, w').
Proof.
  intros Hdiag Hreq Hupd.
  request_cases k Hreq; simpl in *; unfold_resources;
    rewrite Hdiag; try rewrite Heqr; rewrite Hupd; reflexivity.
Qed.

Lemma Resource_Update_done (k : kind) (plan : ModelT k) (req : RequestT k)
  (resp0 : resource.Response (ModelT k)) (w w' : world) (v : ResponseT k) :
  HasError (resource.Diagnostics resp0) = false ->
  Resource_request k plan = Ok req ->
  Update L c k (ValueString (ModelId k plan)) req w = (Ok v, w') ->
  exists data : ModelT k,
    Resource_Update L c k plan resp0 w = (setState data resp0, w') /\
    ModelId k data = StringValue (ResponseID k v).
Proof.
  intros Hdiag Hreq Hupd.
  request_cases k Hreq; simpl in *; unfold_resources;
    rewrite Hdiag; try rewrite Heqr; rewrite Hupd;
    eexists; split; reflexivity.
Qed.

Lemma Resource_Create_done (k : kind) (plan : ModelT k) (req : RequestT k)
  (resp0 : resource.Response (ModelT k)) (w w' : world) (v : ResponseT k) :
  HasError (resource.Diagnostics resp0) = false ->
  Resource_request k plan = Ok req ->
  Create L c k req w = (Ok v, w') ->
  exists data : ModelT k,
    Resource_Create L c k plan resp0 w = (setState data resp0, w') /\
    ModelId k data = StringValue (ResponseID k v).
Proof.
  intros Hdiag Hreq Hcreate.
  request_cases k Hreq; simpl in *; unfold_resources;
    rewrite Hdiag; try rewrite Heqr; rewrite Hcreate;
    eexists; split; reflexivity.
Qed.

Lemma Resource_Delete_result (k : kind) (state : ModelT k)
  (resp0 : resource.Response (ModelT k)) (w w' : world) (r : option error) :
  HasError (resource.Diagnostics resp0) = false ->
  Delete L c k (ValueString (ModelId k state)) w = (r, w') ->
  Resource_Delete L c k state resp0 w =
    (match r with
     | Some err =>
         addClientError ("Unable to delete " +:+ noun k +:+ ", got error: " +:+ Error err) resp0
     | None => resp0
     end, w').
Proof.
  intros Hdiag Hdel.
  destruct k; simpl in *; unfold_resources; rewrite Hdiag, Hdel; destruct r; reflexivity.
Qed.

Lemma Resource_ImportState_id (k : kind) (ID : string)
  (resp0 : resource.Response (ModelT k)) :
  ModelId k <$> resource.State (Resource_ImportState k ID resp0) = Some (StringValue ID).
Proof.
  destruct k; destruct resp0 as [[data|] ds]; reflexivity.
Qed.

End ResourceFacts.

Lemma recording_sent {world : Type} (L : Lib) (c : MakeAPIClient world)
  (method ep u : string) (body : option payload) (w w' : world)
  (log : list Request) (resp : Response) :
  url_join L (BaseUrl c) ep = Ok u ->
  HTTPClient c (newRequest c method u body) w = (Ok resp, w') ->
  MakeRequest L (recording c) method ep body (w, log)
    = (Ok resp, (w', (log ++ [newRequest c method u body])%list)).
Proof.
  intros Hu Hdo. apply MakeRequest_sent with (u := u); [exact Hu|].
  unfold recording, newRequest in *. simpl. rewrite Hdo. reflexivity.
Qed.

(** ** Claims about the resources *)

Lemma valueOrNull_empty : valueOrNull "" = StringNull.
Proof. reflexivity. Qed.

Lemma valueOrNull_known (s : string) : s <> "" -> valueOrNull s = StringValue s.
Proof.
  intros Hs. unfold valueOrNull. apply String.eqb_neq in Hs. rewrite Hs. reflexivity.
Qed.

Lemma setIfNonEmpty_empty (old : tfString) : setIfNonEmpty "" old = old.
Proof. reflexivity. Qed.

(** C1, at a failing input.  A scenario is planned with a description
    and a team; the create call succeeds and the record it returns has
    both fields empty.  Create stores the planned values, not null; Read
    and Update of the same record store null. *)
Theorem Create_keeps_planned_optional_fields :
  let plan := plannedScenario StringUnknown in
  let remote := [response 201 "{}"] in
  resource.State
    (fst (ScenarioResource_Create (stubLib "1") stubClient plan (noDiagnostics None) remote))
  = Some {| ScenarioResourceModel.Id := StringValue "1";
            ScenarioResourceModel.Name := StringValue "n";
            ScenarioResourceModel.Description := StringValue "nightly sync";
            ScenarioResourceModel.Active := BoolValue true;
            ScenarioResourceModel.TeamId := StringValue "team-1" |} /\
  resource.State
    (fst (ScenarioResource_Read (stubLib "1") stubClient (plannedScenario (StringValue "1"))
            (noDiagnostics None) remote))
  = Some {| ScenarioResourceModel.Id := StringValue "1";
            ScenarioResourceModel.Name := StringValue "n";
            ScenarioResourceModel.Description := StringNull;
            ScenarioResourceModel.Active := BoolValue true;
            ScenarioResourceModel.TeamId := StringNull |} /\
  resource.State
    (fst (ScenarioResource_Update (stubLib "1") stubClient (plannedScenario (StringValue "1"))
            (noDiagnostics None) remote))
  = Some {| ScenarioResourceModel.Id := StringValue "1";
            ScenarioResourceModel.Name := StringValue "n";
            ScenarioResourceModel.Description := StringNull;
            ScenarioResourceModel.Active := BoolValue true;
            ScenarioResourceModel.TeamId := StringNull |}.
Proof. repeat split. Qed.

(** The same pattern without an else branch is in [TeamResource.Update]:
    an organization the remote no longer reports stays in the state. *)
Example TeamResource_Update_keeps_planned_organization :
  let plan := {| TeamResourceModel.Id := StringValue "9";
                 TeamResourceModel.Name := StringValue "n";
                 TeamResourceModel.OrganizationId := StringValue "org-1" |} in
  TeamResourceModel.OrganizationId <$>
    resource.State (fst (TeamResource_Update (stubLib "9") stubClient plan
                           (noDiagnostics (Some plan)) [response 200 "{}"]))
  = Some (StringValue "org-1").
Proof. reflexivity. Qed.

(** C3 as stated fails: a scenario is in state, the remote answers the
    GET of a plain read with 404, and Read ends with an error diagnostic
    and the record still in the state. *)
Lemma Read_not_found_is_not_swallowed :
  let state := plannedScenario (StringValue "42") in
  let r := fst (ScenarioResource_Read (stubLib "42") stubClient state
                  (noDiagnostics (Some state)) [response 404 ""]) in
  HasError (resource.Diagnostics r) = true /\
  resource.State r = Some state /\
  resource.Diagnostics r =
    [{| Severity := SeverityError; Summary := "Client Error";
        Detail := "Unable to read scenario, got error: scenario with ID 42 not found" |}].
Proof. repeat split. Qed.

(** C3, amended.  For every kind and record in state: when the remote
    answers the GET of a plain read with 404, Read adds the error
    diagnostic "Unable to read <kind>, got error: <kind> with ID <id> not
    found" and leaves the state as it was handed in; nothing reports the
    record as gone.  Only Delete turns a 404 into success (no diagnostic
    added); Update reports it as an error like Read. *)
Theorem not_found_is_success_only_on_delete :
  forall (world : Type) (L : Lib) (c : MakeAPIClient world) (k : kind)
         (state : ModelT k) (resp0 : resource.Response (ModelT k))
         (w w' : world) (resp : Response),
    HasError (resource.Diagnostics resp0) = false ->
    StatusCode resp = 404 ->
    let id := ValueString (ModelId k state) in
    (MakeRequest L c "GET" (endpoint k id) None w = (Ok resp, w') ->
     let failed := addClientError
       ("Unable to read " +:+ noun k +:+ ", got error: "
          +:+ noun k +:+ " with ID " +:+ id +:+ " not found") resp0 in
     Resource_Read L c k state resp0 w = (failed, w') /\
     HasError (resource.Diagnostics failed) = true /\
     resource.State failed = resource.State resp0) /\
    (MakeRequest L c "DELETE" (endpoint k id) None w = (Ok resp, w') ->
     Resource_Delete L c k state resp0 w = (resp0, w')) /\
    (forall req : RequestT k,
       Resource_request k state = Ok req ->
       MakeRequest L c "PUT" (endpoint k id) (Some (Payload k req)) w = (Ok resp, w') ->
       exists failed,
         Resource_Update L c k state resp0 w = (failed, w') /\
         HasError (resource.Diagnostics failed) = true /\
         resource.State failed = resource.State resp0).
Proof.
  intros world L c k state resp0 w w' resp Hdiag H404 id.
  subst id.
  apply Z.eqb_eq in H404.
  split; [|split].
  - intros Hreq failed. subst failed.
    split; [|split; [apply HasError_AddError | reflexivity]].
    apply (Resource_Read_failed L c k state resp0 w w'
             (notFound k (ValueString (ModelId k state))) Hdiag).
    rewrite (Get_answered L c k _ w w' resp Hreq), H404. reflexivity.
  - intros Hreq.
    rewrite (Resource_Delete_result L c k state resp0 w w' None Hdiag); [reflexivity|].
    rewrite (Delete_answered L c k _ w w' resp Hreq), H404. reflexivity.
  - intros req Hbuild Hreq. eexists. split; [|split].
    + apply (Resource_Update_failed L c k state req resp0 w w'
               (notFound k (ValueString (ModelId k state))) Hdiag Hbuild).
      rewrite (Update_answered L c k _ req w w' resp Hreq), H404. reflexivity.
    + apply HasError_AddError.
    + reflexivity.
Qed.

Lemma not_found_is_success_only_on_delete_witness :
  let state := plannedScenario (StringValue "42") in
  Resource_Read (stubLib "42") stubClient Scenario state
    (noDiagnostics (Some state)) [response 404 ""]
  = (addClientError "Unable to read scenario, got error: scenario with ID 42 not found"
       (noDiagnostics (Some state)), []) /\
  Resource_Delete (stubLib "42") stubClient Scenario state
    (noDiagnostics (Some state)) [response 404 ""]
  = (noDiagnostics (Some state), []).
Proof.
  intros state.
  pose proof (not_found_is_success_only_on_delete _ (stubLib "42") stubClient Scenario state
                (noDiagnostics (Some state)) [response 404 ""] [] (response 404 "")
                eq_refl eq_refl) as H.
  split.
  - exact (proj1 (proj1 H eq_refl)).
  - exact (proj1 (proj2 H) eq_refl).
Defined.

(** C8.  For every kind: when the plan yields a request and the remote
    answers the PUT with 404, the client's Update returns the not-found
    error and the resource's Update ends with that error as a diagnostic
    and with the state as it was handed in.  Run against a client that
    logs its requests, the log grows by the PUT alone: no POST (no
    create) is attempted. *)
Theorem Update_not_found_is_an_error :
  forall (world : Type) (L : Lib) (c : MakeAPIClient world) (k : kind)
         (plan : ModelT k) (req : RequestT k) (resp0 : resource.Response (ModelT k))
         (u : string) (w w' : world) (resp : Response),
    let id := ValueString (ModelId k plan) in
    let put := newRequest c "PUT" u (Some (Payload k req)) in
    HasError (resource.Diagnostics resp0) = false ->
    Resource_request k plan = Ok req ->
    url_join L (BaseUrl c) (endpoint k id) = Ok u ->
    HTTPClient c put w = (Ok resp, w') ->
    StatusCode resp = 404 ->
    let failed := addClientError
      ("Unable to update " +:+ noun k +:+ ", got error: "
         +:+ noun k +:+ " with ID " +:+ id +:+ " not found") resp0 in
    Update L c k id req w = (Err (notFound k id), w') /\
    Resource_Update L c k plan resp0 w = (failed, w') /\
    HasError (resource.Diagnostics failed) = true /\
    resource.State failed = resource.State resp0 /\
    Method put = "PUT" /\
    forall log : list Request,
      Resource_Update L (recording c) k plan resp0 (w, log)
        = (failed, (w', (log ++ [put])%list)).
Proof.
  intros world L c k plan req resp0 u w w' resp id put Hdiag Hbuild Hu Hdo H404 failed.
  subst id put failed. apply Z.eqb_eq in H404.
  assert (Hsent := MakeRequest_sent L c "PUT" _ u (Some (Payload k req)) w w' resp Hu Hdo).
  assert (Hupd : Update L c k (ValueString (ModelId k plan)) req w
                 = (Err (notFound k (ValueString (ModelId k plan))), w')).
  { rewrite (Update_answered L c k _ req w w' resp Hsent), H404. reflexivity. }
  split; [exact Hupd|].
  split; [exact (Resource_Update_failed L c k plan req resp0 w w' _ Hdiag Hbuild Hupd)|].
  split; [apply HasError_AddError|].
  split; [reflexivity|].
  split; [reflexivity|].
  intros log.
  assert (Hrec := recording_sent L c "PUT" _ u (Some (Payload k req)) w w' log resp Hu Hdo).
  apply (Resource_Update_failed L (recording c) k plan req resp0 (w, log) _
           (notFound k (ValueString (ModelId k plan))) Hdiag Hbuild).
  rewrite (Update_answered L (recording c) k _ req _ _ resp Hrec), H404. reflexivity.
Qed.

Lemma Update_not_found_is_an_error_witness :
  let plan := plannedScenario (StringValue "42") in
  let resp0 := noDiagnostics (Some plan) in
  Resource_Update (stubLib "42") (recording stubClient) Scenario plan resp0
    ([response 404 ""], [])
  = (addClientError "Unable to update scenario, got error: scenario with ID 42 not found"
       resp0,
     ([], [newRequest stubClient "PUT" "https://api.make.com/v2/scenarios/42"
             (Some (Payload Scenario (ScenarioResource_request plan)))])).
Proof.
  intros plan resp0.
  exact (proj2 (proj2 (proj2 (proj2 (proj2
    (Update_not_found_is_an_error _ (stubLib "42") stubClient Scenario plan
       (ScenarioResource_request plan) resp0 "https://api.make.com/v2/scenarios/42"
       [response 404 ""] [] (response 404 "") eq_refl eq_refl eq_refl eq_refl eq_refl)))))
    []).
Defined.

(** C9 as stated fails: the state holds identifier "abc", the read
    succeeds, the record the remote returns carries "xyz", and the state
    Read stores has identifier "xyz". *)
Lemma Read_replaces_the_identifier :
  let state := plannedScenario (StringValue "abc") in
  let r := fst (ScenarioResource_Read (stubLib "xyz") stubClient state
                  (noDiagnostics (Some state)) [response 200 "{}"]) in
  HasError (resource.Diagnostics r) = false /\
  ScenarioResourceModel.Id <$> resource.State r = Some (StringValue "xyz") /\
  ScenarioResourceModel.Id state = StringValue "abc".
Proof. repeat split. Qed.

(** C9, amended.  For every kind: import stores the given identifier as
    a known value, and a successful create, read or update stores the
    identifier of the record the remote returned as a known value.  So
    the identifier is unknown only before the first successful create or
    import, and a successful read or update leaves a known identifier
    unchanged when the returned record carries that identifier. *)
Theorem identifier_is_the_one_of_the_remote_record :
  forall (world : Type) (L : Lib) (c : MakeAPIClient world) (k : kind)
         (data : ModelT k) (req : RequestT k) (resp0 : resource.Response (ModelT k))
         (w w' : world) (v : ResponseT k),
    HasError (resource.Diagnostics resp0) = false ->
    Resource_request k data = Ok req ->
    let id := ValueString (ModelId k data) in
    let stored (r : resource.Response (ModelT k) * world) :=
      ModelId k <$> resource.State (fst r) in
    (forall ID : string,
       ModelId k <$> resource.State (Resource_ImportState k ID resp0)
         = Some (StringValue ID)) /\
    (Create L c k req w = (Ok v, w') ->
     stored (Resource_Create L c k data resp0 w) = Some (StringValue (ResponseID k v))) /\
    (Get L c k id w = (Ok v, w') ->
     stored (Resource_Read L c k data resp0 w) = Some (StringValue (ResponseID k v)) /\
     (ModelId k data = StringValue (ResponseID k v) ->
      stored (Resource_Read L c k data resp0 w) = Some (ModelId k data))) /\
    (Update L c k id req w = (Ok v, w') ->
     stored (Resource_Update L c k data resp0 w) = Some (StringValue (ResponseID k v)) /\
     (ModelId k data = StringValue (ResponseID k v) ->
      stored (Resource_Update L c k data resp0 w) = Some (ModelId k data))).
Proof.
  intros world L c k data req resp0 w w' v Hdiag Hbuild id stored. subst id stored.
  split; [|split; [|split]].
  - intros ID. apply Resource_ImportState_id.
  - intros Hcall.
    destruct (Resource_Create_done L c k data req resp0 w w' v Hdiag Hbuild Hcall)
      as (m & -> & Hid).
    simpl. rewrite Hid. reflexivity.
  - intros Hcall.
    destruct (Resource_Read_done L c k data resp0 w w' v Hdiag Hcall) as (m & -> & Hid).
    simpl. rewrite Hid. split; [reflexivity|]. intros ->. reflexivity.
  - intros Hcall.
    destruct (Resource_Update_done L c k data req resp0 w w' v Hdiag Hbuild Hcall)
      as (m & -> & Hid).
    simpl. rewrite Hid. split; [reflexivity|]. intros ->. reflexivity.
Qed.

Lemma identifier_is_the_one_of_the_remote_record_witness :
  let state := plannedScenario (StringValue "42") in
  ModelId Scenario <$>
    resource.State (fst (Resource_Read (stubLib "42") stubClient Scenario state
                           (noDiagnostics (Some state)) [response 200 "{}"]))
  = Some (StringValue "42") /\
  ModelId Scenario <$>
    resource.State (fst (Resource_Create (stubLib "42") stubClient Scenario
                           (plannedScenario StringUnknown)
                           (noDiagnostics None) [response 201 "{}"]))
  = Some (StringValue "42").
Proof.
  intros state. split.
  - exact (proj1 (proj1 (proj2 (proj2
      (identifier_is_the_one_of_the_remote_record _ (stubLib "42") stubClient Scenario
         state (ScenarioResource_request state) (noDiagnostics (Some state))
         [response 200 "{}"] [] (canned "42" Scenario) eq_refl eq_refl))) eq_refl)).
  - exact (proj1 (proj2
      (identifier_is_the_one_of_the_remote_record _ (stubLib "42") stubClient Scenario
         (plannedScenario StringUnknown)
         (ScenarioResource_request (plannedScenario StringUnknown)) (noDiagnostics None)
         [response 201 "{}"] [] (canned "42" Scenario) eq_refl eq_refl)) eq_refl).
Defined.

(** ** Claims about the settings *)

Lemma FormatInt_decimal_digits (n : Z) : decimal_digits (FormatInt n).
Proof.
  split; [apply FormatInt_nonempty|].
  destruct (Z.lt_ge_cases n 0) as [Hneg|Hpos].
  - right. destruct n as [|p|p]; try lia.
    exists (NilZero.string_of_uint (Pos.to_uint p)).
    split; [reflexivity|]. split.
    + unfold NilZero.string_of_uint. destruct (Pos.to_uint p); discriminate.
    + unfold NilZero.string_of_uint.
      destruct (Pos.to_uint p); try reflexivity; apply is_digit_string_of_uint.
  - left. apply all_digits_FormatInt, Hpos.
Qed.

Lemma three_not_six_decimals : ~ six_decimals "3".
Proof.
  intros (sign & int & frac & Heq & _ & _ & _ & Hlen & _).
  apply (f_equal String.length) in Heq.
  rewrite !length_append in Heq. simpl in Heq. lia.
Qed.

Lemma three_with_six_decimals : six_decimals "3.000000".
Proof.
  exists "", "3", "000000".
  split; [reflexivity|]. split; [left; reflexivity|].
  split; [discriminate|]. repeat split.
Qed.

(** The type switch of [WebhookResource.Create], case by case.  It
    renders a string unchanged, a boolean as true or false, a signed or
    unsigned integer of any width as its base-10 digits (a minus sign
    first when negative; reading the digits back gives the number), a
    finite float with exactly six digits after the decimal point, NaN
    and the infinities as NaN, +Inf and -Inf, a value with a String
    method as what the method returns, and every other value (null,
    arrays, objects) by the generic [%v] rendering.  The literal
    examples of the test hold, and the loop applies the switch to every
    value of the map. *)
Theorem strVal_by_type :
  forall L : Lib,
    (forall s : string, strVal L (VString s) = s) /\
    (forall b : bool, strVal L (VBool b) = if b then "true" else "false") /\
    (forall (t : intType) (n : Z),
       strVal L (VInt t n) = FormatInt n /\
       decimal_digits (FormatInt n) /\ ParseInt (FormatInt n) = Some n) /\
    (forall (t : uintType) (n : N),
       strVal L (VUint t n) = FormatInt (Z.of_N n) /\
       all_digits (FormatInt (Z.of_N n)) = true /\
       ParseInt (FormatInt (Z.of_N n)) = Some (Z.of_N n)) /\
    (forall (t : floatType) (neg : bool) (m : N) (e : Z),
       six_decimals (strVal L (VFloat t (FFinite neg m e)))) /\
    (forall t : floatType,
       strVal L (VFloat t FNaN) = "NaN" /\
       strVal L (VFloat t (FInf false)) = "+Inf" /\
       strVal L (VFloat t (FInf true)) = "-Inf") /\
    (forall str : string, strVal L (VStringer str) = str) /\
    (forall v : value, named_case v = false -> strVal L v = fmt_Sprint L v) /\
    (strVal L (VInt Int 42) = "42" /\
     strVal L (VUint Uint 100) = "100" /\
     strVal L (VBool true) = "true" /\
     strVal L (VFloat Float64 (FFinite false 7070651414971679 (-51))) = "3.140000") /\
    (forall (m : gmap string value) (key : string),
       settingsValsTyped L m !! key = (fun v => StringValue (strVal L v)) <$> (m !! key)).
Proof.
  intros L.
  split; [reflexivity|].
  split; [intros []; reflexivity|].
  split.
  { intros t n. split; [reflexivity|].
    split; [apply FormatInt_decimal_digits | apply ParseInt_FormatInt]. }
  split.
  { intros t n. split; [reflexivity|].
    split; [apply all_digits_FormatInt; lia | apply ParseInt_FormatInt]. }
  split; [intros t neg m e; apply FormatFloat_f_finite|].
  split; [intros t; repeat split|].
  split; [reflexivity|].
  split; [intros [] Hcase; try discriminate Hcase; reflexivity|].
  split; [repeat split; vm_compute; reflexivity|].
  intros m key. unfold settingsValsTyped. apply lookup_fmap.
Qed.

(** C5.  The settings are not rendered by one rule.  A remote record
    with the settings [{"retries": 3}] reaches the provider with the
    number as a [float64].  [WebhookResource.Create] sends it through
    the type switch and stores "3.000000", six digits after the decimal
    point, as the claim and the test of the conversion ask.  The Read
    and the Update of the same webhook render the same record with
    [%v] and store "3", and so do Create, Read and Update of a
    connection: there a floating-point value has no decimal point at
    all. *)
Theorem number_rendering_depends_on_the_operation :
  let webhook (r : resource.Response WebhookResourceModel.t * list Response) :=
    WebhookResourceModel.Settings <$> resource.State (fst r) in
  let connection (r : resource.Response ConnectionResourceModel.t * list Response) :=
    ConnectionResourceModel.Settings <$> resource.State (fst r) in
  map_Forall (fun _ v => from_json v = true) retries3 /\
  webhook (WebhookResource_Create numberLib stubClient (plannedWebhook MapNull)
             (noDiagnostics None) [response 201 body_retries])
    = Some (MapValue {[ "retries" := StringValue "3.000000" ]}) /\
  webhook (WebhookResource_Read numberLib stubClient storedWebhook
             (noDiagnostics (Some storedWebhook)) [response 200 body_retries])
    = Some (MapValue {[ "retries" := StringValue "3" ]}) /\
  webhook (WebhookResource_Update numberLib stubClient storedWebhook
             (noDiagnostics (Some storedWebhook)) [response 200 body_retries])
    = Some (MapValue {[ "retries" := StringValue "3" ]}) /\
  connection (ConnectionResource_Create numberLib stubClient plannedConnection
                (noDiagnostics None) [response 201 body_retries])
    = Some (MapValue {[ "retries" := StringValue "3" ]}) /\
  connection (ConnectionResource_Read numberLib stubClient storedConnection
                (noDiagnostics (Some storedConnection)) [response 200 body_retries])
    = Some (MapValue {[ "retries" := StringValue "3" ]}) /\
  connection (ConnectionResource_Update numberLib stubClient storedConnection
                (noDiagnostics (Some storedConnection)) [response 200 body_retries])
    = Some (MapValue {[ "retries" := StringValue "3" ]}) /\
  six_decimals "3.000000" /\
  ~ six_decimals "3".
Proof.
  intros webhook connection. subst webhook connection.
  split.
  { unfold retries3. apply map_Forall_singleton. reflexivity. }
  split; [vm_compute; reflexivity|].
  split; [vm_compute; reflexivity|].
  split; [vm_compute; reflexivity|].
  split; [vm_compute; reflexivity|].
  split; [vm_compute; reflexivity|].
  split; [vm_compute; reflexivity|].
  split; [exact three_with_six_decimals | exact three_not_six_decimals].
Qed.

(** *** Where a settings loop can stop *)

Lemma MapValueMust_strings (f : value -> tfString) (m : gmap string value) :
  MapValueMust_StringType ((fun v => AttrString (f v)) <$> m) = Some (MapValue (f <$> m)).
Proof.
  unfold MapValueMust_StringType.
  rewrite bool_decide_eq_true_2.
  - f_equal. f_equal. apply map_eq. intros key.
    rewrite lookup_omap, !lookup_fmap. destruct (m !! key); reflexivity.
  - intros key e Hlookup. rewrite lookup_fmap in Hlookup.
    destruct (m !! key); simpl in Hlookup; [|discriminate Hlookup].
    injection Hlookup as <-. eexists. reflexivity.
Qed.

Lemma strValMust_returns (L : Lib) (panics : value -> bool) (v : value) :
  is_Some (strValMust L panics v) -> strValMust L panics v = Some (strVal L v).
Proof.
  destruct v; simpl; try reflexivity.
  destruct (panics _); [|reflexivity].
  intros [s Hs]. discriminate Hs.
Qed.

Lemma strValMust_panics (L : Lib) (panics : value -> bool) (v : value) :
  ~ is_Some (strValMust L panics v) <-> calls_String v = true /\ panics v = true.
Proof.
  split.
  - destruct v; simpl; intros Hnot;
      try (exfalso; apply Hnot; eexists; reflexivity).
    destruct (panics _); [split; reflexivity|].
    exfalso. apply Hnot. eexists. reflexivity.
  - intros [Hcall Hpanics] [s Hs].
    destruct v; try discriminate Hcall.
    simpl in Hs. rewrite Hpanics in Hs. discriminate Hs.
Qed.

Lemma typedElements_returns (L : Lib) (panics : value -> bool) (m : gmap string value) :
  map_Forall (fun _ v => is_Some (strValMust L panics v)) m ->
  typedElements L panics m = Some ((fun v => AttrString (StringValue (strVal L v))) <$> m).
Proof.
  intros Hall. unfold typedElements.
  rewrite (bool_decide_eq_true_2 _ Hall). f_equal.
  apply map_eq. intros key. rewrite lookup_omap, lookup_fmap.
  destruct (m !! key) as [v|] eqn:Hkey; [|reflexivity].
  simpl. rewrite (strValMust_returns L panics v (Hall key v Hkey)). reflexivity.
Qed.

Lemma len_empty (m : gmap string value) : (0 <? len m) = false -> m = ∅.
Proof.
  unfold len. intros Hlen. apply Z.ltb_ge in Hlen.
  apply map_size_empty_inv. lia.
Qed.

(** The loop of [WebhookResource.Create] panics exactly when it meets a
    value whose [String] method does; when it returns, it returns what
    the resource stores. *)
Lemma WebhookResource_Create_settings_panics (L : Lib) (panics : value -> bool)
  (planned : tfMap) (m : gmap string value) :
  (WebhookResource_Create_settings L panics planned m = None <->
   exists (key : string) (v : value),
     m !! key = Some v /\ calls_String v = true /\ panics v = true) /\
  (forall r : tfMap,
     WebhookResource_Create_settings L panics planned m = Some r ->
     r = if 0 <? len m then MapValue (settingsValsTyped L m) else planned).
Proof.
  unfold WebhookResource_Create_settings.
  destruct (0 <? len m) eqn:Hlen.
  2: { apply len_empty in Hlen. subst m. split; [split|].
       - discriminate.
       - intros (key & v & Hkey & _). rewrite lookup_empty in Hkey. discriminate Hkey.
       - intros r Hr. injection Hr as <-. reflexivity. }
  destruct (decide (map_Forall (fun _ v => is_Some (strValMust L panics v)) m))
    as [Hall|Hsome].
  - rewrite (typedElements_returns L panics m Hall).
    rewrite (MapValueMust_strings (fun v => StringValue (strVal L v)) m).
    split; [split|].
    + discriminate.
    + intros (key & v & Hkey & Hcall & Hpanics). exfalso.
      apply (proj2 (strValMust_panics L panics v) (conj Hcall Hpanics)).
      exact (Hall key v Hkey).
    + intros r Hr. injection Hr as <-. reflexivity.
  - unfold typedElements. rewrite (bool_decide_eq_false_2 _ Hsome).
    split; [split|].
    + intros _. apply map_not_Forall in Hsome; [|apply _].
      destruct Hsome as (key & v & Hkey & Hnot).
      exists key, v. split; [exact Hkey|].
      apply (strValMust_panics L panics v), Hnot.
    + reflexivity.
    + discriminate.
Qed.

Lemma from_json_no_call (v : value) : from_json v = true -> calls_String v = false.
Proof. destruct v; try reflexivity. discriminate. Qed.

(** C6.  On every settings map that can come from the remote service
    (a decoded JSON object, with numbers, nulls, arrays and objects
    nested to any depth) no settings step stops: whatever the [String]
    methods of other values would do, the loop of
    [WebhookResource.Create] around the type switch, the [%v] loop of
    the other methods and the conversion of the connection data source
    each return, and [types.MapValueMust] accepts the map they built.
    What they return is what the resources store.  No value of such a
    map reaches the case that calls into the value.  The result has
    exactly the keys of the input, each bound to a known string, and a
    value that no case of the switch names (a null, an array, an object)
    is rendered by the fallback.  Outside these maps the loop around the
    switch stops exactly when it meets a value whose [String] method
    panics. *)
Theorem settings_conversion_is_total :
  forall (L : Lib) (panics : value -> bool) (planned : tfMap) (m : gmap string value),
    map_Forall (fun _ v => from_json v = true) m ->
    WebhookResource_Create_settings L panics planned m
      = Some (if 0 <? len m then MapValue (settingsValsTyped L m) else planned) /\
    Resource_refresh_settings L m
      = Some (if 0 <? len m then MapValue (settingsVals L m) else MapNull) /\
    ConnectionDataSource_Read_settings L m
      = Some (if 0 <? len m then MapValue ((fun v => StringValue (normalize L v)) <$> m)
              else MapNull) /\
    map_Forall (fun _ v => calls_String v = false) m /\
    (forall (key : string) (v : value),
       m !! key = Some v ->
       settingsValsTyped L m !! key = Some (StringValue (strVal L v)) /\
       settingsVals L m !! key = Some (StringValue (fmt_Sprint L v)) /\
       (named_case v = false ->
        strVal L v = fmt_Sprint L v /\ normalize L v = fmt_Sprint L v)) /\
    (forall key : string,
       m !! key = None ->
       settingsValsTyped L m !! key = None /\ settingsVals L m !! key = None) /\
    (forall m' : gmap string value,
       WebhookResource_Create_settings L panics planned m' = None <->
       exists (key : string) (v : value),
         m' !! key = Some v /\ calls_String v = true /\ panics v = true).
Proof.
  intros L panics planned m Hjson.
  assert (Hquiet : map_Forall (fun _ v => calls_String v = false) m).
  { intros key v Hkey. apply from_json_no_call, (Hjson key v Hkey). }
  split.
  { destruct (WebhookResource_Create_settings L panics planned m) as [r|] eqn:Hloop.
    - f_equal.
      exact (proj2 (WebhookResource_Create_settings_panics L panics planned m) r Hloop).
    - apply (proj1 (WebhookResource_Create_settings_panics L panics planned m)) in Hloop.
      destruct Hloop as (key & v & Hkey & Hcall & _).
      rewrite (Hquiet key v Hkey) in Hcall. discriminate Hcall. }
  split.
  { unfold Resource_refresh_settings, sprintElements, settingsVals.
    destruct (0 <? len m); [|reflexivity].
    apply (MapValueMust_strings (fun v => StringValue (fmt_Sprint L v))). }
  split.
  { unfold ConnectionDataSource_Read_settings, convertSettingsToStringMap.
    destruct (0 <? len m); [|reflexivity].
    apply (MapValueMust_strings (fun v => StringValue (normalize L v))). }
  split; [exact Hquiet|].
  split.
  { intros key v Hkey. unfold settingsValsTyped, settingsVals.
    rewrite !lookup_fmap, Hkey. split; [reflexivity|]. split; [reflexivity|].
    intros Hcase. destruct v; try discriminate Hcase; split; reflexivity. }
  split.
  { intros key Hkey. unfold settingsValsTyped, settingsVals.
    rewrite !lookup_fmap, Hkey. split; reflexivity. }
  intros m'. exact (proj1 (WebhookResource_Create_settings_panics L panics planned m')).
Qed.

Lemma nestedSettings_from_json : map_Forall (fun _ v => from_json v = true) nestedSettings.
Proof.
  unfold nestedSettings.
  repeat (apply map_Forall_insert_2; [reflexivity|]).
  apply map_Forall_empty.
Defined.

(** A decoded object with a number, an array, a nested object and a
    null goes through the switch, even if every [String] method were to
    panic. *)
Lemma settings_conversion_is_total_witness :
  WebhookResource_Create_settings (stubLib "1") (fun _ => true) MapNull nestedSettings
    = Some (MapValue (settingsValsTyped (stubLib "1") nestedSettings)) /\
  settingsValsTyped (stubLib "1") nestedSettings !! "retries"
    = Some (StringValue "3.000000") /\
  settingsValsTyped (stubLib "1") nestedSettings !! "none" = Some (StringValue "<nil>") /\
  settingsVals (stubLib "1") nestedSettings !! "retries" = Some (StringValue "3") /\
  settingsValsTyped (stubLib "1") nestedSettings !! "absent" = None.
Proof.
  split.
  - exact (proj1 (settings_conversion_is_total (stubLib "1") (fun _ => true) MapNull
                    nestedSettings nestedSettings_from_json)).
  - repeat split; vm_compute; reflexivity.
Defined.

(** The two panics are there to be met: a value whose [String] method
    panics stops the loop around the switch, and [types.MapValueMust]
    refuses an element that is not a string. *)
Example settings_loop_can_stop :
  WebhookResource_Create_settings (stubLib "1") (fun _ => true) MapNull
    {[ "mode" := VStringer "fast" ]} = None /\
  WebhookResource_Create_settings (stubLib "1") (fun _ => false) MapNull
    {[ "mode" := VStringer "fast" ]} = Some (MapValue {[ "mode" := StringValue "fast" ]}) /\
  MapValueMust_StringType {[ "on" := AttrBool (BoolValue true) ]} = None.
Proof. repeat split; vm_compute; reflexivity. Qed.

(** * Further properties *)

(** ** What an operation sends *)

Ltac unfold_data_sources :=
  unfold ScenarioDataSource_Read, TeamDataSource_Read, OrganizationDataSource_Read,
         DataStoreDataSource_Read.

(** X1.  An operation that is handed a response which already holds an
    error diagnostic returns it as it is and leaves the remote service
    as it was: no request is made.  This holds for Create, Read, Update
    and Delete of the six resources and for the Read of the scenario,
    team, organization and data store data sources. *)
Theorem no_call_after_an_error :
  forall (world : Type) (L : Lib) (c : MakeAPIClient world) (w : world),
    (forall (op : operation) (k : kind) (data : ModelT k)
            (resp0 : resource.Response (ModelT k)),
       HasError (resource.Diagnostics resp0) = true ->
       Resource_run L c op k data resp0 w = (resp0, w)) /\
    (forall config resp0,
       HasError (resource.Diagnostics resp0) = true ->
       ScenarioDataSource_Read L c config resp0 w = (resp0, w)) /\
    (forall config resp0,
       HasError (resource.Diagnostics resp0) = true ->
       TeamDataSource_Read L c config resp0 w = (resp0, w)) /\
    (forall config resp0,
       HasError (resource.Diagnostics resp0) = true ->
       OrganizationDataSource_Read L c config resp0 w = (resp0, w)) /\
    (forall config resp0,
       HasError (resource.Diagnostics resp0) = true ->
       DataStoreDataSource_Read L c config resp0 w = (resp0, w)).
Proof.
  intros world L c w. repeat split.
  - intros op k data resp0 Hdiag.
    destruct op, k; simpl in *; unfold_resources; rewrite Hdiag; reflexivity.
  - intros config resp0 Hdiag. unfold_data_sources. unfold ret. rewrite Hdiag. reflexivity.
  - intros config resp0 Hdiag. unfold_data_sources. unfold ret. rewrite Hdiag. reflexivity.
  - intros config resp0 Hdiag. unfold_data_sources. unfold ret. rewrite Hdiag. reflexivity.
  - intros config resp0 Hdiag. unfold_data_sources. unfold ret. rewrite Hdiag. reflexivity.
Qed.

Lemma MakeRequest_recording {world : Type} (L : Lib) (c : MakeAPIClient world)
  (m ep : string) (body : option payload) (w : world) (log : list Request) :
  MakeRequest L (recording c) m ep body (w, log) =
    match url_join L (BaseUrl c) ep with
    | Err err => (Err (Errorf_w "invalid base URL: " err), (w, log))
    | Ok u =>
        let (r, w') := HTTPClient c (newRequest c m u body) w in
        (match r with
         | Err err => Err (Errorf_w "failed to perform request: " err)
         | Ok resp => Ok resp
         end, (w', (log ++ [newRequest c m u body])%list))
    end.
Proof.
  unfold MakeRequest, bind, ret.
  change (BaseUrl (recording c)) with (BaseUrl c).
  destruct (url_join L (BaseUrl c) ep) as [u|err]; [|reflexivity].
  change (newRequest (recording c) m u body) with (newRequest c m u body).
  change (HTTPClient (recording c) (newRequest c m u body) (w, log))
    with (let (r, w') := HTTPClient c (newRequest c m u body) w in
          (r, (w', (log ++ [newRequest c m u body])%list))).
  destruct (HTTPClient c (newRequest c m u body) w) as [[resp|err] w']; reflexivity.
Qed.

Lemma MakeRequest_log {world : Type} (L : Lib) (c : MakeAPIClient world)
  (m ep : string) (body : option payload) (w : world) (log : list Request) :
  snd (snd (MakeRequest L (recording c) m ep body (w, log))) = logged L c m ep body log.
Proof.
  rewrite MakeRequest_recording. unfold logged.
  destruct (url_join L (BaseUrl c) ep) as [u|err]; [|reflexivity].
  destruct (HTTPClient c (newRequest c m u body) w) as [[resp|err] w']; reflexivity.
Qed.

Lemma Create_log {world : Type} (L : Lib) (c : MakeAPIClient world)
  (k : kind) (req : RequestT k) (st : world * list Request) :
  snd (snd (Create L (recording c) k req st))
    = logged L c "POST" (collection k) (Some (Payload k req)) (snd st).
Proof.
  destruct st as [w log]. rewrite <- (MakeRequest_log L c _ _ _ w log).
  unfold Create, bind, ret.
  destruct (MakeRequest L (recording c) "POST" (collection k) (Some (Payload k req)) (w, log))
    as [[resp|err] st']; [|reflexivity].
  destruct (400 <=? StatusCode resp); reflexivity.
Qed.

Lemma Get_log {world : Type} (L : Lib) (c : MakeAPIClient world)
  (k : kind) (id : string) (st : world * list Request) :
  snd (snd (Get L (recording c) k id st)) = logged L c "GET" (endpoint k id) None (snd st).
Proof.
  destruct st as [w log]. rewrite <- (MakeRequest_log L c _ _ _ w log).
  unfold Get, bind, ret.
  destruct (MakeRequest L (recording c) "GET" (endpoint k id) None (w, log))
    as [[resp|err] st']; [|reflexivity].
  destruct (StatusCode resp =? 404); [reflexivity|].
  destruct (400 <=? StatusCode resp); reflexivity.
Qed.

Lemma Update_log {world : Type} (L : Lib) (c : MakeAPIClient world)
  (k : kind) (id : string) (req : RequestT k) (st : world * list Request) :
  snd (snd (Update L (recording c) k id req st))
    = logged L c "PUT" (endpoint k id) (Some (Payload k req)) (snd st).
Proof.
  destruct st as [w log]. rewrite <- (MakeRequest_log L c _ _ _ w log).
  unfold Update, bind, ret.
  destruct (MakeRequest L (recording c) "PUT" (endpoint k id) (Some (Payload k req)) (w, log))
    as [[resp|err] st']; [|reflexivity].
  destruct (StatusCode resp =? 404); [reflexivity|].
  destruct (400 <=? StatusCode resp); reflexivity.
Qed.

Lemma Delete_log {world : Type} (L : Lib) (c : MakeAPIClient world)
  (k : kind) (id : string) (st : world * list Request) :
  snd (snd (Delete L (recording c) k id st))
    = logged L c "DELETE" (endpoint k id) None (snd st).
Proof.
  destruct st as [w log]. rewrite <- (MakeRequest_log L c _ _ _ w log).
  unfold Delete, bind, ret.
  destruct (MakeRequest L (recording c) "DELETE" (endpoint k id) None (w, log))
    as [[resp|err] st']; [|reflexivity].
  destruct (StatusCode resp =? 404); [reflexivity|].
  destruct (400 <=? StatusCode resp); reflexivity.
Qed.

(** Closes a goal about the log after the one client call in it. *)
Ltac log_step :=
  let H := fresh "Hlog" in
  match goal with
  | |- context [Create ?L (recording ?c) ?k ?req ?st] =>
      pose proof (Create_log L c k req st) as H;
      destruct (Create L (recording c) k req st) as [[?|?] ?]
  | |- context [Get ?L (recording ?c) ?k ?id ?st] =>
      pose proof (Get_log L c k id st) as H;
      destruct (Get L (recording c) k id st) as [[?|?] ?]
  | |- context [Update ?L (recording ?c) ?k ?id ?req ?st] =>
      pose proof (Update_log L c k id req st) as H;
      destruct (Update L (recording c) k id req st) as [[?|?] ?]
  | |- context [Delete ?L (recording ?c) ?k ?id ?st] =>
      pose proof (Delete_log L c k id st) as H;
      destruct (Delete L (recording c) k id st) as [[?|] ?]
  end;
  unfold logged in H; simpl in H |- *; exact H.

(** X2.  Run against a client that logs what it hands to the HTTP
    client, every operation of every resource adds at most one request
    to the log, and none when the settings of the plan cannot be
    converted or the base URL does not parse.  The request has the
    method of the operation (POST, GET, PUT, DELETE), the URL joined
    from the base URL and the collection or element path, the token,
    content-type and accept headers, and as its body the request built
    from the plan (create, update) or nothing (read, delete). *)
Theorem at_most_one_request :
  forall (world : Type) (L : Lib) (c : MakeAPIClient world) (op : operation) (k : kind)
         (data : ModelT k) (resp0 : resource.Response (ModelT k))
         (w : world) (log : list Request),
    snd (snd (Resource_run L (recording c) op k data resp0 (w, log))) =
      if HasError (resource.Diagnostics resp0) then log
      else match sentBody op k data with
           | Err _ => log
           | Ok body =>
               match url_join L (BaseUrl c) (target op k data) with
               | Err _ => log
               | Ok u =>
                   (log ++ [{| Method := method op;
                               URL := u;
                               Header := [("Authorization", "Token " +:+ ApiToken c);
                                          ("Content-Type", "application/json");
                                          ("Accept", "application/json")];
                               ReqBody := body |}])%list
               end
           end.
Proof.
  intros world L c op k data resp0 w log.
  destruct (HasError (resource.Diagnostics resp0)) eqn:Hdiag.
  { destruct op, k; simpl in *; unfold_resources; rewrite Hdiag; reflexivity. }
  destruct op, k; simpl in *; unfold_resources; rewrite Hdiag;
    unfold sentBody, Resource_request;
    try (match goal with
         | |- context [planSettings ?s] => destruct (planSettings s); [|reflexivity]
         end);
    log_step.
Qed.

Lemma no_call_after_an_error_witness :
  let failed := addClientError "earlier error"
                  (noDiagnostics (Some (plannedScenario (StringValue "42")))) in
  Resource_run (stubLib "42") stubClient OpUpdate Scenario
    (plannedScenario (StringValue "42")) failed [response 200 "{}"]
  = (failed, [response 200 "{}"]).
Proof.
  intros failed.
  exact (proj1 (no_call_after_an_error _ (stubLib "42") stubClient [response 200 "{}"])
           OpUpdate Scenario (plannedScenario (StringValue "42")) failed eq_refl).
Defined.

(** ** Failures *)

(** Brings a goal about [Resource_run] down to the client call in it:
    one case per operation and kind, with the body [Hbody] names. *)
Ltac run_cases op k Hdiag Hbody :=
  destruct op, k; simpl in *;
  unfold sentBody, Resource_request in Hbody; simpl in Hbody;
  try (match type of Hbody with
       | context [planSettings ?s] => destruct (planSettings s) eqn:?; [|discriminate Hbody]
       end);
  injection Hbody as <-;
  unfold_resources; rewrite Hdiag;
  try (match goal with
       | H : planSettings ?s = Ok _ |- context [planSettings ?s] => rewrite H
       end);
  unfold Create, Get, Update, Delete, bind, ret;
  unfold target, endpoint, collection in *.

Lemma Resource_run_failed {world : Type} (L : Lib) (c : MakeAPIClient world)
  (op : operation) (k : kind) (data : ModelT k) (body : option payload)
  (resp0 : resource.Response (ModelT k)) (w w' : world) (err : error) :
  HasError (resource.Diagnostics resp0) = false ->
  sentBody op k data = Ok body ->
  MakeRequest L c (method op) (target op k data) body w = (Err err, w') ->
  Resource_run L c op k data resp0 w = (failure op k err resp0, w').
Proof.
  intros Hdiag Hbody Hreq.
  run_cases op k Hdiag Hbody; rewrite Hreq; reflexivity.
Qed.

Lemma Resource_run_api_error {world : Type} (L : Lib) (c : MakeAPIClient world)
  (op : operation) (k : kind) (data : ModelT k) (body : option payload)
  (resp0 : resource.Response (ModelT k)) (w w' : world) (resp : Response) :
  HasError (resource.Diagnostics resp0) = false ->
  sentBody op k data = Ok body ->
  MakeRequest L c (method op) (target op k data) body w = (Ok resp, w') ->
  400 <= StatusCode resp ->
  op = OpCreate \/ StatusCode resp <> 404 ->
  Resource_run L c op k data resp0 w
    = (failure op k (HandleErrorResponse L resp) resp0, w').
Proof.
  intros Hdiag Hbody Hreq Hstatus Hnot404.
  apply Z.leb_le in Hstatus.
  assert (Hne : op = OpCreate \/ (StatusCode resp =? 404) = false).
  { destruct Hnot404 as [->|Hne]; [left; reflexivity | right; apply Z.eqb_neq, Hne]. }
  clear Hnot404.
  run_cases op k Hdiag Hbody; rewrite Hreq;
    try (destruct Hne as [Hne|Hne]; [discriminate Hne | rewrite Hne]);
    rewrite Hstatus; reflexivity.
Qed.

Lemma Resource_run_undecodable {world : Type} (L : Lib) (c : MakeAPIClient world)
  (op : operation) (k : kind) (data : ModelT k) (body : option payload)
  (resp0 : resource.Response (ModelT k)) (w w' : world) (resp : Response) (err : error) :
  HasError (resource.Diagnostics resp0) = false ->
  sentBody op k data = Ok body ->
  MakeRequest L c (method op) (target op k data) body w = (Ok resp, w') ->
  StatusCode resp < 400 ->
  op <> OpDelete ->
  decodeResponse L k resp = Err err ->
  Resource_run L c op k data resp0 w = (failure op k err resp0, w').
Proof.
  intros Hdiag Hbody Hreq Hstatus Hop Hdecode.
  assert (H404 : (StatusCode resp =? 404) = false) by (apply Z.eqb_neq; lia).
  apply Z.leb_gt in Hstatus.
  run_cases op k Hdiag Hbody; try contradiction; rewrite Hreq;
    try rewrite H404; rewrite Hstatus, Hdecode; reflexivity.
Qed.

(** X3.  When an operation cannot get a response, the error reaches the
    user and the state stays as it was handed in.  If the base URL does
    not parse, the diagnostic reads "Unable to <verb> <kind>, got error:
    invalid base URL: <cause>" and nothing is handed to the HTTP client
    (the remote service is as before).  If the HTTP client fails, it
    reads "... got error: failed to perform request: <cause>".  In both
    cases the error wraps its cause. *)
Theorem failure_before_a_response :
  forall (world : Type) (L : Lib) (c : MakeAPIClient world) (op : operation) (k : kind)
         (data : ModelT k) (body : option payload)
         (resp0 : resource.Response (ModelT k)) (w : world),
    HasError (resource.Diagnostics resp0) = false ->
    sentBody op k data = Ok body ->
    (forall err : error,
       url_join L (BaseUrl c) (target op k data) = Err err ->
       Resource_run L c op k data resp0 w
         = (failure op k (wrapError ("invalid base URL: " +:+ Error err) err) resp0, w)) /\
    (forall (u : string) (err : error) (w' : world),
       url_join L (BaseUrl c) (target op k data) = Ok u ->
       HTTPClient c (newRequest c (method op) u body) w = (Err err, w') ->
       Resource_run L c op k data resp0 w
         = (failure op k (wrapError ("failed to perform request: " +:+ Error err) err) resp0,
            w')) /\
    (forall err : error,
       resource.State (failure op k err resp0) = resource.State resp0 /\
       HasError (resource.Diagnostics (failure op k err resp0)) = true).
Proof.
  intros world L c op k data body resp0 w Hdiag Hbody.
  split; [|split].
  - intros err Hu.
    apply (Resource_run_failed L c op k data body resp0 w w _ Hdiag Hbody).
    unfold MakeRequest, ret. rewrite Hu. reflexivity.
  - intros u err w' Hu Hdo.
    apply (Resource_run_failed L c op k data body resp0 w w' _ Hdiag Hbody).
    unfold MakeRequest, bind, ret. rewrite Hu, Hdo. reflexivity.
  - intros err. split; [reflexivity | apply HasError_AddError].
Qed.

Lemma failure_before_a_response_witness :
  let state := plannedScenario (StringValue "42") in
  Resource_run (stubLib "42") stubClient OpRead Scenario state
    (noDiagnostics (Some state)) []
  = (addClientError
       ("Unable to read scenario, got error: " +:+
        "failed to perform request: connection refused")
       (noDiagnostics (Some state)), []).
Proof.
  intros state.
  exact (proj1 (proj2 (failure_before_a_response _ (stubLib "42") stubClient OpRead Scenario
                         state None (noDiagnostics (Some state)) [] eq_refl eq_refl))
           "https://api.make.com/v2/scenarios/42" (errorString "connection refused") []
           eq_refl eq_refl).
Defined.

(** X4.  An error response reaches the user with its status and the
    extracted message: for every operation and kind, a response with a
    readable body and a status of 400 or more (other than a 404 to a
    read, update or delete) ends the operation with the diagnostic
    "Unable to <verb> <kind>, got error: API request failed with status
    <status>: <message>" and with the state as it was handed in. *)
Theorem error_response_reaches_the_user :
  forall (world : Type) (L : Lib) (c : MakeAPIClient world) (op : operation) (k : kind)
         (data : ModelT k) (body : option payload)
         (resp0 : resource.Response (ModelT k)) (w w' : world)
         (resp : Response) (text : string),
    HasError (resource.Diagnostics resp0) = false ->
    sentBody op k data = Ok body ->
    MakeRequest L c (method op) (target op k data) body w = (Ok resp, w') ->
    Body resp = Ok text ->
    400 <= StatusCode resp ->
    op = OpCreate \/ StatusCode resp <> 404 ->
    let r := fst (Resource_run L c op k data resp0 w) in
    snd (Resource_run L c op k data resp0 w) = w' /\
    resource.State r = resource.State resp0 /\
    resource.Diagnostics r =
      (resource.Diagnostics resp0 ++
       [{| Severity := SeverityError;
           Summary := "Client Error";
           Detail := "Unable to " +:+ verb op +:+ " " +:+ noun k +:+ ", got error: "
                       +:+ "API request failed with status "
                       +:+ FormatInt (StatusCode resp) +:+ ": " +:+ messagePolicy L text |}])%list.
Proof.
  intros world L c op k data body resp0 w w' resp text Hdiag Hbody Hreq Htext Hstatus Hne r.
  subst r.
  rewrite (Resource_run_api_error L c op k data body resp0 w w' resp
             Hdiag Hbody Hreq Hstatus Hne).
  rewrite (HandleErrorResponse_policy L resp text Htext).
  repeat split.
Qed.

Lemma error_response_reaches_the_user_witness :
  let plan := plannedScenario StringUnknown in
  resource.Diagnostics
    (fst (Resource_run (stubLib "1") stubClient OpCreate Scenario plan
            (noDiagnostics None) [response 404 body_message_bad]))
  = [{| Severity := SeverityError; Summary := "Client Error";
        Detail := "Unable to create scenario, got error: " +:+
                  "API request failed with status 404: bad" |}].
Proof.
  intros plan.
  assert (Hstatus : 400 <= 404) by lia.
  exact (proj2 (proj2 (error_response_reaches_the_user _ (stubLib "1") stubClient
            OpCreate Scenario plan
            (Some (Payload Scenario (ScenarioResource_request plan)))
            (noDiagnostics None) [response 404 body_message_bad] []
            (response 404 body_message_bad) body_message_bad
            eq_refl eq_refl eq_refl eq_refl Hstatus (or_introl eq_refl)))).
Defined.

Lemma Body_Ok (resp : Response) (text : string) :
  Body resp = Ok text -> ReadError resp = None /\ Delivered resp = text.
Proof.
  unfold Body. destruct (ReadError resp) as [err|]; [discriminate|].
  intros Htext. injection Htext as <-. split; reflexivity.
Qed.

Lemma Body_Err (resp : Response) (err : error) :
  Body resp = Err err -> ReadError resp = Some err.
Proof.
  unfold Body. destruct (ReadError resp) as [err'|]; [|discriminate].
  intros Herr. injection Herr as <-. reflexivity.
Qed.

(** On a stream that ends cleanly the decoder sees all of it. *)
Lemma Decode_read (L : Lib) (k : kind) (resp : Response) (text : string) :
  Body resp = Ok text -> Decode L k resp = json_Decode L k text.
Proof.
  intros Htext. destruct (Body_Ok resp text Htext) as [Hend <-].
  unfold Decode. rewrite Hend. reflexivity.
Qed.

(** X5.  A response with a status below 400 whose body does not decode
    ends Create, Read and Update with the diagnostic "Unable to <verb>
    <kind>, got error: failed to decode response: <cause>" and with the
    state as it was handed in (after a create, nothing is stored
    although the POST was answered with success).  Delete does not look
    at the body: the same response ends it without a diagnostic. *)
Theorem undecodable_success_response :
  forall (world : Type) (L : Lib) (c : MakeAPIClient world) (op : operation) (k : kind)
         (data : ModelT k) (body : option payload)
         (resp0 : resource.Response (ModelT k)) (w w' : world)
         (resp : Response) (text : string) (err : error),
    HasError (resource.Diagnostics resp0) = false ->
    sentBody op k data = Ok body ->
    MakeRequest L c (method op) (target op k data) body w = (Ok resp, w') ->
    StatusCode resp < 400 ->
    Body resp = Ok text ->
    json_Decode L k text = Err err ->
    Resource_run L c op k data resp0 w =
      (match op with
       | OpDelete => resp0
       | _ => failure op k (wrapError ("failed to decode response: " +:+ Error err) err) resp0
       end, w').
Proof.
  intros world L c op k data body resp0 w w' resp text err
         Hdiag Hbody Hreq Hstatus Htext Hdecode.
  assert (Hdec : decodeResponse L k resp
                 = Err (wrapError ("failed to decode response: " +:+ Error err) err)).
  { unfold decodeResponse. rewrite (Decode_read L k resp text Htext), Hdecode.
    reflexivity. }
  destruct op;
    try (apply (Resource_run_undecodable L c _ k data body resp0 w w' resp _
                  Hdiag Hbody Hreq Hstatus); [discriminate | exact Hdec]).
  assert (H404 : (StatusCode resp =? 404) = false) by (apply Z.eqb_neq; lia).
  apply Z.leb_gt in Hstatus.
  injection Hbody as <-.
  destruct k; simpl in *; unfold_resources; rewrite Hdiag;
    unfold Delete, bind, ret, endpoint, collection in *;
    rewrite Hreq, H404, Hstatus; reflexivity.
Qed.

Lemma undecodable_success_response_witness :
  let plan := plannedScenario StringUnknown in
  Resource_run undecodingLib stubClient OpCreate Scenario plan
    (noDiagnostics None) [response 201 ""]
  = (addClientError
       ("Unable to create scenario, got error: " +:+
        "failed to decode response: unexpected end of JSON input")
       (noDiagnostics None), []).
Proof.
  intros plan.
  assert (Hstatus : 201 < 400) by lia.
  exact (undecodable_success_response _ undecodingLib stubClient OpCreate Scenario plan
           (Some (Payload Scenario (ScenarioResource_request plan)))
           (noDiagnostics None) [response 201 ""] [] (response 201 "") ""
           (errorString "unexpected end of JSON input")
           eq_refl eq_refl eq_refl Hstatus eq_refl eq_refl).
Defined.

(** ** The state an operation leaves *)

Ltac end_failed :=
  eapply ended_failed; [assumption | | reflexivity | reflexivity]; reflexivity.

Ltac end_done :=
  apply ended_done; [assumption | reflexivity | simpl; eauto].

(** X6.  Every operation of every resource ends in one of three ways.
    Handed a response with an error, it returns it unchanged.
    Otherwise it either adds exactly one error diagnostic and leaves the
    state as it was handed in, or adds no diagnostic and writes a state
    (Create, Read, Update) or leaves the state alone (Delete).  So the
    state is never written by an operation that reports an error, and a
    Create, Read or Update that reports none has always written it. *)
Theorem operation_endings :
  forall (world : Type) (L : Lib) (c : MakeAPIClient world) (op : operation) (k : kind)
         (data : ModelT k) (resp0 : resource.Response (ModelT k)) (w : world),
    ending (match op with OpDelete => true | _ => false end) resp0
           (fst (Resource_run L c op k data resp0 w)).
Proof.
  intros world L c op k data resp0 w.
  destruct (HasError (resource.Diagnostics resp0)) eqn:Hdiag.
  { apply ended_early; [exact Hdiag|].
    destruct op, k; simpl in *; unfold_resources; rewrite Hdiag; reflexivity. }
  destruct op, k; simpl in *; unfold_resources; rewrite Hdiag;
    try (match goal with
         | |- context [planSettings ?s] => destruct (planSettings s); [|end_failed]
         end);
    match goal with
    | |- context [Create ?L ?c ?k ?req ?st] =>
        destruct (Create L c k req st) as [[?|?] ?]
    | |- context [Get ?L ?c ?k ?id ?st] =>
        destruct (Get L c k id st) as [[?|?] ?]
    | |- context [Update ?L ?c ?k ?id ?req ?st] =>
        destruct (Update L c k id req st) as [[?|?] ?]
    | |- context [Delete ?L ?c ?k ?id ?st] =>
        destruct (Delete L c k id st) as [[?|] ?]
    end;
    first [ end_done | end_failed ].
Qed.

(** ** What a client call can return *)





(** ** Data sources and refreshes *)

Lemma nullIfEmpty_valueOrNull (s : string) : nullIfEmpty s = valueOrNull s.
Proof. unfold nullIfEmpty, valueOrNull. destruct (String.eqb s ""); reflexivity. Qed.

(** X8.  The Read of the scenario, team, organization and data store
    data sources does what the Read of the resource of the same kind
    does: from the same identifier, diagnostics and remote service, both
    make the same call and end with the same diagnostics, the same
    remote state and the same value in every field (the data store data
    source tests for the empty string where the resource tests for the
    non-empty one, to the same effect). *)
Theorem data_source_reads_like_the_resource :
  forall (world : Type) (L : Lib) (c : MakeAPIClient world) (w : world),
    (forall config resp0,
       (let (r, w') := ScenarioDataSource_Read L c config resp0 w in
        (mapResponse ScenarioDataSource_fields r, w'))
       = ScenarioResource_Read L c (ScenarioDataSource_fields config)
           (mapResponse ScenarioDataSource_fields resp0) w) /\
    (forall config resp0,
       (let (r, w') := TeamDataSource_Read L c config resp0 w in
        (mapResponse TeamDataSource_fields r, w'))
       = TeamResource_Read L c (TeamDataSource_fields config)
           (mapResponse TeamDataSource_fields resp0) w) /\
    (forall config resp0,
       (let (r, w') := OrganizationDataSource_Read L c config resp0 w in
        (mapResponse OrganizationDataSource_fields r, w'))
       = OrganizationResource_Read L c (OrganizationDataSource_fields config)
           (mapResponse OrganizationDataSource_fields resp0) w) /\
    (forall config resp0,
       (let (r, w') := DataStoreDataSource_Read L c config resp0 w in
        (mapResponse DataStoreDataSource_fields r, w'))
       = DataStoreResource_Read L c (DataStoreDataSource_fields config)
           (mapResponse DataStoreDataSource_fields resp0) w).
Proof.
  intros world L c w. repeat split; intros config resp0;
    unfold_data_sources; unfold_resources;
    unfold mapResponse at 2; simpl;
    destruct (HasError (resource.Diagnostics resp0)); try reflexivity.
  - destruct (Get L c Scenario (ValueString (ScenarioDataSourceModel.Id config)) w)
      as [[v|err] w']; reflexivity.
  - destruct (Get L c Team (ValueString (TeamDataSourceModel.Id config)) w)
      as [[v|err] w']; reflexivity.
  - destruct (Get L c Organization (ValueString (OrganizationDataSourceModel.Id config)) w)
      as [[v|err] w']; reflexivity.
  - destruct (Get L c DataStore (ValueString (DataStoreDataSourceModel.Id config)) w)
      as [[v|err] w']; [|reflexivity].
    unfold mapResponse, setState, DataStoreResource_refresh, DataStoreDataSource_fields.
    simpl. rewrite !nullIfEmpty_valueOrNull. reflexivity.
Qed.

Lemma Resource_Read_refresh {world : Type} (L : Lib) (c : MakeAPIClient world)
  (k : kind) (state : ModelT k) (resp0 : resource.Response (ModelT k))
  (w w' : world) (v : ResponseT k) :
  HasError (resource.Diagnostics resp0) = false ->
  Get L c k (ValueString (ModelId k state)) w = (Ok v, w') ->
  Resource_Read L c k state resp0 w = (setState (Resource_refresh L k v) resp0, w').
Proof.
  intros Hdiag Hget.
  destruct k; simpl in *; unfold_resources; rewrite Hdiag, Hget; reflexivity.
Qed.

Lemma Resource_refresh_id (L : Lib) (k : kind) (v : ResponseT k) :
  ModelId k (Resource_refresh L k v) = StringValue (ResponseID k v).
Proof. destruct k; reflexivity. Qed.

Lemma setIfNonEmpty_known (s : string) (old : tfString) :
  s <> "" -> setIfNonEmpty s old = valueOrNull s.
Proof.
  intros Hs. unfold setIfNonEmpty, valueOrNull.
  apply String.eqb_neq in Hs. rewrite Hs. reflexivity.
Qed.

(** X9.  Read and Update are a full refresh: after a successful call the
    stored state is [Resource_refresh] of the record the remote
    returned, a function of that record alone, so no field of the prior
    state or of the plan survives.  The one exception is the
    organization of a team on Update, which keeps the planned value when
    the returned record has none. *)
Theorem read_and_update_refresh_every_field :
  forall (world : Type) (L : Lib) (c : MakeAPIClient world) (k : kind)
         (data : ModelT k) (req : RequestT k) (resp0 : resource.Response (ModelT k))
         (w w' : world) (v : ResponseT k),
    HasError (resource.Diagnostics resp0) = false ->
    Resource_request k data = Ok req ->
    let id := ValueString (ModelId k data) in
    (Get L c k id w = (Ok v, w') ->
     Resource_Read L c k data resp0 w = (setState (Resource_refresh L k v) resp0, w')) /\
    (Update L c k id req w = (Ok v, w') ->
     (k <> Team \/ fields_set L k v) ->
     Resource_Update L c k data resp0 w = (setState (Resource_refresh L k v) resp0, w')).
Proof.
  intros world L c k data req resp0 w w' v Hdiag Hbuild id. subst id.
  split.
  - apply Resource_Read_refresh, Hdiag.
  - intros Hupd Hteam.
    request_cases k Hbuild; simpl in *; unfold_resources;
      rewrite Hdiag; try rewrite Heqr; rewrite Hupd; try reflexivity.
    destruct Hteam as [Hne|Hset]; [contradiction|].
    rewrite (setIfNonEmpty_known _ _ Hset). reflexivity.
Qed.

Lemma read_and_update_refresh_every_field_witness :
  let state := plannedScenario (StringValue "42") in
  Resource_Update (stubLib "42") stubClient Scenario state
    (noDiagnostics (Some state)) [response 200 "{}"]
  = (setState {| ScenarioResourceModel.Id := StringValue "42";
                 ScenarioResourceModel.Name := StringValue "n";
                 ScenarioResourceModel.Description := StringNull;
                 ScenarioResourceModel.Active := BoolValue true;
                 ScenarioResourceModel.TeamId := StringNull |}
       (noDiagnostics (Some state)), []).
Proof.
  intros state.
  assert (Hkind : Scenario <> Team) by discriminate.
  exact (proj2 (read_and_update_refresh_every_field _ (stubLib "42") stubClient Scenario
                  state (ScenarioResource_request state) (noDiagnostics (Some state))
                  [response 200 "{}"] [] (canned "42" Scenario) eq_refl eq_refl)
           eq_refl (or_introl Hkind)).
Defined.

(** ** How the operations compose *)

Lemma Resource_Create_refresh {world : Type} (L : Lib) (c : MakeAPIClient world)
  (k : kind) (plan : ModelT k) (req : RequestT k) (resp0 : resource.Response (ModelT k))
  (w w' : world) (v : ResponseT k) :
  HasError (resource.Diagnostics resp0) = false ->
  Resource_request k plan = Ok req ->
  Create L c k req w = (Ok v, w') ->
  fields_set L k v ->
  Resource_Create L c k plan resp0 w = (setState (Resource_refresh L k v) resp0, w').
Proof.
  intros Hdiag Hbuild Hcreate Hset.
  request_cases k Hbuild; simpl in *; unfold_resources;
    rewrite Hdiag; try rewrite Heqr; rewrite Hcreate.
  - destruct Hset as [Hd Ht].
    rewrite (setIfNonEmpty_known _ _ Hd), (setIfNonEmpty_known _ _ Ht). reflexivity.
  - destruct Hset as [Ht Hlen]. apply Z.ltb_lt in Hlen.
    unfold ConnectionResource_refresh.
    rewrite (setIfNonEmpty_known _ _ Ht), Hlen. reflexivity.
  - destruct Hset as (Ht & Hlen & Hsame). apply Z.ltb_lt in Hlen.
    unfold WebhookResource_refresh.
    rewrite (setIfNonEmpty_known _ _ Ht), Hlen, Hsame. reflexivity.
  - rewrite (setIfNonEmpty_known _ _ Hset). reflexivity.
  - reflexivity.
  - destruct Hset as [Hd Ht].
    rewrite (setIfNonEmpty_known _ _ Hd), (setIfNonEmpty_known _ _ Ht). reflexivity.
Qed.

(** X10.  Create followed by Read: when the create succeeds with a
    record whose optional fields all hold a value, and the remote
    returns the same record to a GET of its identifier, then Create
    stores the refresh of that record, the Read that follows asks for
    the identifier Create stored, and it leaves the state exactly as
    Create wrote it. *)
Theorem create_then_read_is_stable :
  forall (world : Type) (L : Lib) (c : MakeAPIClient world) (k : kind)
         (plan : ModelT k) (req : RequestT k) (resp0 : resource.Response (ModelT k))
         (w w1 w2 : world) (v : ResponseT k),
    HasError (resource.Diagnostics resp0) = false ->
    Resource_request k plan = Ok req ->
    Create L c k req w = (Ok v, w1) ->
    Get L c k (ResponseID k v) w1 = (Ok v, w2) ->
    fields_set L k v ->
    let created := setState (Resource_refresh L k v) resp0 in
    Resource_Create L c k plan resp0 w = (created, w1) /\
    Resource_Read L c k (Resource_refresh L k v) created w1 = (created, w2).
Proof.
  intros world L c k plan req resp0 w w1 w2 v Hdiag Hbuild Hcreate Hget Hset created.
  subst created. split.
  - exact (Resource_Create_refresh L c k plan req resp0 w w1 v Hdiag Hbuild Hcreate Hset).
  - rewrite (Resource_Read_refresh L c k _ _ w1 w2 v); [reflexivity | exact Hdiag |].
    rewrite Resource_refresh_id. exact Hget.
Qed.

Lemma create_then_read_is_stable_witness :
  let plan := plannedWebhook (MapValue {[ "mode" := StringValue "fast" ]}) in
  let stored := {| WebhookResourceModel.Id := StringValue "5";
                   WebhookResourceModel.Name := StringValue "n";
                   WebhookResourceModel.URL := StringValue "https://hook.example/1";
                   WebhookResourceModel.TeamId := StringValue "team-1";
                   WebhookResourceModel.Active := BoolValue true;
                   WebhookResourceModel.Settings :=
                     MapValue {[ "mode" := StringValue "fast" ]} |} in
  let scenario := {| ScenarioResourceModel.Id := StringValue "7";
                     ScenarioResourceModel.Name := StringValue "n";
                     ScenarioResourceModel.Description := StringValue "nightly sync";
                     ScenarioResourceModel.Active := BoolValue true;
                     ScenarioResourceModel.TeamId := StringValue "team-1" |} in
  (Resource_Create (populatedLib "5") stubClient Webhook plan (noDiagnostics None)
     [response 201 "{}"; response 200 "{}"]
   = (noDiagnostics (Some stored), [response 200 "{}"]) /\
   Resource_Read (populatedLib "5") stubClient Webhook stored (noDiagnostics (Some stored))
     [response 200 "{}"]
   = (noDiagnostics (Some stored), [])) /\
  (Resource_Create (populatedLib "7") stubClient Scenario
     {| ScenarioResourceModel.Id := StringUnknown;
        ScenarioResourceModel.Name := StringValue "n";
        ScenarioResourceModel.Description := StringNull;
        ScenarioResourceModel.Active := BoolValue true;
        ScenarioResourceModel.TeamId := StringNull |}
     (noDiagnostics None) [response 201 "{}"; response 200 "{}"]
   = (noDiagnostics (Some scenario), [response 200 "{}"]) /\
   Resource_Read (populatedLib "7") stubClient Scenario scenario
     (noDiagnostics (Some scenario)) [response 200 "{}"]
   = (noDiagnostics (Some scenario), [])).
Proof.
  intros plan stored scenario.
  assert (Hwebhook : fields_set (populatedLib "5") Webhook (populated "5" Webhook)).
  { split; [discriminate|]. split; reflexivity. }
  assert (Hscenario : fields_set (populatedLib "7") Scenario (populated "7" Scenario)).
  { split; discriminate. }
  split.
  - exact (create_then_read_is_stable _ (populatedLib "5") stubClient Webhook plan
             (WebhookResource_request plan {[ "mode" := VString "fast" ]})
             (noDiagnostics None)
             [response 201 "{}"; response 200 "{}"] [response 200 "{}"] []
             (populated "5" Webhook) eq_refl eq_refl eq_refl eq_refl Hwebhook).
  - exact (create_then_read_is_stable _ (populatedLib "7") stubClient Scenario _
             (ScenarioResource_request
                {| ScenarioResourceModel.Id := StringUnknown;
                   ScenarioResourceModel.Name := StringValue "n";
                   ScenarioResourceModel.Description := StringNull;
                   ScenarioResourceModel.Active := BoolValue true;
                   ScenarioResourceModel.TeamId := StringNull |})
             (noDiagnostics None)
             [response 201 "{}"; response 200 "{}"] [response 200 "{}"] []
             (populated "7" Scenario) eq_refl eq_refl eq_refl eq_refl Hscenario).
Defined.

(** X11.  Import followed by Read: ImportState stores the given
    identifier, the Read that follows asks the remote for exactly that
    identifier, and on success the state is the refresh of the record
    the remote returned, whatever the state held before the import. *)
Theorem import_then_read :
  forall (world : Type) (L : Lib) (c : MakeAPIClient world) (k : kind) (ID : string)
         (resp0 : resource.Response (ModelT k)) (w w' : world) (v : ResponseT k),
    HasError (resource.Diagnostics resp0) = false ->
    Get L c k ID w = (Ok v, w') ->
    exists imported : ModelT k,
      resource.State (Resource_ImportState k ID resp0) = Some imported /\
      ModelId k imported = StringValue ID /\
      Resource_Read L c k imported (Resource_ImportState k ID resp0) w
        = ({| resource.State := Some (Resource_refresh L k v);
              resource.Diagnostics := resource.Diagnostics resp0 |}, w').
Proof.
  intros world L c k ID resp0 w w' v Hdiag Hget.
  assert (Himp : exists imported : ModelT k,
            resource.State (Resource_ImportState k ID resp0) = Some imported /\
            ModelId k imported = StringValue ID /\
            resource.Diagnostics (Resource_ImportState k ID resp0)
              = resource.Diagnostics resp0).
  { destruct k; destruct resp0 as [[data|] ds]; eexists; repeat split. }
  destruct Himp as (imported & Hstate & Hid & Hds).
  exists imported. split; [exact Hstate|]. split; [exact Hid|].
  rewrite (Resource_Read_refresh L c k imported _ w w' v).
  - unfold setState. rewrite Hds. reflexivity.
  - rewrite Hds. exact Hdiag.
  - rewrite Hid. exact Hget.
Qed.

Lemma import_then_read_witness :
  exists imported : TeamResourceModel.t,
    resource.State (Resource_ImportState Team "9" (noDiagnostics None)) = Some imported /\
    ModelId Team imported = StringValue "9" /\
    Resource_Read (stubLib "9") stubClient Team imported
      (Resource_ImportState Team "9" (noDiagnostics None)) [response 200 "{}"]
    = ({| resource.State :=
            Some {| TeamResourceModel.Id := StringValue "9";
                    TeamResourceModel.Name := StringValue "n";
                    TeamResourceModel.OrganizationId := StringNull |};
          resource.Diagnostics := [] |}, []).
Proof.
  exact (import_then_read _ (stubLib "9") stubClient Team "9" (noDiagnostics None)
           [response 200 "{}"] [] (canned "9" Team) eq_refl eq_refl).
Defined.

(** ** Settings sent and echoed *)

Lemma ElementsAs_MapValue (elems : gmap string tfString) (m : gmap string string) :
  ElementsAs (MapValue elems) = Ok m -> StringValue <$> m = elems.
Proof.
  unfold ElementsAs. intros Hconv.
  destruct (bool_decide (map_Forall (fun _ e => is_Some (elem_string e)) elems)) eqn:Hall;
    [|discriminate Hconv].
  apply bool_decide_eq_true_1 in Hall. injection Hconv as <-.
  apply map_eq. intros key. rewrite lookup_fmap, lookup_omap.
  destruct (elems !! key) as [e|] eqn:Hkey; [|reflexivity].
  destruct (Hall key e Hkey) as [s Hs].
  destruct e; try discriminate Hs. reflexivity.
Qed.

Lemma planSettings_size (v : tfMap) (settings : gmap string value) :
  planSettings v = Ok settings ->
  match v with
  | MapValue elems => size settings = size elems
  | MapNull => settings = ∅
  | MapUnknown => False
  end.
Proof.
  destruct v as [| |elems]; cbv [planSettings Map_IsNull negb]; intros Hplan.
  - injection Hplan as <-. reflexivity.
  - discriminate Hplan.
  - destruct (ElementsAs (MapValue elems)) as [m|err] eqn:Hconv; [|discriminate Hplan].
    injection Hplan as <-. apply ElementsAs_MapValue in Hconv. subst elems.
    unfold requestSettings. rewrite !map_size_fmap. reflexivity.
Qed.

Lemma settingsValsTyped_echo (L : Lib) (elems : gmap string tfString)
  (settings : gmap string value) :
  planSettings (MapValue elems) = Ok settings -> settingsValsTyped L settings = elems.
Proof.
  cbv [planSettings Map_IsNull negb]. intros Hplan.
  destruct (ElementsAs (MapValue elems)) as [m|err] eqn:Hconv; [|discriminate Hplan].
  injection Hplan as <-. apply ElementsAs_MapValue in Hconv. subst elems.
  unfold settingsValsTyped, requestSettings.
  rewrite <- map_fmap_compose. apply map_fmap_ext. reflexivity.
Qed.

Lemma settingsVals_echo (L : Lib) (elems : gmap string tfString)
  (settings : gmap string value) :
  (forall s : string, fmt_Sprint L (VString s) = s) ->
  planSettings (MapValue elems) = Ok settings -> settingsVals L settings = elems.
Proof.
  cbv [planSettings Map_IsNull negb]. intros Hfmt Hplan.
  destruct (ElementsAs (MapValue elems)) as [m|err] eqn:Hconv; [|discriminate Hplan].
  injection Hplan as <-. apply ElementsAs_MapValue in Hconv. subst elems.
  unfold settingsVals, requestSettings.
  rewrite <- map_fmap_compose. apply map_fmap_ext.
  intros key s _. simpl. rewrite Hfmt. reflexivity.
Qed.

Lemma len_pos_size (m : gmap string value) : (0 <? len m) = negb (Nat.eqb (size m) 0).
Proof. unfold len. destruct (size m); reflexivity. Qed.

(** X12.  Settings survive a create that echoes them: when the plan's
    settings convert to a request and the created record carries the
    settings that were sent, [WebhookResource.Create] stores exactly the
    planned settings (null stays null, and every planned string comes
    back unchanged through the type switch).  [ConnectionResource.Create]
    does the same provided [%v] prints a string as it is. *)
Theorem created_settings_are_the_planned_ones :
  forall (world : Type) (L : Lib) (c : MakeAPIClient world) (w w' : world),
    (forall (plan : WebhookResourceModel.t) (settings : gmap string value)
            (resp0 : resource.Response WebhookResourceModel.t) (webhook : WebhookResponse.t),
       HasError (resource.Diagnostics resp0) = false ->
       planSettings (WebhookResourceModel.Settings plan) = Ok settings ->
       CreateWebhook L c (WebhookResource_request plan settings) w = (Ok webhook, w') ->
       WebhookResponse.Settings webhook = settings ->
       WebhookResourceModel.Settings <$>
         resource.State (fst (WebhookResource_Create L c plan resp0 w))
       = Some (WebhookResourceModel.Settings plan)) /\
    (forall (plan : ConnectionResourceModel.t) (settings : gmap string value)
            (resp0 : resource.Response ConnectionResourceModel.t)
            (connection : ConnectionResponse.t),
       (forall s : string, fmt_Sprint L (VString s) = s) ->
       HasError (resource.Diagnostics resp0) = false ->
       planSettings (ConnectionResourceModel.Settings plan) = Ok settings ->
       CreateConnection L c (ConnectionResource_request plan settings) w
         = (Ok connection, w') ->
       ConnectionResponse.Settings connection = settings ->
       ConnectionResourceModel.Settings <$>
         resource.State (fst (ConnectionResource_Create L c plan resp0 w))
       = Some (ConnectionResourceModel.Settings plan)).
Proof.
  intros world L c w w'. split.
  - intros plan settings resp0 webhook Hdiag Hplan Hcreate Hecho.
    unfold WebhookResource_Create, bind, ret. rewrite Hdiag, Hplan, Hcreate. simpl.
    f_equal. rewrite Hecho.
    destruct (0 <? len settings) eqn:Hlen; [|reflexivity].
    destruct (WebhookResourceModel.Settings plan) as [| |elems] eqn:Hsettings.
    + apply planSettings_size in Hplan. subst settings.
      unfold len in Hlen. rewrite map_size_empty in Hlen. discriminate Hlen.
    + apply planSettings_size in Hplan. contradiction.
    + rewrite (settingsValsTyped_echo L elems settings Hplan). reflexivity.
  - intros plan settings resp0 connection Hfmt Hdiag Hplan Hcreate Hecho.
    unfold ConnectionResource_Create, bind, ret. rewrite Hdiag, Hplan, Hcreate. simpl.
    f_equal. rewrite Hecho.
    destruct (0 <? len settings) eqn:Hlen; [|reflexivity].
    destruct (ConnectionResourceModel.Settings plan) as [| |elems] eqn:Hsettings.
    + apply planSettings_size in Hplan. subst settings.
      unfold len in Hlen. rewrite map_size_empty in Hlen. discriminate Hlen.
    + apply planSettings_size in Hplan. contradiction.
    + rewrite (settingsVals_echo L elems settings Hfmt Hplan). reflexivity.
Qed.

Lemma created_settings_are_the_planned_ones_witness :
  let plan := plannedWebhook (MapValue {[ "mode" := StringValue "fast" ]}) in
  WebhookResourceModel.Settings <$>
    resource.State (fst (WebhookResource_Create settingsLib stubClient plan
                           (noDiagnostics None) [response 201 "{}"]))
  = Some (MapValue {[ "mode" := StringValue "fast" ]}).
Proof.
  intros plan.
  exact (proj1 (created_settings_are_the_planned_ones _ settingsLib stubClient
                  [response 201 "{}"] [])
           plan {[ "mode" := VString "fast" ]} (noDiagnostics None)
           {| WebhookResponse.ID := "5"; WebhookResponse.Name := "n";
              WebhookResponse.URL := "https://hook.example/5";
              WebhookResponse.TeamID := ""; WebhookResponse.Active := true;
              WebhookResponse.Settings := {[ "mode" := VString "fast" ]} |}
           eq_refl eq_refl eq_refl eq_refl).
Defined.

Lemma ElementsAs_Err (elems : gmap string tfString) (err : error) :
  ElementsAs (MapValue elems) = Err err ->
  exists (key : string) (e : tfString),
    elems !! key = Some e /\ (e = StringNull \/ e = StringUnknown).
Proof.
  unfold ElementsAs. intros Hconv.
  destruct (bool_decide (map_Forall (fun _ e => is_Some (elem_string e)) elems)) eqn:Hall;
    [discriminate Hconv|].
  apply bool_decide_eq_false_1 in Hall.
  apply map_not_Forall in Hall; [|apply _].
  destruct Hall as (key & e & Hkey & Hnot).
  exists key, e. split; [exact Hkey|].
  destruct e as [| |s]; auto.
  exfalso. apply Hnot. exists s. reflexivity.
Qed.

Lemma planSettings_Err (v : tfMap) (err : error) :
  planSettings v = Err err -> unconvertible v.
Proof.
  destruct v as [| |elems]; cbv [planSettings Map_IsNull negb]; intros Hplan.
  - discriminate Hplan.
  - left. reflexivity.
  - destruct (ElementsAs (MapValue elems)) as [m|err'] eqn:Hconv; [discriminate Hplan|].
    destruct (ElementsAs_Err elems err' Hconv) as (key & e & Hkey & He).
    right. exists elems, key, e. auto.
Qed.

Lemma unconvertible_planSettings (v : tfMap) :
  unconvertible v -> exists err, planSettings v = Err err.
Proof.
  intros [-> | (elems & key & e & -> & Hkey & He)].
  - eexists. reflexivity.
  - cbv [planSettings Map_IsNull negb]. unfold ElementsAs.
    rewrite bool_decide_eq_false_2; [eexists; reflexivity|].
    intros Hall. destruct (Hall key e Hkey) as [s Hs].
    destruct He as [-> | ->]; discriminate Hs.
Qed.

(** X13.  A create or update whose settings cannot be converted makes no
    request: it adds the conversion error to the diagnostics and leaves
    the state and the remote service as they were.  This happens only
    for a connection or a webhook, and exactly when the planned settings
    are unknown or hold a null or unknown element; a read and a delete
    never fail this way. *)
Theorem unconvertible_settings_stop_the_call :
  forall (world : Type) (L : Lib) (c : MakeAPIClient world) (op : operation) (k : kind)
         (data : ModelT k) (resp0 : resource.Response (ModelT k)) (w : world),
    HasError (resource.Diagnostics resp0) = false ->
    ((exists err, sentBody op k data = Err err) <->
     (op = OpCreate \/ op = OpUpdate) /\
     exists settings, ModelSettings k data = Some settings /\ unconvertible settings) /\
    (forall err : error,
       sentBody op k data = Err err ->
       Resource_run L c op k data resp0 w = (addConversionError err resp0, w)).
Proof.
  intros world L c op k data resp0 w Hdiag. split; [split|].
  - intros [err Hbody].
    destruct op; try discriminate Hbody;
      (split; [auto|]);
      destruct k; simpl in *; unfold sentBody, Resource_request in Hbody;
      try discriminate Hbody;
      match type of Hbody with
      | context [planSettings ?s] =>
          destruct (planSettings s) as [settings|err'] eqn:Hplan; [discriminate Hbody|];
          exists s; split; [reflexivity | exact (planSettings_Err s err' Hplan)]
      end.
  - intros [Hop (settings & Hsettings & Hbad)].
    destruct (unconvertible_planSettings settings Hbad) as [err Hplan].
    exists err.
    destruct Hop as [-> | ->]; destruct k; simpl in *; try discriminate Hsettings;
      injection Hsettings as <-; unfold sentBody, Resource_request;
      rewrite Hplan; reflexivity.
  - intros err Hbody.
    destruct op; try discriminate Hbody;
      destruct k; simpl in *; unfold sentBody, Resource_request in Hbody;
      try discriminate Hbody;
      match type of Hbody with
      | context [planSettings ?s] =>
          destruct (planSettings s) as [settings|err'] eqn:Hplan; [discriminate Hbody|];
          injection Hbody as <-
      end;
      unfold_resources; rewrite Hdiag, Hplan; reflexivity.
Qed.

Lemma unconvertible_settings_stop_the_call_witness :
  let plan := plannedWebhook (MapValue {[ "mode" := StringUnknown ]}) in
  Resource_run (stubLib "5") stubClient OpCreate Webhook plan (noDiagnostics None)
    [response 201 "{}"]
  = (addConversionError (errorString "Value Conversion Error") (noDiagnostics None),
     [response 201 "{}"]).
Proof.
  intros plan.
  exact (proj2 (unconvertible_settings_stop_the_call _ (stubLib "5") stubClient
                  OpCreate Webhook plan (noDiagnostics None) [response 201 "{}"] eq_refl)
           (errorString "Value Conversion Error") eq_refl).
Defined.

(** ** The provider *)

(** X14.  [Configure] hands out a client exactly when a token is
    available.  The token is the configured one when the attribute is
    not null, even if it is the empty string or unknown, and the
    environment's otherwise; the base URL is the configured one when
    that attribute is not null, otherwise the environment's, otherwise
    https://api.make.com/.  With a token, resources and data sources get
    the same client, whose token is not empty, and no diagnostic is
    added; without one, no client is set and an error is added.  So an
    api_token configured as the empty string fails even when
    MAKE_API_TOKEN is set. *)
Theorem configure_needs_a_token :
  forall (world : Type) (httpClient : Request -> world -> result Response * world)
         (env : Environ) (data : MakeProviderModel.t)
         (resp : provider.ConfigureResponse world),
    HasError (provider.Diagnostics resp) = false ->
    let token := if String_IsNull (MakeProviderModel.ApiToken data)
                 then MAKE_API_TOKEN env
                 else ValueString (MakeProviderModel.ApiToken data) in
    let url := if String_IsNull (MakeProviderModel.BaseUrl data)
               then (if String.eqb (MAKE_BASE_URL env) "" then "https://api.make.com/"
                     else MAKE_BASE_URL env)
               else ValueString (MakeProviderModel.BaseUrl data) in
    let r := MakeProvider_Configure httpClient env data resp in
    (token <> "" ->
     exists client : MakeAPIClient world,
       provider.ResourceData r = Some client /\
       provider.DataSourceData r = Some client /\
       ApiToken client = token /\ BaseUrl client = url /\
       provider.Diagnostics r = provider.Diagnostics resp) /\
    (token = "" ->
     provider.ResourceData r = provider.ResourceData resp /\
     provider.DataSourceData r = provider.DataSourceData resp /\
     HasError (provider.Diagnostics r) = true) /\
    (MakeProviderModel.ApiToken data = StringValue "" \/
     MakeProviderModel.ApiToken data = StringUnknown ->
     HasError (provider.Diagnostics r) = true).
Proof.
  intros world httpClient env data resp Hdiag token url r.
  assert (Hrun : r =
    if String.eqb token "" then
      {| provider.Diagnostics :=
           AddError "Missing API Token Configuration" missingTokenDetail
                    (provider.Diagnostics resp);
         provider.DataSourceData := provider.DataSourceData resp;
         provider.ResourceData := provider.ResourceData resp |}
    else
      {| provider.Diagnostics := provider.Diagnostics resp;
         provider.DataSourceData :=
           Some {| ApiToken := token; BaseUrl := url; HTTPClient := httpClient |};
         provider.ResourceData :=
           Some {| ApiToken := token; BaseUrl := url; HTTPClient := httpClient |} |}).
  { subst r token url. unfold MakeProvider_Configure. rewrite Hdiag.
    destruct (String_IsNull (MakeProviderModel.ApiToken data));
      destruct (String_IsNull (MakeProviderModel.BaseUrl data)); reflexivity. }
  assert (Hempty : token = "" -> HasError (provider.Diagnostics r) = true).
  { intros Htoken. rewrite Hrun, Htoken. simpl. apply HasError_AddError. }
  split; [|split].
  - intros Htoken. apply String.eqb_neq in Htoken. rewrite Hrun, Htoken.
    eexists. repeat split.
  - intros Htoken. split; [|split]; [| |exact (Hempty Htoken)];
      rewrite Hrun, Htoken; reflexivity.
  - intros Hexplicit. apply Hempty. subst token.
    destruct Hexplicit as [-> | ->]; reflexivity.
Qed.

Lemma configure_needs_a_token_witness :
  let env := {| MAKE_API_TOKEN := "from-env"; MAKE_BASE_URL := "" |} in
  let empty := {| provider.Diagnostics := [];
                  provider.DataSourceData := None;
                  provider.ResourceData := None |} in
  (exists client : MakeAPIClient (list Response),
     provider.ResourceData
       (MakeProvider_Configure stubDo env
          {| MakeProviderModel.ApiToken := StringNull;
             MakeProviderModel.BaseUrl := StringNull |} empty) = Some client /\
     ApiToken client = "from-env" /\ BaseUrl client = "https://api.make.com/") /\
  HasError (provider.Diagnostics
              (MakeProvider_Configure stubDo env
                 {| MakeProviderModel.ApiToken := StringValue "";
                    MakeProviderModel.BaseUrl := StringNull |} empty)) = true.
Proof.
  intros env empty.
  assert (Htoken : "from-env" <> "") by discriminate.
  split.
  - destruct (proj1 (configure_needs_a_token _ stubDo env
                       {| MakeProviderModel.ApiToken := StringNull;
                          MakeProviderModel.BaseUrl := StringNull |} empty eq_refl) Htoken)
      as (client & Hres & _ & Htok & Hurl & _).
    exists client. split; [exact Hres|]. split; [exact Htok | exact Hurl].
  - exact (proj2 (proj2 (configure_needs_a_token _ stubDo env
                           {| MakeProviderModel.ApiToken := StringValue "";
                              MakeProviderModel.BaseUrl := StringNull |} empty eq_refl))
             (or_introl eq_refl)).
Defined.

(** ** Reading an API error back *)

Lemma all_digits_free_of_colon (s : string) :
  all_digits s = true -> free_of ":" s = true.
Proof.
  induction s as [|a s IH]; [reflexivity|]. simpl.
  intros Hall. apply andb_true_iff in Hall as [Ha Hs].
  rewrite (IH Hs), andb_true_r.
  destruct (Ascii.eqb_spec a ":") as [->|_]; [discriminate Ha | reflexivity].
Qed.

Lemma FormatInt_free_of_colon (n : Z) : free_of ":" (FormatInt n) = true.
Proof.
  destruct (FormatInt_decimal_digits n) as [_ [Hall | (digits & -> & _ & Hall)]].
  - apply all_digits_free_of_colon, Hall.
  - simpl. apply all_digits_free_of_colon, Hall.
Qed.

Lemma split_at_colon (d d' x y : string) :
  free_of ":" d = true -> free_of ":" d' = true ->
  d +:+ String ":" x = d' +:+ String ":" y -> d = d' /\ x = y.
Proof.
  revert d'. induction d as [|a d IH]; intros [|b d'] Hd Hd' Heq.
  - injection Heq as ->. auto.
  - injection Heq as <- _. simpl in Hd'. discriminate Hd'.
  - injection Heq as -> _. simpl in Hd. discriminate Hd.
  - injection Heq as -> Heq. simpl in Hd, Hd'.
    apply andb_true_iff in Hd as [_ Hd]. apply andb_true_iff in Hd' as [_ Hd'].
    destruct (IH d' Hd Hd' Heq) as [-> ->]. auto.
Qed.

Lemma FormatInt_inj (n n' : Z) : FormatInt n = FormatInt n' -> n = n'.
Proof.
  intros Heq. apply (f_equal ParseInt) in Heq.
  rewrite !ParseInt_FormatInt in Heq. injection Heq as ->. reflexivity.
Qed.

Lemma apiError_inj (status status' : Z) (message message' : string) :
  apiError status message = apiError status' message' ->
  status = status' /\ message = message'.
Proof.
  unfold apiError. intros Heq. injection Heq as Heq.
  apply String.app_inj in Heq.
  destruct (split_at_colon _ _ _ _ (FormatInt_free_of_colon status)
              (FormatInt_free_of_colon status') Heq) as [Hs Hm].
  split; [apply FormatInt_inj, Hs|].
  injection Hm as ->. reflexivity.
Qed.

(** X15.  The status and the message of an API error can be read back
    from the error: two responses with readable bodies for which
    [HandleErrorResponse] returns the same error have the same status
    and the same extracted message; and the error text is "API request
    failed with status <status>: <message>" with the status in base 10.
    When the body cannot be read, the status line takes the place of
    the message. *)
Theorem api_error_determines_status_and_message :
  forall (L : Lib) (resp resp' : Response) (body body' : string),
    Body resp = Ok body ->
    Body resp' = Ok body' ->
    (HandleErrorResponse L resp = HandleErrorResponse L resp' ->
     StatusCode resp = StatusCode resp' /\ messagePolicy L body = messagePolicy L body') /\
    Error (HandleErrorResponse L resp)
      = "API request failed with status " +:+ FormatInt (StatusCode resp) +:+ ": "
          +:+ messagePolicy L body /\
    ParseInt (FormatInt (StatusCode resp)) = Some (StatusCode resp) /\
    (forall (status : Z) (line delivered : string) (err : error),
       Error (HandleErrorResponse L {| StatusCode := status; Status := line;
                                       Delivered := delivered; ReadError := Some err |})
         = "API request failed with status " +:+ FormatInt status +:+ ": " +:+ line).
Proof.
  intros L resp resp' body body' Hbody Hbody'.
  rewrite (HandleErrorResponse_policy L resp body Hbody),
          (HandleErrorResponse_policy L resp' body' Hbody').
  split; [|split; [|split]].
  - apply apiError_inj.
  - reflexivity.
  - apply ParseInt_FormatInt.
  - reflexivity.
Qed.

Lemma api_error_determines_status_and_message_witness :
  Error (HandleErrorResponse (stubLib "1") (response 503 "{}"))
    = "API request failed with status 503: {}".
Proof.
  exact (proj1 (proj2 (api_error_determines_status_and_message (stubLib "1")
                         (response 503 "{}") (response 503 "{}") "{}" "{}"
                         eq_refl eq_refl))).
Defined.
